(** * claude-code-notifier: the notification hooks of [notify.mjs]

    A shallow embedding of the hook script and the properties of its three
    entry points ([startTimer], [checkDuration], [permissionRequest]), of the
    locale lookup ([getSystemLanguage], [t]) and of the window adapter
    ([getTerminalWindowId], [focusTerminal]); then of the command line
    ([main]) and of the two installers ([Install.global],
    [Install.production]).

    Conventions of the model.
    - A JavaScript string is carried as a [string] that holds its UTF-8
      bytes (a surrogate with no partner as the three bytes UTF-8 would
      give it). [units] reads the UTF-16 code units back: [slice] and
      [code_units] count code units, as [String.prototype] does, and [utf8]
      is what a text is after it was written to a file and read again.
    - The timestamps are integers: where a statement speaks of the digits of
      a duration it takes the clock and the start record between 0 and
      8.64e15 (the range of [Date.now()] after 1970), where the arithmetic
      of doubles is that of [Z].
    - The file system is a finite map from paths to the text of regular
      files, two paths being two files; a write always succeeds, so the
      statements about what a hook stores take the session identifier to be
      a file name ([file_name]). [path.join] is [Posix.join] away from
      Windows; on Windows the host answers for the normalisation of
      [path.win32] ([Win32_join]).
    - An object literal is the list of its own properties, and a lookup in
      it goes on to [Object.prototype] ([Proto]); the values of the input
      are looked at through the six keys the script reads, which nothing
      inherits, and converted to text as values with no [toString] of their
      own are.
    - What the runtime and the operating system supply (standard input, the
      clock, the environment, the outcome of child processes) is read from a
      [Host]; [JSON.parse] is a parameter of the development. *)

From Stdlib Require Import ZArith String Ascii List Bool Lia.
From stdpp Require Import base option strings gmap pretty.
Import ListNotations.
Local Open Scope Z_scope.
Set Warnings "-register-all,-implicit-create-rewrite-hint-db".

(** ** Strings *)

Module JSString.

(** The double quote and the line feed, which the literals below splice in. *)
Definition dq : string := String (ascii_of_nat 34) EmptyString.
Definition lf : string := String (ascii_of_nat 10) EmptyString.
Definition quoted (s : string) : string := dq +:+ s +:+ dq.

Definition byte (c : ascii) : Z := Z.of_N (N_of_ascii c).
Definition char (n : Z) : ascii := ascii_of_N (Z.to_N n).

(** The two halves of a surrogate pair. *)
Definition is_high (u : Z) : bool := (55296 <=? u) && (u <? 56320).
Definition is_low (u : Z) : bool := (56320 <=? u) && (u <? 57344).

(** The UTF-16 code units of a text: one for a sequence of one, two or three
    bytes, a surrogate pair for a sequence of four. Bytes that start no
    sequence read as U+FFFD. *)
Fixpoint units (s : string) : list Z :=
  match s with
  | EmptyString => []
  | String c r =>
      let b := byte c in
      if b <? 128 then b :: units r
      else if (192 <=? b) && (b <? 224) then
        match r with
        | String c2 r2 => (b `mod` 32 * 64 + byte c2 `mod` 64) :: units r2
        | _ => [65533]
        end
      else if (224 <=? b) && (b <? 240) then
        match r with
        | String c2 (String c3 r3) =>
            (b `mod` 16 * 4096 + byte c2 `mod` 64 * 64 + byte c3 `mod` 64) :: units r3
        | _ => [65533]
        end
      else if (240 <=? b) && (b <? 248) then
        match r with
        | String c2 (String c3 (String c4 r4)) =>
            let cp := b `mod` 8 * 262144 + byte c2 `mod` 64 * 4096
                      + byte c3 `mod` 64 * 64 + byte c4 `mod` 64 in
            (55296 + ((cp - 65536) `div` 1024) `mod` 1024) :: (56320 + cp `mod` 1024) :: units r4
        | _ => [65533]
        end
      else 65533 :: units r
  end.

(** The bytes of one code point. *)
Definition encode (cp : Z) : string :=
  if cp <? 128 then String (char cp) ""
  else if cp <? 2048 then
    String (char (192 + cp `div` 64)) (String (char (128 + cp `mod` 64)) "")
  else if cp <? 65536 then
    String (char (224 + cp `div` 4096))
      (String (char (128 + (cp `div` 64) `mod` 64)) (String (char (128 + cp `mod` 64)) ""))
  else
    String (char (240 + cp `div` 262144))
      (String (char (128 + (cp `div` 4096) `mod` 64))
         (String (char (128 + (cp `div` 64) `mod` 64)) (String (char (128 + cp `mod` 64)) ""))).

(** The text of a list of code units; a high surrogate and the low one that
    follows it are one code point. *)
Fixpoint of_units (l : list Z) : string :=
  match l with
  | [] => ""
  | u :: rest =>
      match rest with
      | v :: rest' =>
          if is_high u && is_low v
          then encode (65536 + (u - 55296) * 1024 + (v - 56320)) +:+ of_units rest'
          else encode u +:+ of_units rest
      | [] => encode u
      end
  end.

(** [s.length]: the number of code units. *)
Definition code_units (s : string) : nat := List.length (units s).

(** [s.slice(start, end)] for indices that are not negative. *)
Definition slice (s : string) (start end_ : nat) : string :=
  of_units (take (end_ - start) (drop start (units s))).

(** What the UTF-8 encoder makes of code units: a surrogate with no partner
    becomes U+FFFD. *)
Fixpoint scrub (l : list Z) : list Z :=
  match l with
  | [] => []
  | u :: rest =>
      if is_high u then
        match rest with
        | v :: rest' => if is_low v then u :: v :: scrub rest' else 65533 :: scrub rest
        | [] => [65533]
        end
      else if is_low u then 65533 :: scrub rest
      else u :: scrub rest
  end.

(** A text after it was written as UTF-8 and read back. *)
Definition utf8 (s : string) : string := of_units (scrub (units s)).

(** White space of [String.prototype.trim] and of [parseInt]: TAB, LF, VT,
    FF, CR and SP in one byte; U+00A0 in two; U+1680, U+2000 to U+200A,
    U+2028, U+2029, U+202F, U+205F, U+3000 and U+FEFF in three. *)
Definition is_space (c : ascii) : bool :=
  let n := byte c in ((9 <=? n) && (n <=? 13)) || (n =? 32).

Definition is_space2 (c1 c2 : ascii) : bool :=
  (byte c1 =? 194) && (byte c2 =? 160).

Definition is_space3 (c1 c2 c3 : ascii) : bool :=
  let '(a, b, c) := (byte c1, byte c2, byte c3) in
  ((a =? 225) && (b =? 154) && (c =? 128))
  || ((a =? 226) && (b =? 128) &&
      (((128 <=? c) && (c <=? 138)) || (c =? 168) || (c =? 169) || (c =? 175)))
  || ((a =? 226) && (b =? 129) && (c =? 159))
  || ((a =? 227) && (b =? 128) && (c =? 128))
  || ((a =? 239) && (b =? 187) && (c =? 191)).

Fixpoint trimStart (s : string) : string :=
  match s with
  | String c1 s1 =>
      if is_space c1 then trimStart s1 else
      match s1 with
      | String c2 s2 =>
          if is_space2 c1 c2 then trimStart s2 else
          match s2 with
          | String c3 s3 => if is_space3 c1 c2 c3 then trimStart s3 else s
          | EmptyString => s
          end
      | EmptyString => s
      end
  | EmptyString => EmptyString
  end.

(** From the end: what is left of the text after its last character that is
    no white space. *)
Fixpoint trimEnd (s : string) : string :=
  match s with
  | String c s' =>
      let r := String c (trimEnd s') in
      match trimStart r with
      | EmptyString => EmptyString
      | _ => r
      end
  | EmptyString => EmptyString
  end.

Definition trim (s : string) : string := trimEnd (trimStart s).

(** [toLowerCase]: the letters A to Z; outside ASCII the Kelvin sign U+212A,
    which becomes [k], and U+0130, which becomes [i] and U+0307. Every other
    letter outside ASCII becomes a letter outside ASCII and is left as it is
    here: the script only compares the result with names in ASCII. *)
Definition lower (c : ascii) : ascii :=
  let n := byte c in
  if (65 <=? n) && (n <=? 90) then char (n + 32) else c.

Fixpoint toLowerCase (s : string) : string :=
  match s with
  | String c1 s1 =>
      match s1 with
      | String c2 s2 =>
          if (byte c1 =? 196) && (byte c2 =? 176)
          then String (char 105) (String (char 204) (String (char 135) (toLowerCase s2)))
          else
            match s2 with
            | String c3 s3 =>
                if (byte c1 =? 226) && (byte c2 =? 132) && (byte c3 =? 170)
                then String (char 107) (toLowerCase s3)
                else String (lower c1) (toLowerCase s1)
            | EmptyString => String (lower c1) (toLowerCase s1)
            end
      | EmptyString => String (lower c1) EmptyString
      end
  | EmptyString => EmptyString
  end.

(** [s.split(sep)[0]] for a separator of one character: the text before the
    first separator, the whole text when there is none. *)
Fixpoint split0 (sep : ascii) (s : string) : string :=
  match s with
  | String c s' => if Ascii.eqb c sep then EmptyString else String c (split0 sep s')
  | EmptyString => EmptyString
  end.

Definition truthy (s : string) : bool :=
  match s with EmptyString => false | _ => true end.

(** [a || b] on strings that may be [undefined]. *)
Definition or_else (a : option string) (b : string) : string :=
  match a with
  | Some s => if truthy s then s else b
  | None => b
  end.

End JSString.
Import JSString.
(** ** Numbers read back from text *)

Module JSNumber.

Definition digit_value (radix : Z) (c : ascii) : option Z :=
  let n := Z.of_nat (nat_of_ascii c) in
  let d :=
    if (48 <=? n) && (n <=? 57) then Some (n - 48)
    else if (97 <=? n) && (n <=? 122) then Some (n - 87)
    else if (65 <=? n) && (n <=? 90) then Some (n - 55)
    else None in
  match d with
  | Some v => if v <? radix then Some v else None
  | None => None
  end.

(** The longest prefix of digits, read in the radix; [None] when the text
    does not start with a digit. *)
Fixpoint digits (radix : Z) (acc : option Z) (s : string) : option Z :=
  match s with
  | String c s' =>
      match digit_value radix c with
      | Some v => digits radix (Some (match acc with Some a => a * radix + v | None => v end)) s'
      | None => acc
      end
  | EmptyString => acc
  end.

(** [parseInt(s)] with no radix argument; [None] is [NaN]. *)
Definition parseInt (s : string) : option Z :=
  let s1 := trimStart s in
  let '(sign, s2) :=
    match s1 with
    | String c r =>
        if Ascii.eqb c "-" then (-1, r)
        else if Ascii.eqb c "+" then (1, r)
        else (1, s1)
    | EmptyString => (1, s1)
    end in
  let '(radix, s3) :=
    match s2 with
    | String c0 (String c1 r) =>
        if Ascii.eqb c0 "0" && (Ascii.eqb c1 "x" || Ascii.eqb c1 "X") then (16, r)
        else (10, s2)
    | _ => (10, s2)
    end in
  match digits radix None s3 with
  | Some v => Some (sign * v)
  | None => None
  end.

(** [n.toString()] of an integer. *)
Definition toString (n : Z) : string := pretty n.

Definition is_digit (c : ascii) : bool :=
  let n := nat_of_ascii c in ((48 <=? n)%nat && (n <=? 57)%nat)%bool.

End JSNumber.
Import JSNumber.


(** ** Object literals *)

(** An object with text keys is the list of its own properties;
    [own_property o key] is the own property [key] of [o], with [None] when
    there is none. *)
Fixpoint own_property {A : Type} (o : list (string * A)) (key : string) : option A :=
  match o with
  | (k, v) :: rest => if decide (k = key) then Some v else own_property rest key
  | [] => None
  end.

Inductive Error : Type :=
| TypeError
| ENOENT
| ChildProcessError.

Inductive Outcome (A : Type) : Type :=
| Return (a : A)
| Throw (e : Error).
Arguments Return {A} a.
Arguments Throw {A} e.

(** What a lookup in the message table can find: a text of a bundle, or
    something that [Object.prototype] hands to every object. *)
Inductive Member : Type :=
| Text (s : string)
| Number (n : Z)
| Builtin (name : string).

(** ** What objects inherit *)

Module Proto.

(** The methods of [Object.prototype]. *)
Definition methods : list (string * Z) := [
  ("__defineGetter__", 2); ("__defineSetter__", 2); ("hasOwnProperty", 1);
  ("__lookupGetter__", 1); ("__lookupSetter__", 1); ("isPrototypeOf", 1);
  ("propertyIsEnumerable", 1); ("toString", 0); ("valueOf", 0); ("toLocaleString", 0)].

(** [key] as a property of [Object.prototype], read through an object whose
    prototype is [proto] ([None] for [null]): the constructor [Object], the
    accessor [__proto__], and the methods. *)
Definition Object_prototype (proto : option Member) (key : string) : option Member :=
  if decide (key = "constructor") then Some (Builtin "Object")
  else if decide (key = "__proto__") then proto
  else match own_property methods key with
       | Some _ => Some (Builtin ("Object.prototype." +:+ key))
       | None => None
       end.

(** The names every object literal answers to without having them. *)
Definition inherited (key : string) : bool :=
  bool_decide (is_Some (Object_prototype (Some (Builtin "Object.prototype")) key)).

(** [o[key]] for an object literal [o]: [None] is [undefined]. *)
Definition get (o : list (string * string)) (key : string) : option Member :=
  match own_property o key with
  | Some s => Some (Text s)
  | None => Object_prototype (Some (Builtin "Object.prototype")) key
  end.

(** The functions of the constructor [Object]. *)
Definition statics : list string := [
  "assign"; "create"; "defineProperties"; "defineProperty"; "entries"; "freeze";
  "fromEntries"; "getOwnPropertyDescriptor"; "getOwnPropertyDescriptors";
  "getOwnPropertyNames"; "getOwnPropertySymbols"; "getPrototypeOf"; "groupBy"; "hasOwn";
  "is"; "isExtensible"; "isFrozen"; "isSealed"; "keys"; "preventExtensions"; "seal";
  "setPrototypeOf"; "values"].

(** [f[key]] for one of the functions above, [Object] or a method of
    [Object.prototype]: its own [length] and [name], for [Object] its
    [prototype] and its functions, then what [Function.prototype] holds
    (whose [caller] and [arguments] throw), then [Object.prototype]. *)
Definition of_function (name : string) (arity : Z) (key : string) : Outcome (option Member) :=
  if decide (key = "length") then Return (Some (Number arity))
  else if decide (key = "name") then Return (Some (Text name))
  else if decide (name = "Object" /\ key = "prototype") then
    Return (Some (Builtin "Object.prototype"))
  else if decide (name = "Object" /\ key ∈ statics) then
    Return (Some (Builtin ("Object." +:+ key)))
  else if decide (key = "caller" \/ key = "arguments") then Throw TypeError
  else if decide (key ∈ ["apply"; "bind"; "call"; "toString"]) then
    Return (Some (Builtin ("Function.prototype." +:+ key)))
  else if decide (key = "constructor") then Return (Some (Builtin "Function"))
  else Return (Object_prototype (Some (Builtin "Function.prototype")) key).

(** [v[key]] for what a lookup in an object literal found. A text and a
    number have the properties of their wrappers, which the script never
    reaches: a text of a bundle is not looked into. *)
Definition of_member (v : Member) (key : string) : Outcome (option Member) :=
  match v with
  | Builtin name =>
      if decide (name = "Object") then of_function "Object" 1 key
      else if decide (name = "Object.prototype") then Return (Object_prototype None key)
      else match own_property methods (String.substring 17 (String.length name) name) with
           | Some arity => of_function (String.substring 17 (String.length name) name) arity key
           | None => Return None
           end
  | _ => Return None
  end.

Definition truthy (v : option Member) : bool :=
  match v with
  | Some (Text s) => JSString.truthy s
  | Some (Number n) => negb (n =? 0)
  | Some (Builtin _) => true
  | None => false
  end.

(** The conversion a template literal applies. *)
Definition ToString (v : Member) : string :=
  match v with
  | Text s => s
  | Number n => pretty n
  | Builtin name =>
      if decide (name = "Object.prototype") then "[object Object]"
      else if decide (name = "Object") then "function Object() { [native code] }"
      else "function " +:+ String.substring 17 (String.length name) name +:+
           "() { [native code] }"
  end.

End Proto.

(** ** Values that [JSON.parse] returns *)

(** A number is carried as the text [Number.prototype.toString] gives it: the
    script looks at a number of its input only through its truth value and
    that text. *)
Inductive JSValue : Type :=
| JUndefined
| JNull
| JBool (b : bool)
| JNumber (text : string)
| JString (s : string)
| JArray (items : list JSValue)
| JObject (props : list (string * JSValue)).


Module JS.

Definition ToBoolean (v : JSValue) : bool :=
  match v with
  | JUndefined | JNull => false
  | JBool b => b
  | JNumber text => if decide (text = "0") then false else true
  | JString s => truthy s
  | JArray _ | JObject _ => true
  end.

(** [a || b]. *)
Definition or_else (a b : JSValue) : JSValue :=
  if ToBoolean a then a else b.

(** The conversion a template literal applies. *)
Fixpoint ToString (v : JSValue) : string :=
  match v with
  | JUndefined => "undefined"
  | JNull => "null"
  | JBool b => if b then "true" else "false"
  | JNumber text => text
  | JString s => s
  | JArray items =>
      (fix join (l : list JSValue) : string :=
         match l with
         | [] => ""
         | x :: rest =>
             let sx := match x with
                       | JUndefined | JNull => ""
                       | _ => ToString x
                       end in
             match rest with
             | [] => sx
             | _ => sx +:+ "," +:+ join rest
             end
         end) items
  | JObject _ => "[object Object]"
  end.

Definition own (props : list (string * JSValue)) (key : string) : JSValue :=
  default JUndefined (own_property props key).

(** [v.key] for the keys the script reads ([session_id], [prompt],
    [tool_name], [tool_input], [file_path], [command]): an own property of
    an object, [undefined] on every other value, a [TypeError] on [null]
    and [undefined]. *)
Definition get (v : JSValue) (key : string) : Outcome JSValue :=
  match v with
  | JUndefined | JNull => Throw TypeError
  | JObject props => Return (own props key)
  | _ => Return JUndefined
  end.

(** [v.slice(0, n)]: strings and arrays have the method, a call on anything
    else is a [TypeError]. *)
Definition slice0 (v : JSValue) (n : nat) : Outcome JSValue :=
  match v with
  | JString s => Return (JString (slice s 0 n))
  | JArray items => Return (JArray (firstn n items))
  | _ => Throw TypeError
  end.

End JS.

(** ** The host and the world *)

(** Options of [child_process.execSync] and [child_process.spawn]; a field
    the script leaves out is [None] (or [false]). *)
Record ProcessOptions : Type := {
  encoding : option string;
  timeout : option Z;          (* milliseconds *)
  detached : bool;
  stdio : option string;
}.

Inductive ExternalCall : Type :=
| ExecSync (command : string) (options : ProcessOptions)
| Spawn (file : string) (args : list string) (options : ProcessOptions).


(** The object handed to [notifier.notify], with the window the click
    callback closes over. *)
Record Notification : Type := {
  title : string;
  message : string;
  icon : option string;
  sound : bool;
  wait : bool;
  display_timeout : Z;         (* seconds *)
  appID : string;
  click_window : option string;
}.

(** The [options] argument of [notify]. *)
Record NotifyOptions : Type := {
  windowId : option string;
  opt_wait : option bool;
  opt_timeout : option Z;
}.

(** What the runtime and the operating system answer. [None] in an outcome
    stands for a call that throws. A process that cannot be started (a
    missing utility) does not make [spawn] throw: [spawn] returns, and the
    child emits an [error] event later ([spawn_error_event]). *)
Record Host : Type := {
  os_platform : string;                     (* os.platform() *)
  os_tmpdir : string;                       (* os.tmpdir() *)
  module_dirname : string;                  (* __dirname *)
  win32_directory : string -> string;       (* path.win32: a directory, normalised, and "\" *)
  win32_join : list string -> string;       (* path.win32.join of anything else *)
  env_LANG : option string;                 (* process.env.LANG *)
  env_LANGUAGE : option string;
  env_LC_ALL : option string;
  intl_locale : option string;              (* Intl.DateTimeFormat().resolvedOptions().locale *)
  stdin_text : string;                      (* all of process.stdin *)
  date_now : Z;                             (* Date.now() *)
  exec_stdout : string -> option string;    (* execSync: a non-zero exit, a missing utility and a timeout throw *)
  spawn_throws : string -> bool;            (* spawn throws *)
  spawn_error_event : string -> bool;       (* spawn returns, the child emits 'error' *)
}.

Record World : Type := {
  tempdir_exists : bool;
  files : gmap string string;
  calls : list ExternalCall;
  notifications : list Notification;
}.

(** ** Computations: a state that survives a throw *)

Definition M (A : Type) : Type := World -> Outcome A * World.

#[global] Instance M_ret : MRet M := fun A a w => (Return a, w).

#[global] Instance M_bind : MBind M := fun A B f c w =>
  match c w with
  | (Return a, w') => f a w'
  | (Throw e, w') => (Throw e, w')
  end.

Definition throw {A : Type} (e : Error) : M A := fun w => (Throw e, w).

Definition lift {A : Type} (o : Outcome A) : M A := fun w => (o, w).

(** [try { body } catch { handler }]. *)
Definition try_catch {A : Type} (body handler : M A) : M A := fun w =>
  match body w with
  | (Return a, w') => (Return a, w')
  | (Throw _, w') => handler w'
  end.

Definition when (b : bool) (c : M unit) : M unit :=
  if b then c else mret tt.


(** ** [path] *)

Module Posix.

(** The segments of a path, empty ones included: [a//b/] has the segments
    [a], the empty one, [b] and the empty one. *)
Fixpoint split (s : string) : list string :=
  match s with
  | String c r =>
      if Ascii.eqb c "/" then "" :: split r
      else match split r with
           | seg :: segs => String c seg :: segs
           | [] => [String c ""]
           end
  | EmptyString => [""]
  end.

(** One segment in [normalizeString]; the segments kept so far are a stack,
    the last one on top. *)
Definition step (allowAboveRoot : bool) (stack : list string) (seg : string) : list string :=
  if decide (seg = "") then stack
  else if decide (seg = ".") then stack
  else if decide (seg = "..") then
    match stack with
    | top :: below =>
        if decide (top = "..") then (if allowAboveRoot then ".." :: stack else stack)
        else below
    | [] => if allowAboveRoot then [".."] else []
    end
  else seg :: stack.

Fixpoint unsplit (segs : list string) : string :=
  match segs with
  | [] => ""
  | [seg] => seg
  | seg :: rest => seg +:+ "/" +:+ unsplit rest
  end.

Definition normalizeString (path : string) (allowAboveRoot : bool) : string :=
  unsplit (rev (fold_left (step allowAboveRoot) (split path) [])).

Definition starts_with_slash (s : string) : bool :=
  match s with String c _ => Ascii.eqb c "/" | EmptyString => false end.

Fixpoint ends_with_slash (s : string) : bool :=
  match s with
  | String c EmptyString => Ascii.eqb c "/"
  | String _ r => ends_with_slash r
  | EmptyString => false
  end.

Definition normalize (path : string) : string :=
  if decide (path = "") then "." else
  let isAbsolute := starts_with_slash path in
  let trailingSeparator := ends_with_slash path in
  let tail := normalizeString path (negb isAbsolute) in
  if decide (tail = "") then
    (if isAbsolute then "/" else if trailingSeparator then "./" else ".")
  else
    let tail := if trailingSeparator then tail +:+ "/" else tail in
    if isAbsolute then "/" +:+ tail else tail.

(** [path.posix.join(...parts)] *)
Definition join (parts : list string) : string :=
  match filter (fun p => p <> "") parts with
  | [] => "."
  | kept => normalize (unsplit kept)
  end.

End Posix.

(** A file name: a text with no path separator and no colon in it that is
    not empty, [.] or [..]. *)
Fixpoint no_separator (s : string) : bool :=
  match s with
  | String c r =>
      negb (Ascii.eqb c "/") && negb (Ascii.eqb c "\") && negb (Ascii.eqb c ":") &&
      no_separator r
  | EmptyString => true
  end.

Definition is_file_name (name : string) : bool :=
  no_separator name && negb (bool_decide (name = "")) &&
  negb (bool_decide (name = ".")) && negb (bool_decide (name = "..")).

(** [path.win32.join], whose normalisation of drives and shares is left to
    the host: a file name joined to a directory is appended to what the
    host makes of the directory. *)
Definition Win32_join (host : Host) (parts : list string) : string :=
  match parts with
  | [dir; name] =>
      if is_file_name name then win32_directory host dir +:+ name else win32_join host parts
  | _ => win32_join host parts
  end.

(** [path.join] of the host. *)
Definition join (host : Host) (parts : list string) : string :=
  if decide (os_platform host = "win32") then Win32_join host parts else Posix.join parts.

(** ** [fs] and [child_process] *)

Definition existsSync (path : string) : M bool := fun w =>
  (Return (bool_decide (is_Some (files w !! path))), w).

Definition readFileSync (path : string) : M string := fun w =>
  match files w !! path with
  | Some text => (Return text, w)
  | None => (Throw ENOENT, w)
  end.

(** The data must be a string ([ERR_INVALID_ARG_TYPE] otherwise); the file
    holds its UTF-8 encoding. *)
Definition writeFileSync (path : string) (data : JSValue) : M unit := fun w =>
  match data with
  | JString text =>
      (Return tt,
       {| tempdir_exists := tempdir_exists w;
          files := <[path := utf8 text]> (files w);
          calls := calls w;
          notifications := notifications w |})
  | _ => (Throw TypeError, w)
  end.

Definition unlinkSync (path : string) : M unit := fun w =>
  match files w !! path with
  | Some _ =>
      (Return tt,
       {| tempdir_exists := tempdir_exists w;
          files := delete path (files w);
          calls := calls w;
          notifications := notifications w |})
  | None => (Throw ENOENT, w)
  end.

Definition record_call (c : ExternalCall) : M unit := fun w =>
  (Return tt,
   {| tempdir_exists := tempdir_exists w;
      files := files w;
      calls := calls w ++ [c];
      notifications := notifications w |}).

(** [notifier.notify(notification, callback)] hands the notification to the
    backend. *)
Definition notifier_notify (n : Notification) : M unit := fun w =>
  (Return tt,
   {| tempdir_exists := tempdir_exists w;
      files := files w;
      calls := calls w;
      notifications := notifications w ++ [n] |}).

(** ** Configuration and message bundles *)

Module CONFIG.
Definition durationThreshold : Z := 60.
Definition iconPath (host : Host) : string :=
  join host [module_dirname host; ".."; "assets"; "claude-icon.png"].
Definition appName : string := "Claude Code".
End CONFIG.
Module Bundle.
Definition en : list (string * string) := [
  ("completed", "Completed"); ("seconds", "seconds");
  ("permissionRequest", "Permission Request");
  ("clickToFocus", "Click to focus terminal")].
Definition ko : list (string * string) := [
  ("completed", "완료"); ("seconds", "초");
  ("permissionRequest", "권한 요청");
  ("clickToFocus", "클릭하여 터미널로 이동")].
Definition ja : list (string * string) := [
  ("completed", "完了"); ("seconds", "秒");
  ("permissionRequest", "権限リクエスト");
  ("clickToFocus", "クリックしてターミナルにフォーカス")].
Definition zh : list (string * string) := [
  ("completed", "完成"); ("seconds", "秒");
  ("permissionRequest", "权限请求");
  ("clickToFocus", "点击聚焦终端")].
Definition de : list (string * string) := [
  ("completed", "Abgeschlossen"); ("seconds", "Sekunden");
  ("permissionRequest", "Berechtigungsanfrage");
  ("clickToFocus", "Klicken zum Fokussieren des Terminals")].
Definition fr : list (string * string) := [
  ("completed", "Terminé"); ("seconds", "secondes");
  ("permissionRequest", "Demande de permission");
  ("clickToFocus", "Cliquer pour focus le terminal")].
Definition es : list (string * string) := [
  ("completed", "Completado"); ("seconds", "segundos");
  ("permissionRequest", "Solicitud de permiso");
  ("clickToFocus", "Clic para enfocar la terminal")].
End Bundle.

Definition MESSAGES : list (string * list (string * string)) := [
  ("en", Bundle.en); ("ko", Bundle.ko); ("ja", Bundle.ja); ("zh", Bundle.zh);
  ("de", Bundle.de); ("fr", Bundle.fr); ("es", Bundle.es)].

(** The codes the specification lists as supported. *)
Definition supported : list string := ["en"; "ko"; "ja"; "zh"; "de"; "fr"; "es"].

(** [MESSAGES[lang]]: a bundle, or what [MESSAGES] inherits under that name. *)
Definition MESSAGES_get (lang : string) : option (list (string * string) + Member) :=
  match own_property MESSAGES lang with
  | Some bundle => Some (inl bundle)
  | None => inr <$> Proto.Object_prototype (Some (Builtin "Object.prototype")) lang
  end.

(** [MESSAGES[lang]?.[key] || MESSAGES.en[key] || key], the expression of [t]. *)
Definition translate (lang key : string) : Outcome Member :=
  let first :=
    match MESSAGES_get lang with
    | Some (inl bundle) => Return (Proto.get bundle key)
    | Some (inr object) => Proto.of_member object key
    | None => Return None
    end in
  match first with
  | Throw e => Throw e
  | Return found =>
      if Proto.truthy found then Return (default (Text key) found)
      else
        let base := Proto.get Bundle.en key in
        if Proto.truthy base then Return (default (Text key) base) else Return (Text key)
  end.

(** ** The script *)

Section Notify.

Context (JSON_parse : string -> option JSValue) (host : Host).

Definition execSync (command : string) (options : ProcessOptions) : M string :=
  record_call (ExecSync command options);;
  match exec_stdout host command with
  | Some out => mret out
  | None => throw ChildProcessError
  end.

(** [spawn(file, args, options).unref()]: what the child emits later is not
    part of the call. *)
Definition spawn (file : string) (args : list string) (options : ProcessOptions) : M unit :=
  record_call (Spawn file args options);;
  if spawn_throws host file then throw ChildProcessError else mret tt.

(** [{ encoding: 'utf-8', timeout: 3000 }] *)
Definition exec_options : ProcessOptions :=
  {| encoding := Some "utf-8"; timeout := Some 3000; detached := false; stdio := None |}.

(** [{ detached: true, stdio: 'ignore' }] *)
Definition spawn_options : ProcessOptions :=
  {| encoding := None; timeout := None; detached := true; stdio := Some "ignore" |}.

(** *** i18n *)

Definition culture_command : string :=
  "powershell -Command " +:+ quoted "(Get-Culture).TwoLetterISOLanguageName".

Definition getSystemLanguage : M string :=
  let os := os_platform host in
  lang ← try_catch
    (if decide (os = "win32") then
       out ← execSync culture_command exec_options;
       let result := trim out in
       mret (toLowerCase result)
     else
       let envLang :=
         JSString.or_else (env_LANG host)
           (JSString.or_else (env_LANGUAGE host)
              (JSString.or_else (env_LC_ALL host) "")) in
       mret (toLowerCase (split0 "." (split0 "_" envLang))))
    (match intl_locale host with
     | Some locale => mret (toLowerCase (split0 "-" locale))
     | None => mret "en"
     end);
  mret (if bool_decide (is_Some (MESSAGES_get lang)) then lang else "en").

Definition t (key : string) : M Member :=
  lang ← getSystemLanguage;
  lift (translate lang key).

(** *** Terminal focus *)

Definition frontmost_script : string :=
  "tell application " +:+ quoted "System Events" +:+
  " to get bundle identifier of first process whose frontmost is true".

Definition foreground_ps : string :=
  "Add-Type -TypeDefinition 'using System;using System.Runtime.InteropServices;public class Win{[DllImport(" +:+
  quoted "user32.dll" +:+
  ")]public static extern IntPtr GetForegroundWindow();}';[Win]::GetForegroundWindow().ToInt64()".

(** [None] is [null]. *)
Definition getTerminalWindowId : M (option string) :=
  let os := os_platform host in
  try_catch
    (if decide (os = "linux") then
       out ← execSync "xdotool getactivewindow" exec_options;
       mret (Some (trim out))
     else if decide (os = "darwin") then
       out ← execSync ("osascript -e '" +:+ frontmost_script +:+ "'") exec_options;
       mret (Some (trim out))
     else if decide (os = "win32") then
       out ← execSync ("powershell -Command " +:+ quoted foreground_ps) exec_options;
       mret (Some (trim out))
     else mret None)
    (mret None).

Definition activate_ps (windowId : string) : string :=
  "Add-Type -TypeDefinition 'using System;using System.Runtime.InteropServices;public class Win{[DllImport(" +:+
  quoted "user32.dll" +:+
  ")]public static extern bool SetForegroundWindow(IntPtr hWnd);}';[Win]::SetForegroundWindow([IntPtr]" +:+
  windowId +:+ ")".

Definition focusTerminal (windowId : option string) : M unit :=
  match windowId with
  | None => mret tt
  | Some id =>
      if negb (truthy id) then mret tt else
      let os := os_platform host in
      try_catch
        (if decide (os = "linux") then
           spawn "xdotool" ["windowactivate"; id] spawn_options
         else if decide (os = "darwin") then
           let script := "tell application id " +:+ quoted id +:+ " to activate" in
           spawn "osascript" ["-e"; script] spawn_options
         else if decide (os = "win32") then
           spawn "powershell" ["-Command"; activate_ps id] spawn_options
         else mret tt)
        (mret tt)
  end.

(** *** Temp file management *)

Definition getTempDir : M string := fun w =>
  let dir := join host [os_tmpdir host; "claude-code-notifier"] in
  (Return dir,
   if tempdir_exists w then w
   else {| tempdir_exists := true; files := files w;
           calls := calls w; notifications := notifications w |}).

Definition getTempFile (sessionId : JSValue) (type : string) : M string :=
  dir ← getTempDir;
  mret (join host [dir; type +:+ "-" +:+ JS.ToString sessionId]).

(** *** Stdin helper *)

Definition readStdin : JSValue :=
  match JSON_parse (stdin_text host) with
  | Some value => value
  | None => JObject []
  end.

(** *** Notification *)

Definition notify (title message : string) (options : NotifyOptions) : M unit :=
  found ← existsSync (CONFIG.iconPath host);
  let iconPath := if found : bool then Some (CONFIG.iconPath host) else None in
  notifier_notify
    {| title := title;
       message := message;
       icon := iconPath;
       sound := true;
       wait := default true (opt_wait options);
       display_timeout := default 10 (opt_timeout options);
       appID := CONFIG.appName;
       click_window := windowId options |}.

(** The callback [notify] registers, run when the backend reports back. *)
Definition notify_callback (options : NotifyOptions)
    (response activationType : option string) : M unit :=
  if bool_decide (response = Some "activate") || bool_decide (response = Some "clicked")
     || bool_decide (activationType = Some "contentsClicked")
  then
    match windowId options with
    | Some id => if truthy id then focusTerminal (Some id) else mret tt
    | None => mret tt
    end
  else mret tt.

(** *** Hook handlers *)

(** Hook: start timer (UserPromptSubmit). *)
Definition startTimer : M unit :=
  let input := readStdin in
  session_id ← lift (JS.get input "session_id");
  let sessionId := JS.or_else session_id (JString "default") in
  prompt_ ← lift (JS.get input "prompt");
  let prompt := JS.or_else prompt_ (JString "") in
  startFile ← getTempFile sessionId "start";
  promptFile ← getTempFile sessionId "prompt";
  windowFile ← getTempFile sessionId "window";
  writeFileSync startFile (JString (toString (date_now host)));;
  (if JS.ToBoolean prompt then
     excerpt ← lift (JS.slice0 prompt 50);
     writeFileSync promptFile excerpt
   else mret tt);;
  windowId ← getTerminalWindowId;
  match windowId with
  | Some id => if truthy id then writeFileSync windowFile (JString id) else mret tt
  | None => mret tt
  end.

(** [`${t('completed')} (${duration}${t('seconds')})`] *)
Definition completed_line (duration : Z) : M string :=
  completed ← t "completed";
  seconds ← t "seconds";
  mret (Proto.ToString completed +:+ " (" +:+ toString duration +:+
        Proto.ToString seconds +:+ ")").

(** Hook: check duration (Stop). A start time that is [NaN] makes the
    duration [NaN], which no comparison accepts. *)
Definition checkDuration : M unit :=
  let input := readStdin in
  session_id ← lift (JS.get input "session_id");
  let sessionId := JS.or_else session_id (JString "default") in
  startFile ← getTempFile sessionId "start";
  promptFile ← getTempFile sessionId "prompt";
  windowFile ← getTempFile sessionId "window";
  started ← existsSync startFile;
  if negb started then mret tt else
  try_catch
    (text ← readFileSync startFile;
     let startTime := parseInt text in
     let duration := (fun start => (date_now host - start) `div` 1000) <$> startTime in
     match duration with
     | Some d =>
         if CONFIG.durationThreshold <=? d then
           first ← completed_line d;
           hasPrompt ← existsSync promptFile;
           message ← (if hasPrompt : bool then
                        prompt ← readFileSync promptFile;
                        line ← completed_line d;
                        mret (line +:+ lf +:+ prompt +:+ "...")
                      else mret first);
           hasWindow ← existsSync windowFile;
           windowId ← (if hasWindow : bool then text ← readFileSync windowFile; mret (Some text) else mret None);
           notify CONFIG.appName message
             {| windowId := windowId; opt_wait := None; opt_timeout := None |}
         else mret tt
     | None => mret tt
     end;;
     unlinkSync startFile;;
     hasPrompt ← existsSync promptFile;
     when hasPrompt (unlinkSync promptFile);;
     hasWindow ← existsSync windowFile;
     when hasWindow (unlinkSync windowFile))
    (mret tt).

(** Hook: permission request. *)
Definition permissionRequest : M unit :=
  let input := readStdin in
  tool_name ← lift (JS.get input "tool_name");
  let toolName := JS.or_else tool_name (JString "unknown") in
  tool_input ← lift (JS.get input "tool_input");
  let toolInput := JS.or_else tool_input (JObject []) in
  session_id ← lift (JS.get input "session_id");
  let sessionId := JS.or_else session_id (JString "default") in
  file_path ← lift (JS.get toolInput "file_path");
  command ← lift (JS.get toolInput "command");
  let detail := JS.or_else (JS.or_else file_path command) (JString "") in
  shortDetail ← lift (JS.slice0 detail 50);
  windowFile ← getTempFile sessionId "window";
  hasWindow ← existsSync windowFile;
  windowId ← (if hasWindow : bool then text ← readFileSync windowFile; mret (Some text) else mret None);
  label ← t "permissionRequest";
  let message :=
    if JS.ToBoolean shortDetail
    then Proto.ToString label +:+ ": " +:+ JS.ToString toolName +:+ lf +:+
         JS.ToString shortDetail +:+ "..."
    else Proto.ToString label +:+ ": " +:+ JS.ToString toolName in
  notify CONFIG.appName message
    {| windowId := windowId; opt_wait := None; opt_timeout := Some 30 |}.

End Notify.

(** ** Vocabulary of the statements *)

Definition empty_world : World :=
  {| tempdir_exists := false; files := ∅; calls := []; notifications := [] |}.

Definition add_calls (cs : list ExternalCall) (w : World) : World :=
  {| tempdir_exists := tempdir_exists w; files := files w;
     calls := calls w ++ cs; notifications := notifications w |}.

Definition set_files (fs : gmap string string) (w : World) : World :=
  {| tempdir_exists := tempdir_exists w; files := fs;
     calls := calls w; notifications := notifications w |}.

Definition add_notification (n : Notification) (w : World) : World :=
  {| tempdir_exists := tempdir_exists w; files := files w;
     calls := calls w; notifications := notifications w ++ [n] |}.

Definition with_tempdir (w : World) : World :=
  {| tempdir_exists := true; files := files w;
     calls := calls w; notifications := notifications w |}.

(** The language [getSystemLanguage] settles on, and the child processes it
    runs to find it: both depend on the host alone ([getSystemLanguage_run]). *)
Definition resolved_language (host : Host) : string :=
  match (getSystemLanguage host empty_world).1 with
  | Return lang => lang
  | Throw _ => "en"
  end.

Definition language_calls (host : Host) : list ExternalCall :=
  calls (getSystemLanguage host empty_world).2.

(** The localized text of a key on a host. *)
Definition localized (host : Host) (key : string) : string :=
  match translate (resolved_language host) key with
  | Return found => Proto.ToString found
  | Throw _ => ""
  end.

(** What [getTerminalWindowId] returns on a host, and the calls it makes. *)
Definition captured_window (host : Host) : option string :=
  match (getTerminalWindowId host empty_world).1 with
  | Return r => r
  | Throw _ => None
  end.

Definition capture_calls (host : Host) : list ExternalCall :=
  calls (getTerminalWindowId host empty_world).2.

(** The value of [input.session_id || 'default']. *)
Definition session_of (input : JSValue) : Outcome JSValue :=
  match JS.get input "session_id" with
  | Return v => Return (JS.or_else v (JString "default"))
  | Throw e => Throw e
  end.

(** The path [getTempFile] gives a field of a session. *)
Definition session_file (host : Host) (sessionId : JSValue) (type : string) : string :=
  join host [join host [os_tmpdir host; "claude-code-notifier"];
             type +:+ "-" +:+ JS.ToString sessionId].

(** [v.key] where the access cannot throw. *)
Definition field (v : JSValue) (key : string) : JSValue :=
  match JS.get v key with
  | Return x => x
  | Throw _ => JUndefined
  end.

(** The message of a completion notice, in the words of the specification:
    the localized label, the duration and the localized unit in parentheses
    and, when a prompt excerpt is stored, a second line with the excerpt and
    an ellipsis. *)
Definition completion_message (host : Host) (duration : Z) (prompt : option string) : string :=
  let line := localized host "completed" +:+ " (" +:+ toString duration +:+
              localized host "seconds" +:+ ")" in
  match prompt with
  | Some excerpt => line +:+ lf +:+ excerpt +:+ "..."
  | None => line
  end.

(** The notification [checkDuration] issues for a session in a world. *)
Definition completion_notice (host : Host) (w : World) (sessionId : JSValue) (duration : Z)
    : Notification :=
  {| title := "Claude Code";
     message := completion_message host duration (files w !! session_file host sessionId "prompt");
     icon := if bool_decide (is_Some (files w !! CONFIG.iconPath host))
             then Some (CONFIG.iconPath host) else None;
     sound := true;
     wait := true;
     display_timeout := 10;
     appID := "Claude Code";
     click_window := files w !! session_file host sessionId "window" |}.

(** [floor((now - startTimestamp) / 1000)] of a start record; [None] when the
    record holds no number. *)
Definition duration_of (host : Host) (text : string) : option Z :=
  match parseInt text with
  | Some start => Some ((date_now host - start) `div` 1000)
  | None => None
  end.

Definition announcement (host : Host) (w : World) (sessionId : JSValue) (text : string)
    : list Notification :=
  match duration_of host text with
  | Some d => if 60 <=? d then [completion_notice host w sessionId d] else []
  | None => []
  end.

(** The store after [startTimer] for a session whose prompt is the text
    [prompt] (empty when there is none): the start time, the excerpt of a
    prompt that is not empty, the window handle when one was captured. *)
Definition stored_by_start (host : Host) (sessionId : JSValue) (prompt : string)
    (fs : gmap string string) : gmap string string :=
  let fs1 := <[session_file host sessionId "start" := utf8 (toString (date_now host))]> fs in
  let fs2 := if truthy prompt
             then <[session_file host sessionId "prompt" := utf8 (slice prompt 0 50)]> fs1
             else fs1 in
  match captured_window host with
  | Some id =>
      if truthy id then <[session_file host sessionId "window" := utf8 id]> fs2 else fs2
  | None => fs2
  end.

(** The message of a permission notice: the localized label and the tool
    name, and a second line with the first 50 characters of the detail and an
    ellipsis when there is a detail. *)
Definition permission_message (host : Host) (toolName : JSValue) (detail : string) : string :=
  let label := localized host "permissionRequest" in
  let excerpt := slice detail 0 50 in
  if truthy excerpt
  then label +:+ ": " +:+ JS.ToString toolName +:+ lf +:+ excerpt +:+ "..."
  else label +:+ ": " +:+ JS.ToString toolName.

Definition permission_notice (host : Host) (w : World) (sessionId toolName : JSValue)
    (detail : string) : Notification :=
  {| title := "Claude Code";
     message := permission_message host toolName detail;
     icon := if bool_decide (is_Some (files w !! CONFIG.iconPath host))
             then Some (CONFIG.iconPath host) else None;
     sound := true;
     wait := true;
     display_timeout := 30;
     appID := "Claude Code";
     click_window := files w !! session_file host sessionId "window" |}.


(** ** Hosts and inputs of the examples *)

Module Example.

Definition payload_s1 : string :=
  "{" +:+ quoted "session_id" +:+ ":" +:+ quoted "s1" +:+ "," +:+
  quoted "prompt" +:+ ":" +:+ quoted "fix the bug in parser.ts and rerun tests please" +:+ "}".

Definition payload_edit : string :=
  "{" +:+ quoted "session_id" +:+ ":" +:+ quoted "s1" +:+ "," +:+
  quoted "tool_input" +:+ ":{" +:+
  quoted "file_path" +:+ ":" +:+ quoted "src/parser.ts" +:+ "," +:+
  quoted "command" +:+ ":" +:+ quoted "npm test" +:+ "}}".

(** [JSON.parse] on the texts of the examples; every other text is taken
    for malformed. *)
Definition parse (text : string) : option JSValue :=
  if decide (text = "null") then Some JNull
  else if decide (text = "{}") then Some (JObject [])
  else if decide (text = payload_s1) then
    Some (JObject [("session_id", JString "s1");
                   ("prompt", JString "fix the bug in parser.ts and rerun tests please")])
  else if decide (text = payload_edit) then
    Some (JObject [("session_id", JString "s1");
                   ("tool_input", JObject [("file_path", JString "src/parser.ts");
                                           ("command", JString "npm test")])])
  else None.

(** A Linux host with a Korean locale, where [xdotool] answers. *)
Definition linux (input : string) (now : Z) : Host :=
  {| os_platform := "linux";
     os_tmpdir := "/tmp";
     module_dirname := "/opt/claude-code-notifier/hooks";
     win32_directory := fun _ => "";
     win32_join := fun _ => "";
     env_LANG := Some "ko_KR.UTF-8";
     env_LANGUAGE := None;
     env_LC_ALL := None;
     intl_locale := Some "ko-KR";
     stdin_text := input;
     date_now := now;
     exec_stdout := fun command =>
       if decide (command = "xdotool getactivewindow") then Some ("58720263" +:+ lf) else None;
     spawn_throws := fun _ => false;
     spawn_error_event := fun _ => false |}.

(** What [path.win32] makes of the directories of the examples, which are
    normalised and no roots. *)
Definition backslash (dir : string) : string := dir +:+ "\".

(** A Windows host where PowerShell cannot be run. *)
Definition windows (input : string) (now : Z) : Host :=
  {| os_platform := "win32";
     os_tmpdir := "C:\Temp";
     module_dirname := "C:\hooks";
     win32_directory := backslash;
     win32_join := fun _ => "C:\assets\claude-icon.png";
     env_LANG := None;
     env_LANGUAGE := None;
     env_LC_ALL := None;
     intl_locale := Some "de-DE";
     stdin_text := input;
     date_now := now;
     exec_stdout := fun _ => None;
     spawn_throws := fun _ => false;
     spawn_error_event := fun _ => true |}.

(** The store of session [s1], started at the given time. *)
Definition started (start : string) : World :=
  {| tempdir_exists := true;
     files := list_to_map [
       ("/tmp/claude-code-notifier/start-s1", start);
       ("/tmp/claude-code-notifier/prompt-s1", "fix the bug in parser.ts and rerun tests please");
       ("/tmp/claude-code-notifier/window-s1", "58720263")];
     calls := [];
     notifications := [] |}.

End Example.

(** ** The command line *)

(** How a run of the script ends: the promise of the hook it started
    (fulfilled or rejected), or [process.exit] after a line on the error
    output. *)
Inductive Ending : Type :=
| Settled (outcome : Outcome unit)
| Exited (code : Z) (stderr : string).

Definition usage : string :=
  "Usage: node notify.mjs <start-timer|check-duration|permission-request>".

(** The [switch] on [process.argv[2]]; [None] is a missing argument. *)
Definition main (JSON_parse : string -> option JSValue) (host : Host)
    (command : option string) (w : World) : Ending * World :=
  let run (hook : M unit) := let '(outcome, w') := hook w in (Settled outcome, w') in
  match command with
  | Some c =>
      if decide (c = "start-timer") then run (startTimer JSON_parse host)
      else if decide (c = "check-duration") then run (checkDuration JSON_parse host)
      else if decide (c = "permission-request") then run (permissionRequest JSON_parse host)
      else (Exited 1 usage, w)
  | None => (Exited 1 usage, w)
  end.

(** ** The installers *)

Module Install.

(** A command handed to [execSync], with the options the scripts give. *)
Record Command : Type := {
  line : string;
  with_stdio : string;
  with_cwd : option string;
}.

(** What a run of an installer leaves: the commands it ran, the lines of
    the two outputs, and the status [process.exit] was called with. *)
Record Transcript : Type := {
  ran : list Command;
  out : list string;
  err : list string;
  exited : option Z;
}.

Definition start : Transcript :=
  {| ran := []; out := []; err := []; exited := None |}.

(** The status the process ends with. *)
Definition status (tr : Transcript) : Z := default 0 (exited tr).

(** A step returns, or throws an error with a message. *)
Definition Step (A : Type) : Type := Transcript -> (A + string) * Transcript.

Definition done_ {A : Type} (a : A) : Step A := fun tr => (inl a, tr).

Definition and_then {A B : Type} (c : Step A) (k : A -> Step B) : Step B := fun tr =>
  match c tr with
  | (inl a, tr') => k a tr'
  | (inr message, tr') => (inr message, tr')
  end.

Definition try_ {A : Type} (body : Step A) (handler : string -> Step A) : Step A := fun tr =>
  match body tr with
  | (inl a, tr') => (inl a, tr')
  | (inr message, tr') => handler message tr'
  end.

Definition console_log (text : string) : Step unit := fun tr =>
  (inl tt, {| ran := ran tr; out := out tr ++ [text]; err := err tr; exited := exited tr |}).

Definition console_error (text : string) : Step unit := fun tr =>
  (inl tt, {| ran := ran tr; out := out tr; err := err tr ++ [text]; exited := exited tr |}).

Definition process_exit (code : Z) : Step unit := fun tr =>
  (inl tt, {| ran := ran tr; out := out tr; err := err tr; exited := Some code |}).

(** [execSync(line, options)]: [npm line] is [Some message] when the command
    fails, and the call then throws an error with that message. *)
Definition execSync (npm : string -> option string) (c : Command) : Step unit := fun tr =>
  let tr' := {| ran := ran tr ++ [c]; out := out tr; err := err tr; exited := exited tr |} in
  match npm (line c) with
  | None => (inl tt, tr')
  | Some message => (inr message, tr')
  end.

Definition list_global : Command :=
  {| line := "npm list -g node-notifier"; with_stdio := "ignore"; with_cwd := None |}.

Definition install_global : Command :=
  {| line := "npm install -g node-notifier"; with_stdio := "inherit"; with_cwd := None |}.

Definition install_production (dirname : string) : Command :=
  {| line := "npm install --production"; with_stdio := "inherit"; with_cwd := Some dirname |}.

Definition success : string := lf +:+ "claude-code-notifier installed successfully!".

(** The installer that puts [node-notifier] among the global packages. *)
Definition global (npm : string -> option string) : Step unit :=
  and_then (console_log "Installing claude-code-notifier dependencies (global)...") (fun _ =>
  try_
    (and_then
       (try_
          (and_then (execSync npm list_global) (fun _ =>
           console_log "node-notifier is already installed globally."))
          (fun _ =>
           and_then (console_log "Installing node-notifier globally...") (fun _ =>
           execSync npm install_global)))
       (fun _ => console_log success))
    (fun message =>
     and_then (console_error (lf +:+ "Failed to install dependencies: " +:+ message)) (fun _ =>
     and_then (console_error "Try running: npm install -g node-notifier") (fun _ =>
     process_exit 1)))).

(** The installer that runs [npm install] in the directory of the script. *)
Definition production (npm : string -> option string) (dirname : string) : Step unit :=
  and_then (console_log "Installing claude-code-notifier dependencies...") (fun _ =>
  try_
    (and_then (execSync npm (install_production dirname)) (fun _ =>
     console_log success))
    (fun message =>
     and_then (console_error (lf +:+ "Failed to install dependencies: " +:+ message)) (fun _ =>
     process_exit 1))).

End Install.

(** ** More vocabulary *)

(** The command [getTerminalWindowId] runs on a platform, if any. *)
Definition capture_command (os : string) : option string :=
  if decide (os = "linux") then Some "xdotool getactivewindow"
  else if decide (os = "darwin") then Some ("osascript -e '" +:+ frontmost_script +:+ "'")
  else if decide (os = "win32") then Some ("powershell -Command " +:+ quoted foreground_ps)
  else None.

(** The process [focusTerminal] starts on a platform for a window, if any. *)
Definition activation (os id : string) : list ExternalCall :=
  if decide (os = "linux") then [Spawn "xdotool" ["windowactivate"; id] spawn_options]
  else if decide (os = "darwin") then
    [Spawn "osascript" ["-e"; "tell application id " +:+ quoted id +:+ " to activate"]
       spawn_options]
  else if decide (os = "win32") then [Spawn "powershell" ["-Command"; activate_ps id] spawn_options]
  else [].

(** The backend reports a click. *)
Definition clicked (response activationType : option string) : bool :=
  bool_decide (response = Some "activate") || bool_decide (response = Some "clicked")
  || bool_decide (activationType = Some "contentsClicked").

(** The language code in a locale name of the environment. *)
Definition code_of (locale : string) : string :=
  toLowerCase (split0 "." (split0 "_" locale)).

(** [MESSAGES[lang] ? lang : 'en'] *)
Definition known_or_en (lang : string) : string :=
  if bool_decide (is_Some (MESSAGES_get lang)) then lang else "en".

(** The keys of the bundles. *)
Definition message_keys : list string :=
  ["completed"; "seconds"; "permissionRequest"; "clickToFocus"].

(** A value of the input that has no [slice] method. *)
Definition has_no_slice (v : JSValue) : Prop :=
  match v with
  | JBool _ | JNumber _ | JObject _ => True
  | _ => False
  end.

Module Sample.

(** A macOS host with a French locale, where the scripting bridge answers. *)
Definition darwin (input : string) (now : Z) : Host :=
  {| os_platform := "darwin";
     os_tmpdir := "/var/tmp";
     module_dirname := "/opt/claude-code-notifier/hooks";
     win32_directory := fun _ => "";
     win32_join := fun _ => "";
     env_LANG := Some "";
     env_LANGUAGE := Some "fr_FR.UTF-8";
     env_LC_ALL := Some "de_DE.UTF-8";
     intl_locale := Some "fr-FR";
     stdin_text := input;
     date_now := now;
     exec_stdout := fun command =>
       if decide (command = "osascript -e '" +:+ frontmost_script +:+ "'")
       then Some ("com.apple.Terminal" +:+ lf) else None;
     spawn_throws := fun _ => false;
     spawn_error_event := fun _ => false |}.

(** A Linux host with no display: [xdotool] fails, and cannot be started. *)
Definition headless (input : string) (now : Z) : Host :=
  {| os_platform := "linux";
     os_tmpdir := "/tmp";
     module_dirname := "/opt/claude-code-notifier/hooks";
     win32_directory := fun _ => "";
     win32_join := fun _ => "";
     env_LANG := Some "C.UTF-8";
     env_LANGUAGE := None;
     env_LC_ALL := None;
     intl_locale := Some "en-US";
     stdin_text := input;
     date_now := now;
     exec_stdout := fun _ => None;
     spawn_throws := fun _ => false;
     spawn_error_event := fun file => bool_decide (file = "xdotool") |}.

(** A Linux host whose [LANG] is no locale but a name that objects inherit. *)
Definition odd_locale (input : string) (now : Z) : Host :=
  {| os_platform := "linux";
     os_tmpdir := "/tmp";
     module_dirname := "/opt/claude-code-notifier/hooks";
     win32_directory := fun _ => "";
     win32_join := fun _ => "";
     env_LANG := Some "constructor";
     env_LANGUAGE := None;
     env_LC_ALL := None;
     intl_locale := Some "en-US";
     stdin_text := input;
     date_now := now;
     exec_stdout := fun _ => None;
     spawn_throws := fun _ => false;
     spawn_error_event := fun _ => false |}.

(** A prompt in Korean: 27 characters in 69 bytes. *)
Definition korean_prompt : string := "파서의 버그를 고치고 테스트를 다시 실행해 주세요".

(** A prompt in Korean of 71 characters. *)
Definition long_korean_prompt : string :=
  "알림 훅이 세션 파일을 지우기 전에 창 식별자를 읽도록 고치고, 영어가 아닌 언어에서도 메시지가 올바르게 잘리는지 확인해 주세요".

(** A prompt whose 50th and 51st code units are the two halves of U+1F600. *)
Definition emoji_prompt : string :=
  "aaaaaaaaaaaaaaaaaaaaaaaaaaaaaaaaaaaaaaaaaaaaaaaaa😀b".

(** A path of 65 characters. *)
Definition long_path : string :=
  "src/components/notifications/handlers/permissionRequestHandler.ts".

(** The payload of a prompt submission, as text and as the value
    [JSON.parse] makes of it; the texts hold no quote and no backslash. *)
Definition prompt_text (id prompt : string) : string :=
  "{" +:+ quoted "session_id" +:+ ":" +:+ quoted id +:+ "," +:+
  quoted "prompt" +:+ ":" +:+ quoted prompt +:+ "}".

Definition prompt_value (id prompt : string) : JSValue :=
  JObject [("session_id", JString id); ("prompt", JString prompt)].

(** The payload of a permission request with both details. *)
Definition permission_text (id tool file_path command : string) : string :=
  "{" +:+ quoted "session_id" +:+ ":" +:+ quoted id +:+ "," +:+
  quoted "tool_name" +:+ ":" +:+ quoted tool +:+ "," +:+
  quoted "tool_input" +:+ ":{" +:+ quoted "file_path" +:+ ":" +:+ quoted file_path +:+ "," +:+
  quoted "command" +:+ ":" +:+ quoted command +:+ "}}".

Definition permission_value (id tool file_path command : string) : JSValue :=
  JObject [("session_id", JString id); ("tool_name", JString tool);
           ("tool_input", JObject [("file_path", JString file_path);
                                   ("command", JString command)])].

Definition table : list (string * JSValue) := [
  (prompt_text "s1" korean_prompt, prompt_value "s1" korean_prompt);
  (prompt_text "s1" long_korean_prompt, prompt_value "s1" long_korean_prompt);
  (prompt_text "s1" emoji_prompt, prompt_value "s1" emoji_prompt);
  (prompt_text "x/../y" "hello", prompt_value "x/../y" "hello");
  (prompt_text "x/../y" "", prompt_value "x/../y" "");
  (prompt_text "s2" "", prompt_value "s2" "");
  (permission_text "s1" "Bash" "" "npm test", permission_value "s1" "Bash" "" "npm test");
  (permission_text "s1" "Edit" long_path "", permission_value "s1" "Edit" long_path "");
  (permission_text "s1" "Edit" emoji_prompt "", permission_value "s1" "Edit" emoji_prompt "")].

(** [JSON.parse] on the texts of the table and on a few more. *)
Definition parse (text : string) : option JSValue :=
  if bool_decide (is_Some (own_property table text)) then own_property table text
  else if decide (text = "42") then Some (JNumber "42")
  else if decide (text = "[]") then Some (JArray [])
  else if decide (text = "{" +:+ quoted "session_id" +:+ ":0}") then
    Some (JObject [("session_id", JNumber "0")])
  else if decide (text = "{" +:+ quoted "prompt" +:+ ":7}") then
    Some (JObject [("prompt", JNumber "7")])
  else if decide (text = "{" +:+ quoted "session_id" +:+ ":" +:+ quoted "s1" +:+ "}") then
    Some (JObject [("session_id", JString "s1")])
  else if decide (text = "{" +:+ quoted "tool_name" +:+ ":" +:+ quoted "Bash" +:+ "," +:+
                         quoted "tool_input" +:+ ":{" +:+ quoted "command" +:+ ":" +:+
                         quoted "npm test" +:+ "}}") then
    Some (JObject [("tool_name", JString "Bash");
                   ("tool_input", JObject [("command", JString "npm test")])])
  else if decide (text = "{" +:+ quoted "tool_input" +:+ ":{" +:+ quoted "file_path" +:+
                         ":7}}") then
    Some (JObject [("tool_input", JObject [("file_path", JNumber "7")])])
  else Example.parse text.

(** [npm] when the package is not installed and can be. *)
Definition npm_missing (line : string) : option string :=
  if decide (line = "npm list -g node-notifier")
  then Some "Command failed: npm list -g node-notifier" else None.

(** [npm] when nothing works. *)
Definition npm_broken (line : string) : option string :=
  Some ("Command failed: " +:+ line).

End Sample.


(** ** Vocabulary of the statements on text, paths and time *)

(** A UTF-16 code unit. *)
Definition is_unit (u : Z) : Prop := 0 <= u < 65536.

(** A text of ASCII characters. *)
Definition is_ascii (s : string) : Prop :=
  Forall (fun c => byte c < 128) (list_ascii_of_string s).

(** A text with no surrogate that lacks its partner: what a file, the
    standard input and the output of a child process hold. *)
Definition well_formed (s : string) : Prop := scrub (units s) = units s.

(** A name with no slash in it. *)
Fixpoint no_slash (s : string) : bool :=
  match s with
  | String c r => negb (Ascii.eqb c "/") && no_slash r
  | EmptyString => true
  end.

(** What [Posix.join] puts in front of a file name it appends to a
    directory: the directory, normalised, and a slash. *)
Definition base (dir : string) : string :=
  (if Posix.starts_with_slash dir then "/" else "") +:+
  match rev (fold_left (Posix.step (negb (Posix.starts_with_slash dir))) (Posix.split dir) []) with
  | [] => ""
  | l => Posix.unsplit l +:+ "/"
  end.

(** The three files of a session. *)
Definition session_files (host : Host) (sessionId : JSValue) : list string :=
  [session_file host sessionId "start"; session_file host sessionId "prompt";
   session_file host sessionId "window"].

(** A character that a file name can hold on the three platforms: a
    printable ASCII character that is no path separator, no colon and none
    of the other characters Windows reserves (the double quote, [*], [<],
    [>], [?] and [|]). *)
Definition name_char (c : ascii) : bool :=
  let n := byte c in
  (32 <=? n) && (n <? 127) &&
  negb (bool_decide (n ∈ [34; 42; 47; 58; 60; 62; 63; 92; 124])).

Fixpoint name_chars (s : string) : bool :=
  match s with
  | String c r => name_char c && name_chars r
  | EmptyString => true
  end.

(** The session identifier is a file name: at most 128 characters, each one
    that a file name can hold. [path.join] then puts the three files of the
    session in the temp directory under three names ([session_paths]), which
    the file system takes. *)
Definition file_name (id : string) : Prop :=
  name_chars id && (String.length id <=? 128)%nat = true.

(** The temp directory as it stands in front of the name of a file in it. *)
Definition temp_prefix (host : Host) : string :=
  let dir := join host [os_tmpdir host; "claude-code-notifier"] in
  if decide (os_platform host = "win32") then win32_directory host dir else base dir.

(** A time of the clock after 1970: [Date.now()] is at most 8.64e15. *)
Definition time_value (t : Z) : Prop := 0 <= t <= 8640000000000000.

(** The texts of the notifications as the user reads them, by language;
    English for every other code. *)
Module Labels.

Definition completed (lang : string) : string :=
  if decide (lang = "ko") then "완료"
  else if decide (lang = "ja") then "完了"
  else if decide (lang = "zh") then "完成"
  else if decide (lang = "de") then "Abgeschlossen"
  else if decide (lang = "fr") then "Terminé"
  else if decide (lang = "es") then "Completado"
  else "Completed".

Definition seconds (lang : string) : string :=
  if decide (lang = "ko") then "초"
  else if decide (lang = "ja") then "秒"
  else if decide (lang = "zh") then "秒"
  else if decide (lang = "de") then "Sekunden"
  else if decide (lang = "fr") then "secondes"
  else if decide (lang = "es") then "segundos"
  else "seconds".

Definition permissionRequest (lang : string) : string :=
  if decide (lang = "ko") then "권한 요청"
  else if decide (lang = "ja") then "権限リクエスト"
  else if decide (lang = "zh") then "权限请求"
  else if decide (lang = "de") then "Berechtigungsanfrage"
  else if decide (lang = "fr") then "Demande de permission"
  else if decide (lang = "es") then "Solicitud de permiso"
  else "Permission Request".

Definition clickToFocus (lang : string) : string :=
  if decide (lang = "ko") then "클릭하여 터미널로 이동"
  else if decide (lang = "ja") then "クリックしてターミナルにフォーカス"
  else if decide (lang = "zh") then "点击聚焦终端"
  else if decide (lang = "de") then "Klicken zum Fokussieren des Terminals"
  else if decide (lang = "fr") then "Cliquer pour focus le terminal"
  else if decide (lang = "es") then "Clic para enfocar la terminal"
  else "Click to focus terminal".

Definition text (lang key : string) : string :=
  if decide (key = "completed") then completed lang
  else if decide (key = "seconds") then seconds lang
  else if decide (key = "permissionRequest") then permissionRequest lang
  else clickToFocus lang.

End Labels.

(** The names [MESSAGES] answers to: the seven codes and what it inherits. *)
Definition answered : list string :=
  supported ++ ["constructor"; "__proto__"] ++ Proto.methods.*1.


(** A property of the input that is absent or a text. *)
Definition text_or_absent (o : option string) : JSValue :=
  match o with
  | Some s => JString s
  | None => JUndefined
  end.

(** Two runs of the script on one machine: the platform, the temp directory
    and the paths are the same; the input, the clock and the environment
    may differ. *)
Definition same_machine (host1 host2 : Host) : Prop :=
  os_platform host1 = os_platform host2 /\
  os_tmpdir host1 = os_tmpdir host2 /\
  win32_directory host1 = win32_directory host2 /\
  win32_join host1 = win32_join host2.

(** ** The library functions on examples *)

Example parseInt_timestamp : parseInt "1700000000000" = Some 1700000000000.
Proof. reflexivity. Qed.

Example parseInt_stops_at_text : parseInt "  -42px" = Some (-42).
Proof. reflexivity. Qed.

Example parseInt_hexadecimal : parseInt "0x1F" = Some 31.
Proof. reflexivity. Qed.

Example parseInt_NaN : parseInt "soon" = None.
Proof. reflexivity. Qed.

(** U+FEFF and U+00A0 are white space for [parseInt]. *)
Example parseInt_skips_BOM : parseInt (of_units [65279; 160; 54; 49]) = Some 61.
Proof. reflexivity. Qed.

Example trim_window_id : trim ("  58720263" +:+ lf) = "58720263".
Proof. reflexivity. Qed.

Example trim_no_break_space : trim (of_units [160; 97; 32; 98; 8233]) = "a b".
Proof. reflexivity. Qed.

Example language_of_LANG : toLowerCase (split0 "." (split0 "_" "ko_KR.UTF-8")) = "ko".
Proof. reflexivity. Qed.

Example language_of_C_locale : toLowerCase (split0 "." (split0 "_" "C.UTF-8")) = "c".
Proof. reflexivity. Qed.

(** The Kelvin sign is a capital [k]. *)
Example toLowerCase_Kelvin : toLowerCase (of_units [8490; 79]) = "ko".
Proof. reflexivity. Qed.

Example slice_of_short_text : slice "npm test" 0 50 = "npm test".
Proof. reflexivity. Qed.

(** Five characters of three bytes each. *)
Example slice_counts_code_units : slice "권한 요청" 0 2 = "권한" /\ code_units "권한 요청" = 5%nat.
Proof. split; reflexivity. Qed.

(** A character outside the basic plane is two code units; a cut between
    them leaves a high surrogate, which a file holds as U+FFFD. *)
Example slice_splits_a_pair :
  units "a😀" = [97; 55357; 56832] /\
  units (slice "a😀" 0 2) = [97; 55357] /\
  units (utf8 (slice "a😀" 0 2)) = [97; 65533].
Proof. repeat split; reflexivity. Qed.

Example join_normalises :
  Posix.join ["/tmp/claude-code-notifier"; "start-x/../y"] = "/tmp/claude-code-notifier/y" /\
  Posix.join ["/opt/hooks"; ".."; "assets"; "claude-icon.png"] = "/opt/assets/claude-icon.png" /\
  Posix.join ["a/"; "../../b/"] = "../b/" /\
  Posix.join ["/tmp//x/./"; "start-a/b"] = "/tmp/x/start-a/b".
Proof. repeat split; reflexivity. Qed.

Example ToString_of_array :
  JS.ToString (JArray [JNumber "1"; JNull; JArray [JString "a"; JBool true]]) = "1,,a,true".
Proof. reflexivity. Qed.

Example get_of_null : JS.get JNull "session_id" = Throw TypeError.
Proof. reflexivity. Qed.

Example get_of_text : JS.get (JString "text") "session_id" = Return JUndefined.
Proof. reflexivity. Qed.

Example inherited_constructor :
  Proto.get Bundle.en "constructor" = Some (Builtin "Object") /\
  Proto.get Bundle.en "completed" = Some (Text "Completed") /\
  Proto.get Bundle.en "no such key" = None.
Proof. repeat split; reflexivity. Qed.

(** ** Code units *)

Lemma byte_char (n : Z) : 0 <= n < 256 -> byte (char n) = n.
Proof. intros H. unfold byte, char. rewrite N_ascii_embedding; lia. Qed.

Lemma char_byte (c : ascii) : char (byte c) = c.
Proof. unfold byte, char. rewrite N2Z.id. apply ascii_N_embedding. Qed.

Lemma byte_range (c : ascii) : 0 <= byte c < 256.
Proof. unfold byte. pose proof (N_ascii_bounded c). lia. Qed.

Ltac arith := Z.div_mod_to_equations; lia.

(** Settle the comparisons of the goal that arithmetic decides. *)
Ltac decide_tests :=
  repeat match goal with
  | |- context [?a <? ?b] =>
      first [ rewrite (proj2 (Z.ltb_lt a b)) by arith | rewrite (proj2 (Z.ltb_ge a b)) by arith ]
  | |- context [?a <=? ?b] =>
      first [ rewrite (proj2 (Z.leb_le a b)) by arith | rewrite (proj2 (Z.leb_gt a b)) by arith ]
  end; cbn [andb orb negb].

Lemma append_empty_r (s : string) : s +:+ "" = s.
Proof.
  induction s as [|c s IH]; [reflexivity|].
  change (String c (s +:+ "") = String c s). congruence.
Qed.

Lemma append_assoc (a b c : string) : (a +:+ b) +:+ c = a +:+ b +:+ c.
Proof.
  induction a as [|x a IH]; [reflexivity|].
  change (String x ((a +:+ b) +:+ c) = String x (a +:+ b +:+ c)). congruence.
Qed.

Lemma units_encode (u : Z) (s : string) :
  0 <= u < 65536 -> units (encode u +:+ s) = u :: units s.
Proof.
  intros Hu. unfold encode.
  destruct (Z.ltb_spec u 128); [|destruct (Z.ltb_spec u 2048); [|destruct (Z.ltb_spec u 65536)]];
    try lia.
  - simpl. rewrite byte_char by arith. decide_tests. reflexivity.
  - simpl. rewrite !byte_char by arith. decide_tests. f_equal. arith.
  - simpl. rewrite !byte_char by arith. decide_tests. f_equal. arith.
Qed.

Lemma units_encode_pair (u v : Z) (s : string) :
  is_high u = true -> is_low v = true ->
  units (encode (65536 + (u - 55296) * 1024 + (v - 56320)) +:+ s) = u :: v :: units s.
Proof.
  unfold is_high, is_low. intros Hu Hv.
  apply andb_true_iff in Hu as [Hu1 Hu2]. apply andb_true_iff in Hv as [Hv1 Hv2].
  apply Z.leb_le in Hu1, Hv1. apply Z.ltb_lt in Hu2, Hv2.
  set (cp := 65536 + (u - 55296) * 1024 + (v - 56320)).
  assert (Hcp : 65536 <= cp < 1114112) by (subst cp; lia).
  unfold encode. decide_tests.
  simpl. rewrite !byte_char by arith. decide_tests.
  f_equal; [|f_equal]; subst cp; arith.
Qed.

Lemma of_units_cons2 (u v : Z) (rest : list Z) :
  of_units (u :: v :: rest) =
    if is_high u && is_low v
    then encode (65536 + (u - 55296) * 1024 + (v - 56320)) +:+ of_units rest
    else encode u +:+ of_units (v :: rest).
Proof. reflexivity. Qed.

(** Reading the code units of the text of a list of code units gives the
    list back. *)
Lemma units_of_units (l : list Z) : Forall is_unit l -> units (of_units l) = l.
Proof.
  remember (List.length l) as n eqn:Hn. revert l Hn.
  induction (lt_wf n) as [n _ IH]. intros l -> Hl.
  destruct l as [|u rest]; [reflexivity|].
  inversion Hl as [|? ? Hu Hrest]; subst.
  destruct rest as [|v rest'].
  - cbn [of_units]. rewrite <- (append_empty_r (encode u)).
    rewrite units_encode by exact Hu. reflexivity.
  - rewrite of_units_cons2.
    destruct (is_high u && is_low v) eqn:Hpair.
    + apply andb_true_iff in Hpair as [Hh Hl'].
      rewrite units_encode_pair by assumption.
      inversion Hrest; subst.
      f_equal. f_equal. eapply IH; [|reflexivity|assumption]. simpl. lia.
    + rewrite units_encode by exact Hu. f_equal.
      eapply IH; [|reflexivity|assumption]. simpl. lia.
Qed.

Lemma units_bounded_aux (n : nat) (s : string) :
  (String.length s <= n)%nat -> Forall is_unit (units s).
Proof.
  revert s. induction n as [|n IH]; intros s Hlen.
  - destruct s; [constructor|simpl in Hlen; lia].
  - destruct s as [|c1 s1]; [constructor|]. simpl in Hlen.
    pose proof (byte_range c1).
    cbn [units]. cbv zeta.
    repeat case_match; simpl in Hlen;
      repeat (constructor; [unfold is_unit; try pose proof (byte_range a);
                            try pose proof (byte_range a0); try pose proof (byte_range a1);
                            arith|]);
      try (apply IH; lia); try constructor.
Qed.

Lemma units_bounded (s : string) : Forall is_unit (units s).
Proof. apply (units_bounded_aux (String.length s)). lia. Qed.

(** [s.slice(0, n)] holds the first [n] code units of [s]. *)
Lemma units_slice (s : string) (n : nat) : units (slice s 0 n) = take n (units s).
Proof.
  unfold slice. rewrite Nat.sub_0_r, drop_0.
  apply units_of_units, Forall_take, units_bounded.
Qed.

Lemma length_slice (s : string) (n : nat) :
  code_units (slice s 0 n) = (n `min` code_units s)%nat.
Proof. unfold code_units. rewrite units_slice. apply length_take. Qed.

Lemma scrub_bounded (l : list Z) : Forall is_unit l -> Forall is_unit (scrub l).
Proof.
  remember (List.length l) as n eqn:Hn. revert l Hn.
  induction (lt_wf n) as [n _ IH]. intros l -> Hl.
  destruct l as [|u rest]; [constructor|].
  inversion Hl as [|? ? Hu Hrest]; subst. cbn [scrub].
  destruct (is_high u).
  - destruct rest as [|v rest']; [repeat constructor; unfold is_unit; lia|].
    inversion Hrest; subst.
    destruct (is_low v).
    + constructor; [exact Hu|]. constructor; [assumption|].
      eapply IH; [|reflexivity|assumption]. simpl. lia.
    + constructor; [unfold is_unit; lia|].
      eapply IH; [|reflexivity|assumption]. simpl. lia.
  - destruct (is_low u); (constructor; [unfold is_unit in *; lia|]);
      (eapply IH; [|reflexivity|assumption]; simpl; lia).
Qed.

(** The code units of a text that went through a file. *)
Lemma units_utf8 (s : string) : units (utf8 s) = scrub (units s).
Proof. unfold utf8. apply units_of_units, scrub_bounded, units_bounded. Qed.

(** A text of ASCII characters is its own UTF-8. *)
Lemma utf8_ascii (s : string) : is_ascii s -> utf8 s = s.
Proof.
  unfold is_ascii, utf8. induction s as [|c s IH]; intros H; [reflexivity|].
  simpl in H. inversion H as [|? ? Hc Hs]; subst.
  pose proof (byte_range c).
  cbn [units]. cbv zeta. rewrite (proj2 (Z.ltb_lt _ _) Hc).
  cbn [scrub]. unfold is_high, is_low.
  rewrite (proj2 (Z.leb_gt 55296 (byte c))) by lia.
  rewrite (proj2 (Z.leb_gt 56320 (byte c))) by lia. cbn [andb].
  specialize (IH Hs).
  destruct (scrub (units s)) as [|v rest] eqn:Hscrub.
  - cbn [of_units]. unfold encode. rewrite (proj2 (Z.ltb_lt _ _) Hc).
    rewrite char_byte. cbn [of_units] in IH. rewrite <- IH. reflexivity.
  - rewrite of_units_cons2. unfold is_high at 1.
    rewrite (proj2 (Z.leb_gt 55296 (byte c))) by lia. cbn [andb].
    rewrite IH. unfold encode. rewrite (proj2 (Z.ltb_lt _ _) Hc).
    rewrite char_byte. reflexivity.
Qed.

(** ** Reading back the start time *)

Lemma pretty_N_char_digit (d : N) :
  (d < 10)%N ->
  is_digit (pretty_N_char d) = true /\
  digit_value 10 (pretty_N_char d) = Some (Z.of_N d).
Proof.
  intros Hd.
  destruct d as [|p]; [split; reflexivity|].
  do 4 (destruct p as [p|p|]; try (split; reflexivity); try lia).
Qed.

Lemma digits_pretty_N_go (x : N) (s : string) :
  (0 < x)%N ->
  digits 10 None (pretty_N_go x s) = digits 10 (Some (Z.of_N x)) s.
Proof.
  revert s. induction (N.lt_wf_0 x) as [x _ IH]. intros s Hx.
  rewrite pretty_N_go_step by exact Hx.
  destruct (pretty_N_char_digit (x `mod` 10)%N) as [_ Hv]; [by apply N.mod_lt|].
  destruct (decide (x `div` 10 = 0)%N) as [Hz|Hnz].
  - rewrite Hz, pretty_N_go_0. cbn [digits]. rewrite Hv.
    assert (x `mod` 10 = x)%N as -> by (pose proof (N.div_mod x 10); lia).
    reflexivity.
  - assert (Hlt : (x `div` 10 < x)%N) by (apply N.div_lt; lia).
    assert (Hpos : (0 < x `div` 10)%N) by (apply N.neq_0_lt_0; exact Hnz).
    rewrite (IH _ Hlt _ Hpos).
    cbn [digits]. rewrite Hv. f_equal. f_equal.
    pose proof (N.div_mod x 10). lia.
Qed.

(** The text of a positive number starts with a digit, and so does what
    follows that digit, up to the end of the number. *)
Lemma pretty_N_go_head (x : N) (s : string) :
  (0 < x)%N ->
  exists c r, pretty_N_go x s = String c r /\ is_digit c = true /\
    (r = s \/ exists c1 r1, r = String c1 r1 /\ is_digit c1 = true).
Proof.
  revert s. induction (N.lt_wf_0 x) as [x _ IH]. intros s Hx.
  rewrite pretty_N_go_step by exact Hx.
  destruct (pretty_N_char_digit (x `mod` 10)%N) as [Hd _]; [by apply N.mod_lt|].
  destruct (decide (x `div` 10 = 0)%N) as [Hz|Hnz].
  - rewrite Hz, pretty_N_go_0. eauto 6.
  - destruct (IH (x `div` 10)%N) with (s := String (pretty_N_char (x `mod` 10)) s)
      as (c & r & -> & Hc & Hr); [apply N.div_lt; lia|apply N.neq_0_lt_0; exact Hnz|].
    exists c, r. split; [reflexivity|]. split; [exact Hc|].
    destruct Hr as [->|Hr]; [right; eauto|right; exact Hr].
Qed.

Lemma digit_is_plain (c : ascii) :
  is_digit c = true ->
  Ascii.eqb c "-" = false /\ Ascii.eqb c "+" = false /\
  Ascii.eqb c "x" = false /\ Ascii.eqb c "X" = false /\ byte c < 128 /\
  forall r, trimStart (String c r) = String c r.
Proof.
  destruct c as [[] [] [] [] [] [] [] []]; intros H; vm_compute in H;
    try discriminate H; repeat split; try reflexivity;
    intros [|c2 [|c3 r3]]; reflexivity.
Qed.

Lemma parseInt_digits (c : ascii) (r : string) :
  is_digit c = true ->
  (r = "" \/ exists c1 r1, r = String c1 r1 /\ is_digit c1 = true) ->
  parseInt (String c r) = digits 10 None (String c r).
Proof.
  intros Hc Hr.
  destruct (digit_is_plain c Hc) as (Hminus & Hplus & _ & _ & _ & Htrim).
  unfold parseInt. rewrite Htrim, Hminus, Hplus.
  destruct Hr as [->|(c1 & r1 & -> & Hc1)].
  - destruct (digits 10 None _); [f_equal; lia|reflexivity].
  - destruct (digit_is_plain c1 Hc1) as (_ & _ & Hx & HX & _).
    rewrite Hx, HX. simpl orb. rewrite andb_false_r.
    destruct (digits 10 None _); [f_equal; lia|reflexivity].
Qed.

(** [parseInt] reads back the text [startTimer] writes for a time. *)
Lemma parseInt_toString (n : Z) : 0 <= n -> parseInt (toString n) = Some n.
Proof.
  intros Hn. unfold toString, pretty, pretty_Z.
  destruct n as [|p|p]; [reflexivity| |lia].
  unfold pretty, pretty_positive, pretty, pretty_N.
  destruct (decide (N.pos p = 0)%N) as [|_]; [discriminate|].
  destruct (pretty_N_go_head (N.pos p) "") as (c & r & Heq & Hc & Hr); [lia|].
  pose proof (digits_pretty_N_go (N.pos p) "" ltac:(lia)) as Hdig.
  rewrite Heq in *. rewrite parseInt_digits by assumption.
  rewrite Hdig. reflexivity.
Qed.

(** The text of a number is ASCII, so a file holds it as it is. *)
Lemma pretty_N_go_ascii (x : N) (s : string) : is_ascii s -> is_ascii (pretty_N_go x s).
Proof.
  revert s. induction (N.lt_wf_0 x) as [x _ IH]. intros s Hs.
  destruct (decide (x = 0)%N) as [->|Hx]; [rewrite pretty_N_go_0; exact Hs|].
  rewrite pretty_N_go_step by lia.
  apply IH; [apply N.div_lt; lia|].
  constructor; [|exact Hs].
  destruct (pretty_N_char_digit (x `mod` 10)%N) as [Hd _]; [by apply N.mod_lt|].
  apply (digit_is_plain _ Hd).
Qed.

Lemma toString_ascii (n : Z) : is_ascii (toString n).
Proof.
  unfold toString, pretty, pretty_Z.
  destruct n as [|p|p]; [repeat constructor| |].
  - unfold pretty, pretty_positive, pretty, pretty_N.
    destruct (decide (N.pos p = 0)%N); [repeat constructor|].
    apply pretty_N_go_ascii. constructor.
  - constructor; [reflexivity|].
    unfold pretty, pretty_positive, pretty, pretty_N.
    destruct (decide (N.pos p = 0)%N); [repeat constructor|].
    apply pretty_N_go_ascii. constructor.
Qed.

Lemma utf8_toString (n : Z) : utf8 (toString n) = toString n.
Proof. apply utf8_ascii, toString_ascii. Qed.

(** ** Paths *)

Lemma split_no_slash (name : string) : no_slash name = true -> Posix.split name = [name].
Proof.
  induction name as [|c r IH]; [reflexivity|].
  cbn [no_slash Posix.split]. intros H. apply andb_true_iff in H as [Hc Hr].
  apply negb_true_iff in Hc. rewrite Hc, (IH Hr). reflexivity.
Qed.

Lemma split_nonempty (s : string) : Posix.split s <> [].
Proof.
  induction s as [|c r IH]; [discriminate|].
  cbn [Posix.split]. destruct (Ascii.eqb c "/"); [discriminate|].
  destruct (Posix.split r); discriminate.
Qed.

Lemma split_app (dir name : string) :
  Posix.split (dir +:+ "/" +:+ name) = Posix.split dir ++ Posix.split name.
Proof.
  induction dir as [|c r IH].
  - reflexivity.
  - change (String c r +:+ "/" +:+ name) with (String c (r +:+ "/" +:+ name)).
    cbn [Posix.split]. rewrite IH.
    destruct (Ascii.eqb c "/"); [reflexivity|].
    pose proof (split_nonempty r) as Hne.
    destruct (Posix.split r) as [|seg segs]; [congruence|reflexivity].
Qed.

Lemma unsplit_snoc (l : list string) (name : string) :
  Posix.unsplit (l ++ [name]) =
    match l with [] => "" | _ => Posix.unsplit l +:+ "/" end +:+ name.
Proof.
  induction l as [|seg rest IH]; [reflexivity|].
  destruct rest as [|seg' rest'].
  - change (seg +:+ "/" +:+ name = (seg +:+ "/") +:+ name). rewrite append_assoc. reflexivity.
  - change (Posix.unsplit ((seg :: seg' :: rest') ++ [name]))
      with (seg +:+ "/" +:+ Posix.unsplit ((seg' :: rest') ++ [name])).
    rewrite IH.
    change (Posix.unsplit (seg :: seg' :: rest'))
      with (seg +:+ "/" +:+ Posix.unsplit (seg' :: rest')).
    rewrite !append_assoc. reflexivity.
Qed.

Lemma ends_with_slash_app (dir name : string) :
  name <> "" -> no_slash name = true -> Posix.ends_with_slash (dir +:+ name) = false.
Proof.
  intros Hne Hplain. induction dir as [|c r IH].
  - change ("" +:+ name) with name.
    induction name as [|c r IH]; [congruence|].
    cbn [no_slash] in Hplain. apply andb_true_iff in Hplain as [Hc Hr].
    apply negb_true_iff in Hc.
    destruct r as [|c' r']; [exact Hc|].
    apply IH; [discriminate|exact Hr].
  - change (String c r +:+ name) with (String c (r +:+ name)).
    cbn [Posix.ends_with_slash].
    destruct (r +:+ name) eqn:Happ; [|exact IH].
    destruct r; [|discriminate Happ]. change ("" +:+ name) with name in Happ. congruence.
Qed.

Lemma step_name (allow : bool) (stack : list string) (name : string) :
  name <> "" -> name <> "." -> name <> ".." -> Posix.step allow stack name = name :: stack.
Proof.
  intros Hne Hdot Hdots. unfold Posix.step.
  destruct (decide (name = "")) as [|_]; [contradiction|].
  destruct (decide (name = ".")) as [|_]; [contradiction|].
  destruct (decide (name = "..")) as [|_]; [contradiction|].
  reflexivity.
Qed.

(** Joining a directory and a file name appends the name to the normalised
    directory. *)
Lemma join_name (dir name : string) :
  dir <> "" -> no_slash name = true -> name <> "" -> name <> "." -> name <> ".." ->
  Posix.join [dir; name] = base dir +:+ name.
Proof.
  intros Hdir Hplain Hne Hdot Hdots.
  unfold Posix.join.
  rewrite filter_cons_True by exact Hdir.
  rewrite filter_cons_True by exact Hne. rewrite filter_nil.
  destruct dir as [|c r] eqn:Hd; [congruence|]. rewrite <- Hd.
  change (Posix.unsplit [dir; name]) with (dir +:+ "/" +:+ name).
  unfold Posix.normalize.
  rewrite decide_False by (rewrite Hd; discriminate).
  assert (Hstart : Posix.starts_with_slash (dir +:+ "/" +:+ name) = Posix.starts_with_slash dir)
    by (rewrite Hd; reflexivity).
  rewrite Hstart.
  assert (Hend : Posix.ends_with_slash (dir +:+ "/" +:+ name) = false).
  { rewrite <- append_assoc. apply ends_with_slash_app; assumption. }
  rewrite Hend.
  unfold Posix.normalizeString. rewrite split_app, (split_no_slash name Hplain).
  rewrite fold_left_app. cbn [fold_left].
  rewrite step_name by assumption.
  cbn [rev]. rewrite unsplit_snoc. unfold base.
  set (l := rev _).
  assert (Htail : match l with [] => "" | _ :: _ => Posix.unsplit l +:+ "/" end +:+ name <> "").
  { destruct name; [congruence|].
    destruct (match l with [] => "" | _ :: _ => Posix.unsplit l +:+ "/" end); discriminate. }
  rewrite decide_False by exact Htail.
  clearbody l.
  destruct (Posix.starts_with_slash dir); [rewrite append_assoc|]; destruct l; reflexivity.
Qed.

Lemma normalize_nonempty (path : string) : Posix.normalize path <> "".
Proof.
  unfold Posix.normalize.
  destruct (decide (path = "")); [discriminate|].
  destruct (decide (Posix.normalizeString path _ = "")) as [|Hne].
  - destruct (Posix.starts_with_slash path); [discriminate|].
    destruct (Posix.ends_with_slash path); discriminate.
  - destruct (Posix.starts_with_slash path); [discriminate|].
    destruct (Posix.ends_with_slash path); [|exact Hne].
    destruct (Posix.normalizeString path _); [congruence|discriminate].
Qed.

Lemma join_nonempty (parts : list string) : Posix.join parts <> "".
Proof.
  unfold Posix.join. destruct (filter _ parts); [discriminate|apply normalize_nonempty].
Qed.

Lemma no_separator_no_slash (s : string) : no_separator s = true -> no_slash s = true.
Proof.
  induction s as [|c r IH]; [reflexivity|].
  cbn [no_separator no_slash]. intros H.
  apply andb_true_iff in H as [H Hr]. apply andb_true_iff in H as [H _].
  apply andb_true_iff in H as [Hc _].
  rewrite Hc, (IH Hr). reflexivity.
Qed.

Lemma no_separator_app (a b : string) :
  no_separator a = true -> no_separator b = true -> no_separator (a +:+ b) = true.
Proof.
  intros Ha Hb. induction a as [|c r IH]; [exact Hb|].
  change (String c r +:+ b) with (String c (r +:+ b)).
  cbn [no_separator] in *. apply andb_true_iff in Ha as [Hc Hr].
  rewrite Hc, (IH Hr). reflexivity.
Qed.

Lemma name_chars_no_separator (s : string) : name_chars s = true -> no_separator s = true.
Proof.
  induction s as [|c r IH]; [reflexivity|].
  cbn [name_chars no_separator]. intros H.
  apply andb_true_iff in H as [Hc Hr]. rewrite (IH Hr), andb_true_r.
  destruct (Ascii.eqb_spec c "/") as [->|_]; [discriminate Hc|].
  destruct (Ascii.eqb_spec c "\") as [->|_]; [discriminate Hc|].
  destruct (Ascii.eqb_spec c ":") as [->|_]; [discriminate Hc|].
  reflexivity.
Qed.

Lemma file_name_no_separator (id : string) : file_name id -> no_separator id = true.
Proof.
  unfold file_name. intros H. apply andb_true_iff in H as [H _].
  apply name_chars_no_separator, H.
Qed.

(** The name of the file of a field of a session is a file name when the
    identifier is. *)
Lemma field_file_name (id type : string) :
  file_name id -> In type ["start"; "prompt"; "window"] ->
  is_file_name (type +:+ "-" +:+ id) = true.
Proof.
  intros Hid Ht. unfold is_file_name.
  assert (Hsep : no_separator (type +:+ "-" +:+ id) = true).
  { simpl in Ht. destruct Ht as [<-|[<-|[<-|[]]]];
      (apply no_separator_app; [reflexivity|]);
      (apply (no_separator_app "-"); [reflexivity|apply file_name_no_separator, Hid]). }
  rewrite Hsep.
  simpl in Ht. destruct Ht as [<-|[<-|[<-|[]]]]; reflexivity.
Qed.

(** The file of a field of a session whose identifier is a file name is the
    file of that name in the temp directory. *)
Lemma session_file_name (host : Host) (id type : string) :
  file_name id ->
  In type ["start"; "prompt"; "window"] ->
  session_file host (JString id) type = temp_prefix host +:+ type +:+ "-" +:+ id.
Proof.
  intros Hid Ht. pose proof (field_file_name id type Hid Ht) as Hname.
  unfold session_file, temp_prefix. cbn [JS.ToString].
  unfold join at 1.
  destruct (decide (os_platform host = "win32")) as [Hos|Hos].
  - unfold Win32_join. rewrite Hname. reflexivity.
  - unfold is_file_name in Hname.
    apply andb_true_iff in Hname as [Hname Hdots].
    apply andb_true_iff in Hname as [Hname Hdot].
    apply andb_true_iff in Hname as [Hsep Hne].
    apply negb_true_iff, bool_decide_eq_false in Hne, Hdot, Hdots.
    apply join_name; try assumption.
    + unfold join. destruct (decide (os_platform host = "win32")); [contradiction|].
      apply join_nonempty.
    + apply no_separator_no_slash, Hsep.
Qed.

(** Two such files are one only when the field and the identifier are. *)
Lemma session_file_inj (host : Host) (id id' type type' : string) :
  file_name id -> file_name id' ->
  In type ["start"; "prompt"; "window"] ->
  In type' ["start"; "prompt"; "window"] ->
  session_file host (JString id) type = session_file host (JString id') type' ->
  type = type' /\ id = id'.
Proof.
  intros Hid Hid' Ht Ht' H.
  rewrite (session_file_name host id type), (session_file_name host id' type') in H
    by assumption.
  apply (inj (String.app _)) in H.
  simpl in Ht, Ht'.
  destruct Ht as [<-|[<-|[<-|[]]]]; destruct Ht' as [<-|[<-|[<-|[]]]];
    try discriminate H; (split; [reflexivity|]).
  - apply (inj (String.app "start-")) in H. exact H.
  - apply (inj (String.app "prompt-")) in H. exact H.
  - apply (inj (String.app "window-")) in H. exact H.
Qed.

(** The three files of a session whose identifier is a file name are three
    paths. *)
Lemma session_paths (host : Host) (id : string) :
  file_name id ->
  session_file host (JString id) "start" <> session_file host (JString id) "prompt" /\
  session_file host (JString id) "start" <> session_file host (JString id) "window" /\
  session_file host (JString id) "prompt" <> session_file host (JString id) "window".
Proof.
  intros Hid.
  repeat split; intros H; apply session_file_inj in H as [H _];
    try assumption; try discriminate H; simpl; auto.
Qed.

(** ** The labels *)

(** Membership in a list that is written out. *)
Ltac in_list := simpl; auto 20.

Lemma own_property_In {A : Type} (o : list (string * A)) (key : string) (v : A) :
  own_property o key = Some v -> In (key, v) o.
Proof.
  induction o as [|[k x] rest IH]; simpl; [discriminate|].
  destruct (decide (k = key)) as [->|_].
  - intros [= ->]. left. reflexivity.
  - intros H. right. apply IH, H.
Qed.

(** [MESSAGES[lang]] is there for the seven codes and for the names of
    [Object.prototype], and for nothing else. *)
Lemma MESSAGES_get_answered (lang : string) :
  is_Some (MESSAGES_get lang) <-> In lang answered.
Proof.
  split.
  - unfold MESSAGES_get, Proto.Object_prototype.
    destruct (own_property MESSAGES lang) as [bundle|] eqn:Hown.
    + intros _. apply own_property_In in Hown. simpl in Hown.
      repeat (destruct Hown as [Hown|Hown]; [injection Hown as <- _; simpl; tauto|]).
      contradiction.
    + destruct (decide (lang = "constructor")) as [->|_]; [intros _; simpl; tauto|].
      destruct (decide (lang = "__proto__")) as [->|_]; [intros _; simpl; tauto|].
      destruct (own_property Proto.methods lang) as [arity|] eqn:Hm;
        [|intros [x Hx]; discriminate Hx].
      intros _. apply own_property_In in Hm. simpl in Hm.
      repeat (destruct Hm as [Hm|Hm]; [injection Hm as <- _; simpl; tauto|]).
      contradiction.
  - intros H. simpl in H.
    repeat (destruct H as [<-|H]; [eexists; reflexivity|]). contradiction.
Qed.

(** Whatever name [MESSAGES] answers to, the four keys of the bundles give
    the text of the language, and the English text when the name is no
    language. *)
Lemma translate_answered :
  Forall (fun lang =>
            Forall (fun key => translate lang key = Return (Text (Labels.text lang key)))
              message_keys) answered.
Proof. repeat constructor. Qed.

Lemma translate_label (lang key : string) :
  In lang answered -> In key message_keys ->
  translate lang key = Return (Text (Labels.text lang key)).
Proof.
  intros Hlang Hkey.
  pose proof translate_answered as H.
  rewrite Forall_forall in H. specialize (H lang (proj2 (list_elem_of_In _ _) Hlang)).
  rewrite Forall_forall in H. exact (H key (proj2 (list_elem_of_In _ _) Hkey)).
Qed.

(** ** Running the helpers *)

Section Runs.

Context (JSON_parse : string -> option JSValue) (host : Host).

Lemma getSystemLanguage_run (w : World) :
  getSystemLanguage host w =
    (Return (resolved_language host), add_calls (language_calls host) w).
Proof.
  unfold resolved_language, language_calls, getSystemLanguage, try_catch, execSync,
    record_call, throw, add_calls, mbind, mret, M_bind, M_ret; simpl.
  destruct (decide (os_platform host = "win32")); simpl.
  - destruct (exec_stdout host culture_command); simpl.
    + reflexivity.
    + destruct (intl_locale host); reflexivity.
  - rewrite app_nil_r. destruct w; reflexivity.
Qed.

Lemma bind_run {A B : Type} (c : M A) (f : A -> M B) (w w1 : World) (a : A) :
  c w = (Return a, w1) -> (c ≫= f) w = f a w1.
Proof. intros H. unfold mbind, M_bind. rewrite H. reflexivity. Qed.


(** The language the host settles on is a name [MESSAGES] answers to. *)
Lemma resolved_language_answered : In (resolved_language host) answered.
Proof.
  assert (H : forall lang,
            In (if bool_decide (is_Some (MESSAGES_get lang)) then lang else "en") answered).
  { intros lang. case_bool_decide as Hl; [apply MESSAGES_get_answered, Hl|in_list]. }
  unfold resolved_language, getSystemLanguage, try_catch, execSync,
    record_call, throw, mbind, mret, M_bind, M_ret; simpl.
  destruct (decide (os_platform host = "win32")); simpl; [|apply H].
  destruct (exec_stdout host culture_command); simpl; [apply H|].
  destruct (intl_locale host); simpl; [apply H|in_list].
Qed.

Lemma localized_label (key : string) :
  In key message_keys ->
  translate (resolved_language host) key = Return (Text (localized host key)) /\
  localized host key = Labels.text (resolved_language host) key.
Proof.
  intros Hkey. unfold localized.
  rewrite (translate_label _ _ resolved_language_answered Hkey). split; reflexivity.
Qed.

Lemma t_run (key : string) (w : World) :
  In key message_keys ->
  t host key w = (Return (Text (localized host key)), add_calls (language_calls host) w).
Proof.
  intros Hkey. unfold t. erewrite bind_run by apply getSystemLanguage_run.
  unfold lift. rewrite (proj1 (localized_label key Hkey)). reflexivity.
Qed.

Lemma completed_line_run (d : Z) (w : World) :
  completed_line host d w =
    (Return (localized host "completed" +:+ " (" +:+ toString d +:+
             localized host "seconds" +:+ ")"),
     add_calls (language_calls host) (add_calls (language_calls host) w)).
Proof.
  unfold completed_line.
  erewrite bind_run by (apply t_run; in_list).
  erewrite bind_run by (apply t_run; in_list).
  reflexivity.
Qed.

Lemma getTerminalWindowId_run (w : World) :
  getTerminalWindowId host w =
    (Return (captured_window host), add_calls (capture_calls host) w).
Proof.
  unfold captured_window, capture_calls, getTerminalWindowId, try_catch, execSync,
    record_call, throw, add_calls, mbind, mret, M_bind, M_ret; simpl.
  repeat (destruct (decide _); simpl);
    try (destruct (exec_stdout host _); reflexivity).
  rewrite app_nil_r. destruct w; reflexivity.
Qed.

Lemma getTempFile_run (sessionId : JSValue) (type : string) (w : World) :
  getTempFile host sessionId type w =
    (Return (session_file host sessionId type), with_tempdir w).
Proof.
  unfold getTempFile, getTempDir, session_file, with_tempdir, mbind, mret, M_bind, M_ret.
  destruct w as [[] fs cs ns]; reflexivity.
Qed.

Lemma notify_run (title message : string) (options : NotifyOptions) (w : World) :
  notify host title message options w =
    (Return tt,
     add_notification
       {| title := title; message := message;
          icon := if bool_decide (is_Some (files w !! CONFIG.iconPath host))
                  then Some (CONFIG.iconPath host) else None;
          sound := true;
          wait := default true (opt_wait options);
          display_timeout := default 10 (opt_timeout options);
          appID := CONFIG.appName;
          click_window := windowId options |} w).
Proof. reflexivity. Qed.

Lemma existsSync_run (path : string) (w : World) :
  existsSync path w = (Return (bool_decide (is_Some (files w !! path))), w).
Proof. reflexivity. Qed.

Lemma readFileSync_run (path : string) (w : World) (text : string) :
  files w !! path = Some text -> readFileSync path w = (Return text, w).
Proof. intros H. unfold readFileSync. rewrite H. reflexivity. Qed.

Lemma unlinkSync_run (path : string) (w : World) (text : string) :
  files w !! path = Some text ->
  unlinkSync path w = (Return tt, set_files (delete path (files w)) w).
Proof. intros H. unfold unlinkSync. rewrite H. reflexivity. Qed.

Lemma writeFileSync_run (path text : string) (w : World) :
  writeFileSync path (JString text) w =
    (Return tt, set_files (<[path := utf8 text]> (files w)) w).
Proof. reflexivity. Qed.

(** [if (existsSync(path)) unlinkSync(path)] leaves no file at the path. *)
Lemma remove_run (path : string) (w : World) :
  (found ← existsSync path; when found (unlinkSync path)) w =
    (Return tt, set_files (delete path (files w)) w).
Proof.
  erewrite bind_run by apply existsSync_run.
  destruct (files w !! path) as [text|] eqn:Hf; cbn [bool_decide]; unfold when.
  - rewrite bool_decide_true by eauto. apply (unlinkSync_run _ _ text Hf).
  - rewrite bool_decide_false by (intros [x Hx]; discriminate Hx).
    rewrite delete_id by exact Hf. destruct w; reflexivity.
Qed.

(** The cleanup of [checkDuration]: the three paths hold nothing afterwards,
    be they three files or fewer. *)
Lemma cleanup_run (start prompt window : string) (w : World) (text : string) :
  files w !! start = Some text ->
  (unlinkSync start;;
   hasPrompt ← existsSync prompt;
   when hasPrompt (unlinkSync prompt);;
   hasWindow ← existsSync window;
   when hasWindow (unlinkSync window)) w =
    (Return tt, set_files (delete window (delete prompt (delete start (files w)))) w).
Proof.
  intros Hf.
  erewrite bind_run by (apply (unlinkSync_run _ _ text Hf)).
  erewrite bind_run by apply existsSync_run.
  cbn [files set_files].
  destruct (delete start (files w) !! prompt) as [p|] eqn:Hp.
  - rewrite bool_decide_true by eauto. unfold when.
    erewrite bind_run by (apply (unlinkSync_run _ _ p); exact Hp).
    etransitivity; [apply remove_run|reflexivity].
  - rewrite bool_decide_false by (intros [x Hx]; discriminate Hx). unfold when.
    erewrite bind_run by reflexivity.
    etransitivity; [apply remove_run|].
    cbn [files set_files].
    rewrite (delete_id _ prompt) by exact Hp. reflexivity.
Qed.

Lemma try_catch_return {A : Type} (body handler : M A) (w w' : World) (a : A) :
  body w = (Return a, w') -> try_catch body handler w = (Return a, w').
Proof. intros H. unfold try_catch. rewrite H. reflexivity. Qed.

Lemma get_coercible (v x : JSValue) (k1 k2 : string) :
  JS.get v k1 = Return x -> JS.get v k2 = Return (field v k2).
Proof. unfold field. destruct v; simpl; intros H; try discriminate; reflexivity. Qed.

Lemma get_truthy (v d : JSValue) (k : string) :
  JS.ToBoolean d = true ->
  JS.get (JS.or_else v d) k = Return (field (JS.or_else v d) k).
Proof.
  unfold JS.or_else, field. intros Hd.
  destruct (JS.ToBoolean v) eqn:Hv; [destruct v | destruct d]; simpl in *;
    try discriminate; reflexivity.
Qed.

End Runs.

Lemma add_calls_nil (w : World) : add_calls [] w = w.
Proof. destruct w. unfold add_calls. simpl. rewrite app_nil_r. reflexivity. Qed.

(** Projections of the worlds the runs build. *)
Lemma files_with_tempdir w : files (with_tempdir w) = files w.
Proof. reflexivity. Qed.
Lemma files_add_calls cs w : files (add_calls cs w) = files w.
Proof. reflexivity. Qed.
Lemma files_add_notification n w : files (add_notification n w) = files w.
Proof. reflexivity. Qed.
Lemma files_set_files fs w : files (set_files fs w) = fs.
Proof. reflexivity. Qed.
Lemma notifications_with_tempdir w : notifications (with_tempdir w) = notifications w.
Proof. reflexivity. Qed.
Lemma notifications_add_calls cs w : notifications (add_calls cs w) = notifications w.
Proof. reflexivity. Qed.
Lemma notifications_add_notification n w :
  notifications (add_notification n w) = notifications w ++ [n].
Proof. reflexivity. Qed.
Lemma notifications_set_files fs w : notifications (set_files fs w) = notifications w.
Proof. reflexivity. Qed.
Lemma calls_with_tempdir w : calls (with_tempdir w) = calls w.
Proof. reflexivity. Qed.
Lemma calls_add_calls cs w : calls (add_calls cs w) = calls w ++ cs.
Proof. reflexivity. Qed.
Lemma calls_add_notification n w : calls (add_notification n w) = calls w.
Proof. reflexivity. Qed.
Lemma calls_set_files fs w : calls (set_files fs w) = calls w.
Proof. reflexivity. Qed.
Lemma exists_Some {A : Type} (x : A) : bool_decide (is_Some (Some x)) = true.
Proof. reflexivity. Qed.
Lemma exists_None {A : Type} : bool_decide (is_Some (@None A)) = false.
Proof. reflexivity. Qed.

#[global] Hint Rewrite files_with_tempdir files_add_calls files_add_notification
  files_set_files notifications_with_tempdir notifications_add_calls
  notifications_add_notification notifications_set_files calls_with_tempdir
  calls_add_calls calls_add_notification calls_set_files @exists_Some @exists_None : world.

(** Rewrite the lookups of the goal to what the hypotheses know of the store. *)
Ltac norm :=
  autorewrite with world;
  repeat match goal with H : files _ !! _ = _ |- _ => rewrite H end;
  autorewrite with world;
  cbv beta iota.

(** Run a computation that returns, one bind at a time. *)
Ltac solve_run :=
  norm;
  lazymatch goal with
  | |- (unlinkSync _ ≫= _) _ = _ => eapply cleanup_run; norm; reflexivity
  | |- (_ ≫= _) _ = _ => erewrite bind_run by solve_run; solve_run
  | |- try_catch _ _ _ = _ => apply try_catch_return; solve_run
  | |- when _ _ _ = _ => unfold when; solve_run
  | |- _ =>
      first [ apply getTempFile_run | apply completed_line_run | apply notify_run
            | apply getTerminalWindowId_run | (apply t_run; in_list)
            | apply writeFileSync_run
            | (apply readFileSync_run; norm; reflexivity)
            | (eapply unlinkSync_run; norm; reflexivity)
            | reflexivity ]
  end.

Section Hooks.

Context (JSON_parse : string -> option JSValue) (host : Host).

Lemma checkDuration_run (w : World) (sid : JSValue) (text : string) :
  session_of (readStdin JSON_parse host) = Return sid ->
  files w !! session_file host sid "start" = Some text ->
  exists w',
    checkDuration JSON_parse host w = (Return tt, w') /\
    files w' = delete (session_file host sid "window")
                 (delete (session_file host sid "prompt")
                    (delete (session_file host sid "start") (files w))) /\
    notifications w' = notifications w ++ announcement host w sid text.
Proof.
  unfold session_of. intros Hs Hf.
  unfold checkDuration.
  destruct (JS.get (readStdin JSON_parse host) "session_id") as [v|e] eqn:Hg; [|discriminate].
  injection Hs as <-.
  unfold lift at 1.
  erewrite bind_run by reflexivity.
  do 3 erewrite bind_run by apply getTempFile_run.
  erewrite bind_run by apply existsSync_run.
  set (sid := JS.or_else v (JString "default")) in *.
  autorewrite with world. rewrite Hf. autorewrite with world.
  change (negb true) with false. cbv iota.
  unfold announcement, duration_of, CONFIG.durationThreshold.
  destruct (files w !! session_file host sid "prompt") as [p|] eqn:Hp;
  destruct (files w !! session_file host sid "window") as [wi|] eqn:Hw;
  (destruct (parseInt text) as [start|] eqn:Hparse;
   [destruct (60 <=? (date_now host - start) `div` 1000) eqn:Hd|]);
  (eexists; split;
   [ apply try_catch_return;
     erewrite bind_run by (apply readFileSync_run; norm; reflexivity);
     rewrite Hparse; simpl fmap; cbv beta iota; rewrite ?Hd;
     solve_run
   | split; norm; unfold completion_notice, completion_message; norm;
     rewrite ?app_nil_r; reflexivity ]).
Qed.

Lemma checkDuration_absent (w : World) (sid : JSValue) :
  session_of (readStdin JSON_parse host) = Return sid ->
  files w !! session_file host sid "start" = None ->
  checkDuration JSON_parse host w = (Return tt, with_tempdir w).
Proof.
  unfold session_of. intros Hs Hf.
  unfold checkDuration.
  destruct (JS.get (readStdin JSON_parse host) "session_id") as [v|e] eqn:Hg; [|discriminate].
  injection Hs as <-.
  unfold lift at 1.
  erewrite bind_run by reflexivity.
  do 3 erewrite bind_run by apply getTempFile_run.
  erewrite bind_run by apply existsSync_run.
  autorewrite with world. rewrite Hf. autorewrite with world.
  destruct w; reflexivity.
Qed.

Lemma startTimer_run (w : World) (sid : JSValue) (p : string) :
  session_of (readStdin JSON_parse host) = Return sid ->
  JS.or_else (field (readStdin JSON_parse host) "prompt") (JString "") = JString p ->
  exists w',
    startTimer JSON_parse host w = (Return tt, w') /\
    files w' = stored_by_start host sid p (files w) /\
    notifications w' = notifications w.
Proof.
  unfold session_of. intros Hs Hp.
  unfold startTimer, stored_by_start.
  destruct (JS.get (readStdin JSON_parse host) "session_id") as [v|e] eqn:Hg; [|discriminate].
  injection Hs as <-.
  rewrite (get_coercible _ _ _ "prompt" Hg).
  unfold lift.
  do 2 (erewrite bind_run by reflexivity). cbv zeta. rewrite Hp.
  simpl JS.ToBoolean. simpl JS.slice0.
  destruct (truthy p); destruct (captured_window host) as [id|] eqn:Hc;
    try destruct (truthy id) eqn:Hid;
    (eexists; split;
     [ do 5 (erewrite bind_run by solve_run);
       erewrite bind_run by apply getTerminalWindowId_run;
       rewrite Hc; cbv beta iota; rewrite ?Hid; solve_run
     | split; norm; reflexivity ]).
Qed.

Lemma permissionRequest_run (w : World) (sid : JSValue) (d : string) :
  let input := readStdin JSON_parse host in
  let toolName := JS.or_else (field input "tool_name") (JString "unknown") in
  let toolInput := JS.or_else (field input "tool_input") (JObject []) in
  session_of input = Return sid ->
  JS.or_else (JS.or_else (field toolInput "file_path") (field toolInput "command"))
    (JString "") = JString d ->
  permissionRequest JSON_parse host w =
    (Return tt,
     add_notification (permission_notice host w sid toolName d)
       (add_calls (language_calls host) (with_tempdir w))).
Proof.
  cbv zeta. unfold session_of. intros Hs Hd.
  unfold permissionRequest.
  destruct (JS.get (readStdin JSON_parse host) "session_id") as [v|e] eqn:Hg; [|discriminate].
  injection Hs as <-.
  rewrite (get_coercible _ _ _ "tool_name" Hg), (get_coercible _ _ _ "tool_input" Hg).
  unfold lift.
  do 3 (erewrite bind_run by reflexivity). cbv zeta.
  rewrite !(get_truthy _ (JObject [])) by reflexivity.
  do 2 (erewrite bind_run by reflexivity).
  rewrite Hd. simpl JS.slice0.
  erewrite bind_run by reflexivity.
  erewrite bind_run by apply getTempFile_run.
  erewrite bind_run by apply existsSync_run.
  unfold permission_notice, permission_message. simpl JS.ToBoolean. simpl JS.ToString.
  destruct (files w !! session_file host (JS.or_else v (JString "default")) "window") eqn:Hw.
  all: erewrite bind_run by solve_run.
  all: erewrite bind_run by (apply t_run; in_list).
  all: rewrite notify_run; norm; reflexivity.
Qed.

(** What [startTimer] leaves at the three paths of a session whose
    identifier is a file name. *)
Lemma stored_by_start_start (id p : string) (fs : gmap string string) :
  file_name id ->
  stored_by_start host (JString id) p fs !! session_file host (JString id) "start"
    = Some (toString (date_now host)).
Proof.
  intros Hid. destruct (session_paths host id Hid) as (Hsp & Hsw & Hpw).
  unfold stored_by_start. rewrite utf8_toString.
  destruct (truthy p); destruct (captured_window host) as [wid|];
    try destruct (truthy wid);
    rewrite ?(lookup_insert_ne _ (session_file host (JString id) "window")) by congruence;
    rewrite ?(lookup_insert_ne _ (session_file host (JString id) "prompt")) by congruence;
    apply lookup_insert_eq.
Qed.

Lemma stored_by_start_prompt (id p : string) (fs : gmap string string) :
  file_name id ->
  stored_by_start host (JString id) p fs !! session_file host (JString id) "prompt"
    = if truthy p then Some (utf8 (slice p 0 50))
      else fs !! session_file host (JString id) "prompt".
Proof.
  intros Hid. destruct (session_paths host id Hid) as (Hsp & Hsw & Hpw).
  unfold stored_by_start.
  destruct (truthy p); destruct (captured_window host) as [wid|];
    try destruct (truthy wid);
    rewrite ?(lookup_insert_ne _ (session_file host (JString id) "window")) by congruence;
    rewrite ?lookup_insert_eq; try reflexivity;
    rewrite ?(lookup_insert_ne _ (session_file host (JString id) "start")) by congruence;
    reflexivity.
Qed.

Lemma stored_by_start_window (id p : string) (fs : gmap string string) :
  file_name id ->
  stored_by_start host (JString id) p fs !! session_file host (JString id) "window"
    = match captured_window host with
      | Some wid => if truthy wid then Some (utf8 wid)
                    else fs !! session_file host (JString id) "window"
      | None => fs !! session_file host (JString id) "window"
      end.
Proof.
  intros Hid. destruct (session_paths host id Hid) as (Hsp & Hsw & Hpw).
  unfold stored_by_start.
  destruct (truthy p); destruct (captured_window host) as [wid|];
    try destruct (truthy wid);
    rewrite ?lookup_insert_eq; try reflexivity;
    rewrite ?(lookup_insert_ne _ (session_file host (JString id) "prompt")) by congruence;
    rewrite ?(lookup_insert_ne _ (session_file host (JString id) "start")) by congruence;
    reflexivity.
Qed.

(** What is at a path that is none of the three of the session stays. *)
Lemma stored_by_start_other (sid : JSValue) (p path : string) (fs : gmap string string) :
  path ∉ session_files host sid ->
  stored_by_start host sid p fs !! path = fs !! path.
Proof.
  unfold session_files. rewrite !elem_of_cons, elem_of_nil. intros Hnot.
  unfold stored_by_start.
  destruct (truthy p); destruct (captured_window host) as [wid|];
    try destruct (truthy wid);
    rewrite ?lookup_insert_ne by (intros Heq; apply Hnot; rewrite Heq; auto);
    reflexivity.
Qed.

End Hooks.

(** Nothing is left at a path that was deleted. *)
Lemma lookup_deleted (a b c x : string) (fs : gmap string string) :
  x ∈ [a; b; c] -> delete c (delete b (delete a fs)) !! x = None.
Proof.
  rewrite !elem_of_cons, elem_of_nil. intros H.
  rewrite !lookup_delete. repeat case_decide; try reflexivity.
  destruct H as [->|[->|[->|[]]]]; congruence.
Qed.

(** ** The stop hook *)

(** C1. For a session whose start record holds a time of the clock,
    [checkDuration] computes the duration [floor((now - start) / 1000)],
    returns without an error, and issues one notification exactly when the
    duration is at least 60: a start 65000 ms ago is announced with the
    duration 65, a start 10000 ms ago is not announced. The message is the
    label "Completed" in the language of the host, then the duration in
    decimal digits and the unit of that language in parentheses and, exactly
    when a prompt record exists, a second line with the stored excerpt and
    "...". *)
Theorem checkDuration_notifies_from_threshold
    (JSON_parse : string -> option JSValue) (host : Host) (w : World)
    (id text : string) (start : Z) :
  session_of (readStdin JSON_parse host) = Return (JString id) ->
  files w !! session_file host (JString id) "start" = Some text ->
  parseInt text = Some start ->
  time_value start ->
  time_value (date_now host) ->
  let duration := (date_now host - start) `div` 1000 in
  let lang := resolved_language host in
  let announced (digits : string) :=
    let line := Labels.completed lang +:+ " (" +:+ digits +:+ Labels.seconds lang +:+ ")" in
    match files w !! session_file host (JString id) "prompt" with
    | Some excerpt => line +:+ lf +:+ excerpt +:+ "..."
    | None => line
    end in
  let result := checkDuration JSON_parse host w in
  result.1 = Return tt /\
  (60 <= duration ->
   parseInt (toString duration) = Some duration /\
   exists notice,
     notifications result.2 = notifications w ++ [notice] /\
     title notice = "Claude Code" /\
     message notice = announced (toString duration) /\
     display_timeout notice = 10 /\
     click_window notice = files w !! session_file host (JString id) "window") /\
  (duration < 60 -> notifications result.2 = notifications w) /\
  (start = date_now host - 65000 ->
   duration = 65 /\
   map message (notifications result.2) = map message (notifications w) ++ [announced "65"]) /\
  (start = date_now host - 10000 ->
   duration = 10 /\ notifications result.2 = notifications w).
Proof.
  intros Hs Hf Hparse _ _ duration lang announced result.
  destruct (checkDuration_run JSON_parse host w _ text Hs Hf) as (w' & Hrun & _ & Hn).
  subst result. rewrite Hrun. cbn [fst snd].
  unfold announcement, duration_of in Hn. rewrite Hparse in Hn. fold duration in Hn.
  assert (Hmessage : forall d,
            message (completion_notice host w (JString id) d) = announced (toString d)).
  { intros d. unfold completion_notice, completion_message, announced. cbn [message].
    destruct (localized_label host "completed" ltac:(in_list)) as [_ ->].
    destruct (localized_label host "seconds" ltac:(in_list)) as [_ ->].
    reflexivity. }
  assert (Hyes : 60 <= duration ->
            notifications w' =
              notifications w ++ [completion_notice host w (JString id) duration]).
  { intros Hge. apply Z.leb_le in Hge. rewrite Hge in Hn. exact Hn. }
  assert (Hno : duration < 60 -> notifications w' = notifications w).
  { intros Hlt. apply Z.leb_gt in Hlt. rewrite Hlt, app_nil_r in Hn. exact Hn. }
  split; [reflexivity|].
  split.
  { intros Hge. split; [apply parseInt_toString; lia|].
    eexists. split; [exact (Hyes Hge)|].
    split; [reflexivity|]. split; [apply Hmessage|]. split; reflexivity. }
  split; [exact Hno|].
  split.
  { intros ->.
    assert (Hd : duration = 65).
    { subst duration. replace (date_now host - (date_now host - 65000)) with 65000 by lia.
      reflexivity. }
    split; [exact Hd|].
    rewrite Hyes by lia. rewrite map_app. cbn [map]. rewrite Hmessage, Hd. reflexivity. }
  intros ->.
  assert (Hd : duration = 10).
  { subst duration. replace (date_now host - (date_now host - 10000)) with 10000 by lia.
    reflexivity. }
  split; [exact Hd|]. apply Hno. lia.
Qed.

Lemma checkDuration_notifies_from_threshold_witness :
  let host := Example.linux Example.payload_s1 1700000065000 in
  let w := Example.started "1700000000000" in
  (checkDuration Example.parse host w).1 = Return tt /\
  map message (notifications (checkDuration Example.parse host w).2) =
    ["완료 (65초)" +:+ lf +:+ "fix the bug in parser.ts and rerun tests please..."] /\
  notifications
    (checkDuration Example.parse (Example.linux Example.payload_s1 1700000010000) w).2 = [].
Proof.
  intros host w.
  destruct (checkDuration_notifies_from_threshold Example.parse host w
              "s1" "1700000000000" 1700000000000)
    as (Hret & _ & _ & Hyes & _);
    [reflexivity | reflexivity | reflexivity | split; discriminate | split; discriminate |].
  destruct (checkDuration_notifies_from_threshold Example.parse
              (Example.linux Example.payload_s1 1700000010000) w
              "s1" "1700000000000" 1700000000000)
    as (_ & _ & _ & _ & Hno);
    [reflexivity | reflexivity | reflexivity | split; discriminate | split; discriminate |].
  split; [exact Hret|]. split.
  - etransitivity; [exact (proj2 (Hyes eq_refl))|]. vm_compute. reflexivity.
  - exact (proj2 (Hno eq_refl)).
Defined.

(** C2. Once the start record of the session exists, [checkDuration] ends
    with the three files of the session (start, prompt, window) absent,
    whether or not it notified. *)
Theorem checkDuration_cleans_up
    (JSON_parse : string -> option JSValue) (host : Host) (w : World) (sid : JSValue) :
  session_of (readStdin JSON_parse host) = Return sid ->
  is_Some (files w !! session_file host sid "start") ->
  let result := checkDuration JSON_parse host w in
  result.1 = Return tt /\
  files result.2 !! session_file host sid "start" = None /\
  files result.2 !! session_file host sid "prompt" = None /\
  files result.2 !! session_file host sid "window" = None.
Proof.
  intros Hs [text Hf] result.
  destruct (checkDuration_run JSON_parse host w sid text Hs Hf) as (w' & Hrun & Hfiles & _).
  subst result. rewrite Hrun. cbn [fst snd]. rewrite Hfiles.
  split; [reflexivity|].
  repeat split; apply lookup_deleted; rewrite !elem_of_cons; auto.
Qed.

Lemma checkDuration_cleans_up_witness :
  let host := Example.linux Example.payload_s1 1700000010000 in
  let w := Example.started "1700000000000" in
  notifications (checkDuration Example.parse host w).2 = [] /\
  files (checkDuration Example.parse host w).2 !! "/tmp/claude-code-notifier/start-s1" = None /\
  files (checkDuration Example.parse host w).2 !! "/tmp/claude-code-notifier/prompt-s1" = None /\
  files (checkDuration Example.parse host w).2 !! "/tmp/claude-code-notifier/window-s1" = None.
Proof.
  intros host w.
  split; [vm_compute; reflexivity|].
  apply (checkDuration_cleans_up Example.parse host w (JString "s1")).
  - vm_compute. reflexivity.
  - exists "1700000000000". vm_compute. reflexivity.
Defined.

(** C3. For a session with no start record, [checkDuration] does nothing:
    it returns without an error, and the files, the notifications and the
    calls to child processes are what they were. *)
Theorem checkDuration_without_start_is_noop
    (JSON_parse : string -> option JSValue) (host : Host) (w : World) (sid : JSValue) :
  session_of (readStdin JSON_parse host) = Return sid ->
  files w !! session_file host sid "start" = None ->
  let result := checkDuration JSON_parse host w in
  result.1 = Return tt /\
  files result.2 = files w /\
  notifications result.2 = notifications w /\
  calls result.2 = calls w.
Proof.
  intros Hs Hf result. subst result.
  rewrite (checkDuration_absent JSON_parse host w sid Hs Hf).
  repeat split.
Qed.

Lemma checkDuration_without_start_is_noop_witness :
  let host := Example.linux "{}" 1700000065000 in
  let w := Example.started "1700000000000" in
  (checkDuration Example.parse host w).1 = Return tt /\
  files (checkDuration Example.parse host w).2 = files w /\
  notifications (checkDuration Example.parse host w).2 = notifications w /\
  calls (checkDuration Example.parse host w).2 = calls w.
Proof.
  intros host w.
  apply (checkDuration_without_start_is_noop Example.parse host w (JString "default"));
    vm_compute; reflexivity.
Defined.

(** ** The permission hook *)










(** ** The prompt hook *)

Lemma scrub_length (l : list Z) : List.length (scrub l) = List.length l.
Proof.
  remember (List.length l) as n eqn:Hn. revert l Hn.
  induction (lt_wf n) as [n _ IH]. intros l ->.
  destruct l as [|u rest]; [reflexivity|]. cbn [scrub].
  destruct (is_high u).
  - destruct rest as [|v rest']; [reflexivity|].
    destruct (is_low v); cbn [List.length]; f_equal.
    + f_equal. eapply IH; [|reflexivity]. simpl. lia.
    + change (S (List.length rest')) with (List.length (v :: rest')).
      eapply IH; [|reflexivity]. simpl. lia.
  - destruct (is_low u); cbn [List.length]; f_equal;
      (eapply IH; [|reflexivity]; simpl; lia).
Qed.

(** C6, as the claim states it, fails. For the identifier [x/../y] the three
    files of the session are one path: what the hook wrote there last, the
    window handle, is all that is stored, and neither the start time nor the
    excerpt. And the cut is made after 50 UTF-16 code units: when it falls
    inside a character outside the basic plane, the file holds U+FFFD at the
    end, which is no character of the prompt. *)
Lemma startTimer_excerpt_is_lost :
  let host := Example.linux (Sample.prompt_text "x/../y" "hello") 1700000000000 in
  let stored := files (startTimer Sample.parse host empty_world).2 in
  let host' := Example.linux (Sample.prompt_text "s1" Sample.emoji_prompt) 1700000000000 in
  let stored' := files (startTimer Sample.parse host' empty_world).2 in
  (session_files host (JString "x/../y") =
     ["/tmp/claude-code-notifier/y"; "/tmp/claude-code-notifier/y";
      "/tmp/claude-code-notifier/y"] /\
   stored !! session_file host (JString "x/../y") "start" <> Some "1700000000000" /\
   stored !! session_file host (JString "x/../y") "prompt" <> Some "hello" /\
   stored !! "/tmp/claude-code-notifier/y" = Some "58720263") /\
  (take 50 (units Sample.emoji_prompt) = repeat 97 49 ++ [55357] /\
   units <$> stored' !! "/tmp/claude-code-notifier/prompt-s1" = Some (repeat 97 49 ++ [65533])).
Proof.
  intros host stored host' stored'.
  assert (H : stored !! "/tmp/claude-code-notifier/y" = Some "58720263")
    by (vm_compute; reflexivity).
  split.
  - split; [vm_compute; reflexivity|].
    change (session_file host (JString "x/../y") "start")
      with (join host [join host [os_tmpdir host; "claude-code-notifier"]; "start-x/../y"]).
    change (session_file host (JString "x/../y") "prompt")
      with (join host [join host [os_tmpdir host; "claude-code-notifier"]; "prompt-x/../y"]).
    assert (Hs : join host [join host [os_tmpdir host; "claude-code-notifier"]; "start-x/../y"]
                 = "/tmp/claude-code-notifier/y") by (vm_compute; reflexivity).
    assert (Hp : join host [join host [os_tmpdir host; "claude-code-notifier"]; "prompt-x/../y"]
                 = "/tmp/claude-code-notifier/y") by (vm_compute; reflexivity).
    rewrite Hs, Hp, H. repeat split; discriminate.
  - split; vm_compute; reflexivity.
Qed.

(** C6, amended. On a prompt submission whose session identifier is a file
    name and whose prompt is a text or absent, [startTimer] returns without
    an error and always writes the start time. A prompt that is not empty is
    stored as its first 50 UTF-16 code units: whole when it has 50 or fewer,
    cut to exactly 50 when it has more, a surrogate that the cut leaves
    without its partner being stored as U+FFFD. For an empty or absent
    prompt the prompt file is left as it was. *)
Theorem startTimer_stores_excerpt
    (JSON_parse : string -> option JSValue) (host : Host) (w : World)
    (id : string) (prompt : option string) :
  let input := readStdin JSON_parse host in
  session_of input = Return (JString id) ->
  file_name id ->
  field input "prompt" = text_or_absent prompt ->
  let result := startTimer JSON_parse host w in
  result.1 = Return tt /\
  files result.2 !! session_file host (JString id) "start" = Some (toString (date_now host)) /\
  (forall text, prompt = Some text -> text <> "" ->
     exists stored,
       files result.2 !! session_file host (JString id) "prompt" = Some stored /\
       units stored = scrub (take 50 (units text)) /\
       (well_formed (slice text 0 50) -> units stored = take 50 (units text)) /\
       ((code_units text <= 50)%nat -> stored = utf8 text) /\
       ((50 < code_units text)%nat -> code_units stored = 50%nat)) /\
  (JSString.or_else prompt "" = "" ->
   files result.2 !! session_file host (JString id) "prompt" =
     files w !! session_file host (JString id) "prompt").
Proof.
  intros input Hs Hid Hprompt result.
  assert (Hp : JS.or_else (field input "prompt") (JString "")
               = JString (JSString.or_else prompt "")).
  { rewrite Hprompt. unfold JS.or_else. destruct prompt as [[|c r]|]; reflexivity. }
  destruct (startTimer_run JSON_parse host w _ _ Hs Hp) as (w' & Hrun & Hfiles & _).
  subst result. rewrite Hrun. cbn [fst snd]. rewrite Hfiles.
  split; [reflexivity|].
  split; [apply stored_by_start_start, Hid|].
  split.
  - intros text -> Hne. exists (utf8 (slice text 0 50)).
    rewrite stored_by_start_prompt by exact Hid.
    destruct text as [|c r]; [congruence|]. cbn [JSString.or_else truthy].
    split; [reflexivity|].
    assert (Hunits : units (utf8 (slice (String c r) 0 50)) = scrub (take 50 (units (String c r))))
      by (rewrite units_utf8, units_slice; reflexivity).
    split; [exact Hunits|].
    split; [|split].
    + unfold well_formed. rewrite units_slice. intros Hwf. rewrite Hunits. exact Hwf.
    + intros Hlen. unfold utf8 at 1. rewrite units_slice.
      rewrite take_ge by exact Hlen. reflexivity.
    + intros Hlen. unfold code_units. rewrite Hunits, scrub_length, length_take.
      unfold code_units in Hlen. lia.
  - intros Hempty. rewrite stored_by_start_prompt by exact Hid. rewrite Hempty. reflexivity.
Qed.

Lemma startTimer_stores_excerpt_witness :
  let korean := startTimer Sample.parse
                  (Example.linux (Sample.prompt_text "s1" Sample.korean_prompt) 1700000000000)
                  empty_world in
  let long := startTimer Sample.parse
                (Example.linux (Sample.prompt_text "s1" Sample.long_korean_prompt) 1700000000000)
                empty_world in
  files korean.2 !! "/tmp/claude-code-notifier/start-s1" = Some "1700000000000" /\
  files korean.2 !! "/tmp/claude-code-notifier/prompt-s1" =
    Some "파서의 버그를 고치고 테스트를 다시 실행해 주세요" /\
  files long.2 !! "/tmp/claude-code-notifier/prompt-s1" =
    Some "알림 훅이 세션 파일을 지우기 전에 창 식별자를 읽도록 고치고, 영어가 아닌 언어에서도 메".
Proof.
  intros korean long.
  destruct (startTimer_stores_excerpt Sample.parse
              (Example.linux (Sample.prompt_text "s1" Sample.korean_prompt) 1700000000000)
              empty_world "s1" (Some Sample.korean_prompt))
    as (_ & Hstart & Hprompt & _); [reflexivity | reflexivity | reflexivity |].
  destruct (startTimer_stores_excerpt Sample.parse
              (Example.linux (Sample.prompt_text "s1" Sample.long_korean_prompt) 1700000000000)
              empty_world "s1" (Some Sample.long_korean_prompt))
    as (_ & _ & Hlong & _); [reflexivity | reflexivity | reflexivity |].
  destruct (Hprompt _ eq_refl ltac:(discriminate)) as (stored & Hfile & _ & _ & Hwhole & _).
  destruct (Hlong _ eq_refl ltac:(discriminate)) as (cut & Hfile' & _ & _ & _ & Hcut).
  split; [exact Hstart|]. split.
  - etransitivity; [exact Hfile|]. f_equal. rewrite Hwhole; [reflexivity|vm_compute; lia].
  - vm_compute. reflexivity.
Defined.

(** C9, as the claim states it, fails. For the identifier [x/../y] the
    prompt file is the start file: a second [startTimer] with an empty prompt
    and no window replaces the earlier prompt by the start time. *)
Lemma startTimer_restart_replaces_prompt :
  let host := Sample.headless (Sample.prompt_text "x/../y" "") 1700000300000 in
  let w := set_files {[ "/tmp/claude-code-notifier/y" := "an earlier prompt" ]} empty_world in
  let result := startTimer Sample.parse host w in
  session_of (readStdin Sample.parse host) = Return (JString "x/../y") /\
  field (readStdin Sample.parse host) "prompt" = JString "" /\
  captured_window host = None /\
  files w !! session_file host (JString "x/../y") "prompt" = Some "an earlier prompt" /\
  files result.2 !! session_file host (JString "x/../y") "prompt" = Some "1700000300000".
Proof. vm_compute. repeat split. Qed.

(** C9, amended. A second [startTimer] for a session whose identifier is a
    file name and that already has a start record replaces the start time by
    the current time; the prompt file is left in place when the new prompt
    is empty or absent, and the window file is left in place when no window
    handle is captured. *)
Theorem startTimer_restart_overwrites
    (JSON_parse : string -> option JSValue) (host : Host) (w : World)
    (id : string) (prompt : option string) :
  let input := readStdin JSON_parse host in
  session_of input = Return (JString id) ->
  file_name id ->
  field input "prompt" = text_or_absent prompt ->
  is_Some (files w !! session_file host (JString id) "start") ->
  let result := startTimer JSON_parse host w in
  result.1 = Return tt /\
  files result.2 !! session_file host (JString id) "start" = Some (toString (date_now host)) /\
  (JSString.or_else prompt "" = "" ->
   files result.2 !! session_file host (JString id) "prompt" =
     files w !! session_file host (JString id) "prompt") /\
  (JSString.or_else (captured_window host) "" = "" ->
   files result.2 !! session_file host (JString id) "window" =
     files w !! session_file host (JString id) "window").
Proof.
  intros input Hs Hid Hprompt _ result.
  assert (Hp : JS.or_else (field input "prompt") (JString "")
               = JString (JSString.or_else prompt "")).
  { rewrite Hprompt. unfold JS.or_else. destruct prompt as [[|c r]|]; reflexivity. }
  destruct (startTimer_run JSON_parse host w _ _ Hs Hp) as (w' & Hrun & Hfiles & _).
  subst result. rewrite Hrun. cbn [fst snd]. rewrite Hfiles.
  split; [reflexivity|].
  split; [apply stored_by_start_start, Hid|].
  split.
  - intros Hempty. rewrite stored_by_start_prompt by exact Hid. rewrite Hempty. reflexivity.
  - intros Hnone. rewrite stored_by_start_window by exact Hid.
    destruct (captured_window host) as [[|c r]|]; try reflexivity. discriminate Hnone.
Qed.

Lemma startTimer_restart_overwrites_witness :
  let host := Sample.headless (Sample.prompt_text "s2" "") 1700000300000 in
  let w := set_files (list_to_map [
             ("/tmp/claude-code-notifier/start-s2", "1700000000000");
             ("/tmp/claude-code-notifier/prompt-s2", "an earlier prompt");
             ("/tmp/claude-code-notifier/window-s2", "132456")]) empty_world in
  let result := startTimer Sample.parse host w in
  files result.2 !! "/tmp/claude-code-notifier/start-s2" = Some "1700000300000" /\
  files result.2 !! "/tmp/claude-code-notifier/prompt-s2" = Some "an earlier prompt" /\
  files result.2 !! "/tmp/claude-code-notifier/window-s2" = Some "132456".
Proof.
  intros host w result.
  destruct (startTimer_restart_overwrites Sample.parse host w "s2" (Some ""))
    as (_ & Hstart & Hprompt & Hwindow);
    [reflexivity | reflexivity | reflexivity
    | exists "1700000000000"; vm_compute; reflexivity |].
  split; [exact Hstart|]. split.
  - etransitivity; [exact (Hprompt eq_refl)|vm_compute; reflexivity].
  - etransitivity; [exact (Hwindow eq_refl)|vm_compute; reflexivity].
Defined.

(** ** The locale *)

(** Every entry of every bundle is a text that is not empty. *)
Lemma bundle_entries_truthy (code key entry : string) :
  (bundle ← own_property MESSAGES code; own_property bundle key) = Some entry ->
  truthy entry = true.
Proof.
  destruct (own_property MESSAGES code) as [bundle|] eqn:Hb; [|discriminate].
  cbn [mbind option_bind]. intros Hk.
  apply own_property_In in Hb. apply own_property_In in Hk.
  simpl in Hb.
  repeat (destruct Hb as [Hb|Hb];
          [injection Hb as _ <-; simpl in Hk;
           repeat (destruct Hk as [Hk|Hk]; [injection Hk as _ <-; reflexivity|]);
           contradiction|]).
  contradiction.
Qed.

Lemma en_entries_truthy (key entry : string) :
  own_property Bundle.en key = Some entry -> truthy entry = true.
Proof.
  intros Hk. apply (bundle_entries_truthy "en" key). exact Hk.
Qed.

(** A key that nothing inherits, looked up in a bundle that lacks it. *)
Lemma get_absent (bundle : list (string * string)) (key : string) :
  own_property bundle key = None -> Proto.inherited key = false ->
  Proto.get bundle key = None.
Proof.
  unfold Proto.get, Proto.inherited. intros -> Hkey.
  apply bool_decide_eq_false in Hkey.
  destruct (Proto.Object_prototype _ key); [exfalso; apply Hkey; eauto|reflexivity].
Qed.

(** C5, as the claim states it, fails. A key that no bundle has is not
    always returned as it is: for [constructor], which every object
    inherits, the lookup in the English bundle finds the function [Object]
    and [t] returns that, which is no text. And the resolver lets through a
    code outside the supported set: with [LANG=constructor] it returns
    [constructor]. *)
Lemma translate_returns_inherited_member :
  own_property Bundle.ko "constructor" = None /\
  own_property Bundle.en "constructor" = None /\
  translate "ko" "constructor" = Return (Builtin "Object") /\
  translate "ko" "constructor" <> Return (Text "constructor") /\
  (getSystemLanguage (Sample.odd_locale "{}" 0) empty_world).1 = Return "constructor" /\
  ~ In "constructor" supported.
Proof.
  repeat split; try reflexivity; try discriminate.
  simpl. intros H. repeat (destruct H as [H|H]; [discriminate H|]). exact H.
Qed.

(** C5, amended. Every supported code has a bundle, is what
    [getSystemLanguage] returns when the environment names it, and has a
    text for "completed" that is not empty. For a supported code [translate]
    never throws; it gives the entry of the bundle of the code when there is
    one, else the entry of the English bundle, else, for a key that is no
    name objects inherit, the key itself. A code that [MESSAGES] does not
    answer to gets what English gets. And on every host [t] returns the text
    of the four keys of the bundles in the language the host resolves to,
    which is English when that language is no supported code. *)
Theorem translate_supported_and_fallback (L key : string) :
  In L supported ->
  is_Some (own_property MESSAGES L) /\
  (forall host w region,
     os_platform host <> "win32" ->
     env_LANG host = Some (L +:+ "_" +:+ region) ->
     (getSystemLanguage host w).1 = Return L) /\
  translate L "completed" = Return (Text (Labels.completed L)) /\
  Labels.completed L <> "" /\
  (exists found, translate L key = Return found) /\
  (forall entry,
     (bundle ← own_property MESSAGES L; own_property bundle key) = Some entry ->
     translate L key = Return (Text entry)) /\
  (forall entry,
     (bundle ← own_property MESSAGES L; own_property bundle key) = None ->
     Proto.inherited key = false ->
     own_property Bundle.en key = Some entry ->
     translate L key = Return (Text entry)) /\
  ((bundle ← own_property MESSAGES L; own_property bundle key) = None ->
   Proto.inherited key = false ->
   own_property Bundle.en key = None ->
   translate L key = Return (Text key)) /\
  (forall code,
     ~ In code answered ->
     translate code "completed" = Return (Text "Completed") /\
     translate code key = translate "en" key) /\
  (forall host w,
     In key message_keys ->
     (t host key w).1 = Return (Text (Labels.text (resolved_language host) key)) /\
     (~ In (resolved_language host) supported ->
      Labels.text (resolved_language host) key = Labels.text "en" key)).
Proof.
  intros HL.
  assert (Hsupp : (exists bundle, own_property MESSAGES L = Some bundle) /\
            translate L "completed" = Return (Text (Labels.completed L)) /\
            Labels.completed L <> "" /\
            forall region, toLowerCase (split0 "." (split0 "_" (L +:+ "_" +:+ region))) = L).
  { simpl in HL.
    repeat (destruct HL as [<-|HL];
            [split; [eexists; reflexivity|
             split; [reflexivity|split; [discriminate|reflexivity]]]|]).
    contradiction. }
  destruct Hsupp as ([bundle Hbundle] & Hcompleted & Hlabel & Hsplit).
  assert (Hget : MESSAGES_get L = Some (inl bundle))
    by (unfold MESSAGES_get; rewrite Hbundle; reflexivity).
  split; [eexists; exact Hbundle|].
  split.
  { intros host w region Hos Hlang.
    unfold getSystemLanguage, try_catch, mbind, mret, M_bind, M_ret.
    destruct (decide (os_platform host = "win32")) as [|_]; [contradiction|].
    rewrite Hlang. cbn [JSString.or_else].
    replace (truthy (L +:+ "_" +:+ region)) with true
      by (destruct L; reflexivity).
    rewrite Hsplit. cbn [fst].
    rewrite bool_decide_true by (rewrite Hget; eauto). reflexivity. }
  split; [exact Hcompleted|].
  split; [exact Hlabel|].
  split.
  { unfold translate. rewrite Hget.
    destruct (Proto.truthy (Proto.get bundle key)); [eauto|].
    destruct (Proto.truthy (Proto.get Bundle.en key)); eauto. }
  split.
  { intros entry He. pose proof (bundle_entries_truthy _ _ _ He) as Htruthy.
    rewrite Hbundle in He. cbn [mbind option_bind] in He.
    unfold translate. rewrite Hget. unfold Proto.get. rewrite He.
    cbn [Proto.truthy]. rewrite Htruthy. reflexivity. }
  split.
  { intros entry Hnone Hkey He. rewrite Hbundle in Hnone. cbn [mbind option_bind] in Hnone.
    unfold translate. rewrite Hget, (get_absent bundle key Hnone Hkey). cbn [Proto.truthy].
    unfold Proto.get. rewrite He. cbn [Proto.truthy].
    rewrite (en_entries_truthy _ _ He). reflexivity. }
  split.
  { intros Hnone Hkey He. rewrite Hbundle in Hnone. cbn [mbind option_bind] in Hnone.
    unfold translate. rewrite Hget, (get_absent bundle key Hnone Hkey). cbn [Proto.truthy].
    rewrite (get_absent Bundle.en key He Hkey). reflexivity. }
  split.
  { intros code Hcode.
    assert (Hnone : MESSAGES_get code = None).
    { destruct (MESSAGES_get code) eqn:Hg; [|reflexivity].
      exfalso. apply Hcode, MESSAGES_get_answered. rewrite Hg. eauto. }
    unfold translate. rewrite Hnone. cbn [Proto.truthy]. split; [reflexivity|].
    change (MESSAGES_get "en") with (Some (inl (B := Member) Bundle.en)).
    cbv iota beta.
    destruct (Proto.truthy (Proto.get Bundle.en key)) eqn:Ht; reflexivity. }
  intros host w Hkey. rewrite (t_run host key w Hkey). cbn [fst].
  destruct (localized_label host key Hkey) as [_ ->].
  split; [reflexivity|].
  intros Hnot. pose proof (resolved_language_answered host) as Hans.
  unfold answered in Hans. apply in_app_or in Hans as [Hans|Hans]; [contradiction|].
  simpl in Hans, Hkey.
  repeat (destruct Hans as [<-|Hans];
          [destruct Hkey as [<-|[<-|[<-|[<-|[]]]]]; reflexivity|]).
  contradiction.
Qed.

Lemma translate_supported_and_fallback_witness :
  translate "ko" "seconds" = Return (Text "초") /\
  translate "ja" "no such key" = Return (Text "no such key") /\
  translate "xx" "seconds" = Return (Text "seconds") /\
  (getSystemLanguage (Example.linux "{}" 0) empty_world).1 = Return "ko".
Proof.
  destruct (translate_supported_and_fallback "ko" "seconds" ltac:(in_list))
    as (_ & Hlang & _ & _ & _ & Hko & _ & _ & Hxx & _).
  destruct (translate_supported_and_fallback "ja" "no such key" ltac:(in_list))
    as (_ & _ & _ & _ & _ & _ & _ & Hja & _).
  split; [apply Hko; reflexivity|].
  split; [apply Hja; reflexivity|].
  split.
  - etransitivity; [apply (Hxx "xx")|reflexivity].
    simpl. intros H. repeat (destruct H as [H|H]; [discriminate H|]). exact H.
  - apply (Hlang _ _ "KR.UTF-8"); [discriminate|reflexivity].
Defined.

(** ** Standard input *)

(** Text that [JSON.parse] rejects is read as the empty object, the session
    is then "default", and the three hooks return. *)
Lemma malformed_input_defaults
    (JSON_parse : string -> option JSValue) (host : Host) (w : World) :
  JSON_parse (stdin_text host) = None ->
  readStdin JSON_parse host = JObject [] /\
  session_of (readStdin JSON_parse host) = Return (JString "default") /\
  (startTimer JSON_parse host w).1 = Return tt /\
  (checkDuration JSON_parse host w).1 = Return tt /\
  (permissionRequest JSON_parse host w).1 = Return tt.
Proof.
  intros Hparse.
  assert (Hin : readStdin JSON_parse host = JObject [])
    by (unfold readStdin; rewrite Hparse; reflexivity).
  assert (Hs : session_of (readStdin JSON_parse host) = Return (JString "default"))
    by (rewrite Hin; reflexivity).
  split; [exact Hin|]. split; [exact Hs|].
  split; [|split].
  - destruct (startTimer_run JSON_parse host w (JString "default") "" Hs) as (w' & Hrun & _).
    { rewrite Hin. reflexivity. }
    rewrite Hrun. reflexivity.
  - destruct (files w !! session_file host (JString "default") "start") as [text|] eqn:Hf.
    + destruct (checkDuration_run JSON_parse host w _ text Hs Hf) as (w' & Hrun & _).
      rewrite Hrun. reflexivity.
    + rewrite (checkDuration_absent JSON_parse host w _ Hs Hf). reflexivity.
  - rewrite (permissionRequest_run JSON_parse host w (JString "default") "" Hs).
    + reflexivity.
    + rewrite Hin. reflexivity.
Qed.

(** An input that parses to an object with no [session_id] is the session
    "default". *)
Lemma missing_session_id_defaults
    (JSON_parse : string -> option JSValue) (host : Host) (props : list (string * JSValue)) :
  readStdin JSON_parse host = JObject props ->
  own_property props "session_id" = None ->
  session_of (readStdin JSON_parse host) = Return (JString "default").
Proof.
  intros -> Hnone. unfold session_of, JS.get, JS.own. rewrite Hnone. reflexivity.
Qed.

(** On the text [null], which [JSON.parse] accepts, the hooks throw at their
    first property access, before anything is written. *)
Lemma null_input_throws
    (JSON_parse : string -> option JSValue) (host : Host) (w : World) :
  JSON_parse (stdin_text host) = Some JNull ->
  startTimer JSON_parse host w = (Throw TypeError, w) /\
  checkDuration JSON_parse host w = (Throw TypeError, w) /\
  permissionRequest JSON_parse host w = (Throw TypeError, w).
Proof.
  intros Hparse.
  unfold startTimer, checkDuration, permissionRequest, readStdin.
  rewrite Hparse. repeat split.
Qed.

(** C7. The claim has every hook proceed with default values on arbitrary
    input text. The script does so on text that is not JSON
    ([malformed_input_defaults]) and on an object with no [session_id]
    ([missing_session_id_defaults]), but not on the JSON text [null]:
    [readStdin] returns [null], and each hook throws a [TypeError] when it
    reads a property of it; nothing is written and nothing is notified. *)
Theorem null_input_is_fatal :
  let host := Example.linux "null" 1700000000000 in
  let w := Example.started "1699999900000" in
  readStdin Example.parse host = JNull /\
  startTimer Example.parse host w = (Throw TypeError, w) /\
  checkDuration Example.parse host w = (Throw TypeError, w) /\
  permissionRequest Example.parse host w = (Throw TypeError, w).
Proof.
  intros host w. split; [reflexivity|].
  apply null_input_throws. reflexivity.
Qed.

(** ** The window adapter *)



(** ** End to end *)

Lemma session_file_same (host1 host2 : Host) (sid : JSValue) (type : string) :
  same_machine host1 host2 -> session_file host2 sid type = session_file host1 sid type.
Proof.
  intros (Hos & Htmp & Hdir & Hjoin).
  unfold session_file, join, Win32_join. rewrite Hos, Htmp, Hdir, Hjoin. reflexivity.
Qed.

(** X1. A prompt hook followed by a stop hook of the same session, whose
    identifier is a file name, on one machine: the stop hook reads back the
    start time, notifies exactly when 60 seconds or more have passed, and
    leaves no file of the session. *)
Lemma start_then_stop
    (JSON_parse : string -> option JSValue) (host1 host2 : Host) (w : World)
    (id : string) (prompt : option string) :
  same_machine host1 host2 ->
  session_of (readStdin JSON_parse host1) = Return (JString id) ->
  session_of (readStdin JSON_parse host2) = Return (JString id) ->
  file_name id ->
  field (readStdin JSON_parse host1) "prompt" = text_or_absent prompt ->
  time_value (date_now host1) ->
  time_value (date_now host2) ->
  let w1 := (startTimer JSON_parse host1 w).2 in
  let result := checkDuration JSON_parse host2 w1 in
  let duration := (date_now host2 - date_now host1) `div` 1000 in
  result.1 = Return tt /\
  (60 <= duration -> List.length (notifications result.2) = S (List.length (notifications w))) /\
  (duration < 60 -> notifications result.2 = notifications w) /\
  notifications result.2 =
    notifications w ++
    (if 60 <=? duration then [completion_notice host2 w1 (JString id) duration] else []) /\
  files result.2 !! session_file host2 (JString id) "start" = None /\
  files result.2 !! session_file host2 (JString id) "prompt" = None /\
  files result.2 !! session_file host2 (JString id) "window" = None.
Proof.
  intros Hsame Hs1 Hs2 Hid Hprompt [Hnow _] _ w1 result duration.
  assert (Hp : JS.or_else (field (readStdin JSON_parse host1) "prompt") (JString "")
               = JString (JSString.or_else prompt "")).
  { rewrite Hprompt. unfold JS.or_else. destruct prompt as [[|c r]|]; reflexivity. }
  destruct (startTimer_run JSON_parse host1 w _ _ Hs1 Hp) as (w1' & Hrun1 & Hf1 & Hn1).
  assert (w1 = w1') as -> by (subst w1; rewrite Hrun1; reflexivity).
  assert (Hstart : files w1' !! session_file host2 (JString id) "start"
                   = Some (toString (date_now host1)))
    by (rewrite Hf1, (session_file_same host1 host2 _ _ Hsame);
        apply stored_by_start_start, Hid).
  destruct (checkDuration_run JSON_parse host2 w1' _ _ Hs2 Hstart)
    as (w2 & Hrun2 & Hf2 & Hn2).
  subst result. rewrite Hrun2. cbn [fst snd].
  assert (Hnotes : notifications w2 =
            notifications w ++
            (if 60 <=? duration then [completion_notice host2 w1' (JString id) duration]
             else [])).
  { rewrite Hn2, Hn1. unfold announcement, duration_of.
    rewrite (parseInt_toString _ Hnow). reflexivity. }
  split; [reflexivity|].
  split.
  { intros Hge. apply Z.leb_le in Hge. rewrite Hnotes, Hge, length_app. simpl. lia. }
  split.
  { intros Hlt. apply Z.leb_gt in Hlt. rewrite Hnotes, Hlt. apply app_nil_r. }
  split; [exact Hnotes|].
  rewrite Hf2. repeat split; apply lookup_deleted; rewrite !elem_of_cons; auto.
Qed.

(** A prompt submitted for session [s1] and a stop 61 seconds later: one
    notification, with the duration and the prompt, and an empty store. *)
Example prompt_then_stop :
  let w1 := (startTimer Example.parse
               (Example.linux Example.payload_s1 1700000000000) empty_world).2 in
  let w2 := (checkDuration Example.parse
               (Example.linux Example.payload_s1 1700000061000) w1).2 in
  map message (notifications w2) =
    ["완료 (61초)" +:+ lf +:+ "fix the bug in parser.ts and rerun tests please..."] /\
  map click_window (notifications w2) = [Some "58720263"] /\
  files w2 = ∅.
Proof. vm_compute. repeat split. Qed.

(** ** More on the stop hook *)

Lemma start_then_stop_witness :
  let host1 := Example.linux Example.payload_s1 1700000000000 in
  let host2 := Example.linux Example.payload_s1 1700000061000 in
  let w1 := (startTimer Example.parse host1 empty_world).2 in
  (checkDuration Example.parse host2 w1).1 = Return tt /\
  map message (notifications (checkDuration Example.parse host2 w1).2) =
    ["완료 (61초)" +:+ lf +:+ "fix the bug in parser.ts and rerun tests please..."].
Proof.
  intros host1 host2 w1.
  destruct (start_then_stop Example.parse host1 host2 empty_world "s1"
              (Some "fix the bug in parser.ts and rerun tests please"))
    as (Hret & _ & _ & Hn & _);
    [repeat split | reflexivity | reflexivity | reflexivity | reflexivity
    | split; discriminate | split; discriminate |].
  split; [exact Hret|]. etransitivity; [exact (f_equal (map message) Hn)|].
  vm_compute. reflexivity.
Defined.

(** X2. A second stop hook for the same session finds no start record and
    does nothing: a start is announced at most once. *)
Theorem checkDuration_twice
    (JSON_parse : string -> option JSValue) (host : Host) (w : World) (sid : JSValue) :
  session_of (readStdin JSON_parse host) = Return sid ->
  is_Some (files w !! session_file host sid "start") ->
  let w1 := (checkDuration JSON_parse host w).2 in
  let again := checkDuration JSON_parse host w1 in
  again.1 = Return tt /\
  files again.2 = files w1 /\
  notifications again.2 = notifications w1 /\
  calls again.2 = calls w1.
Proof.
  intros Hs [text Hf] w1 again.
  destruct (checkDuration_run JSON_parse host w sid text Hs Hf) as (w' & Hrun & Hfiles & _).
  assert (w1 = w') as -> by (subst w1; rewrite Hrun; reflexivity).
  assert (Hgone : files w' !! session_file host sid "start" = None).
  { rewrite Hfiles. apply lookup_deleted. rewrite !elem_of_cons. auto. }
  subst again. rewrite (checkDuration_absent JSON_parse host w' sid Hs Hgone).
  repeat split.
Qed.

Lemma checkDuration_twice_witness :
  let host := Example.linux Example.payload_s1 1700000065000 in
  let w1 := (checkDuration Example.parse host (Example.started "1700000000000")).2 in
  length (notifications w1) = 1%nat /\
  notifications (checkDuration Example.parse host w1).2 = notifications w1.
Proof.
  intros host w1. split; [vm_compute; reflexivity|].
  apply (checkDuration_twice Example.parse host (Example.started "1700000000000")
           (JString "s1")).
  - reflexivity.
  - exists "1700000000000". vm_compute. reflexivity.
Defined.

(** X3. A start record that holds no number is discarded without a word:
    no notification, no error, and the files of the session are removed. *)
Theorem checkDuration_discards_unreadable_start
    (JSON_parse : string -> option JSValue) (host : Host) (w : World)
    (sid : JSValue) (text : string) :
  session_of (readStdin JSON_parse host) = Return sid ->
  files w !! session_file host sid "start" = Some text ->
  parseInt text = None ->
  let result := checkDuration JSON_parse host w in
  result.1 = Return tt /\
  notifications result.2 = notifications w /\
  files result.2 !! session_file host sid "start" = None /\
  files result.2 !! session_file host sid "prompt" = None /\
  files result.2 !! session_file host sid "window" = None.
Proof.
  intros Hs Hf Hnan result.
  destruct (checkDuration_run JSON_parse host w sid text Hs Hf) as (w' & Hrun & Hfiles & Hn).
  subst result. rewrite Hrun. cbn [fst snd].
  unfold announcement, duration_of in Hn. rewrite Hnan, app_nil_r in Hn.
  rewrite Hfiles.
  repeat split; try assumption; apply lookup_deleted; rewrite !elem_of_cons; auto.
Qed.

Lemma checkDuration_discards_unreadable_start_witness :
  let host := Example.linux Example.payload_s1 1700000065000 in
  let result := checkDuration Example.parse host (Example.started "yesterday") in
  result.1 = Return tt /\ notifications result.2 = [] /\ files result.2 = ∅.
Proof.
  intros host result.
  destruct (checkDuration_discards_unreadable_start Example.parse host
              (Example.started "yesterday") (JString "s1") "yesterday")
    as (Hret & Hn & _); [reflexivity | vm_compute; reflexivity | reflexivity |].
  split; [exact Hret|]. split; [exact Hn|]. vm_compute. reflexivity.
Defined.

(** X4. In milliseconds: the stop hook notifies exactly when at least 60000
    ms lie between the start record and now; 59999 ms are not enough. *)
Theorem checkDuration_threshold_in_milliseconds
    (JSON_parse : string -> option JSValue) (host : Host) (w : World)
    (sid : JSValue) (text : string) (start : Z) :
  session_of (readStdin JSON_parse host) = Return sid ->
  files w !! session_file host sid "start" = Some text ->
  parseInt text = Some start ->
  let result := checkDuration JSON_parse host w in
  (60000 <= date_now host - start ->
   notifications result.2 =
     notifications w ++
     [completion_notice host w sid ((date_now host - start) `div` 1000)]) /\
  (date_now host - start < 60000 -> notifications result.2 = notifications w).
Proof.
  intros Hs Hf Hparse result.
  destruct (checkDuration_run JSON_parse host w sid text Hs Hf) as (w' & Hrun & _ & Hn).
  subst result. rewrite Hrun. cbn [snd].
  unfold announcement, duration_of in Hn. rewrite Hparse in Hn. rewrite Hn.
  split; intros Hms.
  - assert (60 <= (date_now host - start) `div` 1000) as Hd
      by (apply Z.div_le_lower_bound; lia).
    apply Z.leb_le in Hd. rewrite Hd. reflexivity.
  - assert ((date_now host - start) `div` 1000 < 60) as Hd
      by (apply Z.div_lt_upper_bound; lia).
    apply Z.leb_gt in Hd. rewrite Hd. apply app_nil_r.
Qed.

Lemma checkDuration_threshold_in_milliseconds_witness :
  let w := Example.started "1700000000000" in
  map message
    (notifications
       (checkDuration Example.parse (Example.linux Example.payload_s1 1700000060000) w).2)
    = ["완료 (60초)" +:+ lf +:+ "fix the bug in parser.ts and rerun tests please..."] /\
  notifications
    (checkDuration Example.parse (Example.linux Example.payload_s1 1700000059999) w).2 = [].
Proof.
  intros w. split.
  - rewrite (proj1 (checkDuration_threshold_in_milliseconds Example.parse
             (Example.linux Example.payload_s1 1700000060000) w (JString "s1")
             "1700000000000" 1700000000000 eq_refl eq_refl eq_refl));
      [vm_compute; reflexivity | vm_compute; discriminate].
  - apply (checkDuration_threshold_in_milliseconds Example.parse
             (Example.linux Example.payload_s1 1700000059999) w (JString "s1")
             "1700000000000" 1700000000000);
      [reflexivity | vm_compute; reflexivity | reflexivity | vm_compute; reflexivity].
Defined.

(** ** Sessions do not meet *)

(** The prompt hook and the stop hook leave every path that is none of the
    three of their session as it was. *)
Lemma hooks_leave_other_paths
    (JSON_parse : string -> option JSValue) (host : Host) (w : World)
    (sid : JSValue) (prompt path : string) :
  session_of (readStdin JSON_parse host) = Return sid ->
  JS.or_else (field (readStdin JSON_parse host) "prompt") (JString "") = JString prompt ->
  path ∉ session_files host sid ->
  files (startTimer JSON_parse host w).2 !! path = files w !! path /\
  files (checkDuration JSON_parse host w).2 !! path = files w !! path.
Proof.
  intros Hs Hp Hpath. split.
  - destruct (startTimer_run JSON_parse host w sid prompt Hs Hp) as (w' & Hrun & Hfiles & _).
    rewrite Hrun. cbn [snd]. rewrite Hfiles. apply stored_by_start_other, Hpath.
  - destruct (files w !! session_file host sid "start") as [text|] eqn:Hf.
    + destruct (checkDuration_run JSON_parse host w sid text Hs Hf) as (w' & Hrun & Hfiles & _).
      rewrite Hrun. cbn [snd]. rewrite Hfiles.
      unfold session_files in Hpath. rewrite !elem_of_cons, elem_of_nil in Hpath.
      rewrite !lookup_delete_ne by (intros Heq; apply Hpath; rewrite Heq; auto).
      reflexivity.
    + rewrite (checkDuration_absent JSON_parse host w sid Hs Hf). reflexivity.
Qed.

(** X5. On Linux, where the names of files are compared byte by byte, the
    prompt hook and the stop hook of a session leave the files of every
    other session as they were, for identifiers that are file names. *)
Theorem hooks_leave_other_sessions
    (JSON_parse : string -> option JSValue) (host : Host) (w : World)
    (id other : string) (prompt : option string) (type : string) :
  os_platform host = "linux" ->
  session_of (readStdin JSON_parse host) = Return (JString id) ->
  field (readStdin JSON_parse host) "prompt" = text_or_absent prompt ->
  file_name id ->
  file_name other ->
  other <> id ->
  In type ["start"; "prompt"; "window"] ->
  files (startTimer JSON_parse host w).2 !! session_file host (JString other) type
    = files w !! session_file host (JString other) type /\
  files (checkDuration JSON_parse host w).2 !! session_file host (JString other) type
    = files w !! session_file host (JString other) type.
Proof.
  intros _ Hs Hprompt Hid Hother Hne Ht.
  assert (Hp : JS.or_else (field (readStdin JSON_parse host) "prompt") (JString "")
               = JString (JSString.or_else prompt "")).
  { rewrite Hprompt. unfold JS.or_else. destruct prompt as [[|c r]|]; reflexivity. }
  apply (hooks_leave_other_paths JSON_parse host w _ _ _ Hs Hp).
  unfold session_files. rewrite !elem_of_cons, elem_of_nil.
  intros [H|[H|[H|[]]]]; apply session_file_inj in H as [_ H];
    try assumption; try contradiction; simpl; auto.
Qed.

Lemma hooks_leave_other_sessions_witness :
  let host := Example.linux "{}" 1700000065000 in
  let w := Example.started "1700000000000" in
  files (startTimer Example.parse host w).2 !! "/tmp/claude-code-notifier/start-s1"
    = Some "1700000000000" /\
  files (checkDuration Example.parse host w).2 !! "/tmp/claude-code-notifier/start-s1"
    = Some "1700000000000".
Proof.
  intros host w.
  destruct (hooks_leave_other_sessions Example.parse host w "default" "s1" None "start")
    as (Hstart & Hstop);
    [reflexivity | reflexivity | reflexivity | reflexivity | reflexivity | discriminate
    | simpl; auto |].
  split.
  - etransitivity; [exact Hstart|vm_compute; reflexivity].
  - etransitivity; [exact Hstop|vm_compute; reflexivity].
Defined.



(** ** The window of a session *)

(** What [getTerminalWindowId] does on each platform: the one command of the
    platform, its output trimmed; nothing at all on another platform. *)
Lemma capture_on_platform (host : Host) :
  captured_window host =
    (command ← capture_command (os_platform host); trim <$> exec_stdout host command) /\
  capture_calls host =
    match capture_command (os_platform host) with
    | Some command => [ExecSync command exec_options]
    | None => []
    end.
Proof.
  unfold captured_window, capture_calls, getTerminalWindowId, capture_command, try_catch,
    execSync, record_call, throw, mbind at 1 2 3 4, mret, M_bind, M_ret; simpl.
  destruct (decide (os_platform host = "linux"));
    [|destruct (decide (os_platform host = "darwin"));
      [|destruct (decide (os_platform host = "win32"))]]; simpl.
  4: split; reflexivity.
  all: destruct (exec_stdout host _); split; reflexivity.
Qed.

Lemma startTimer_calls
    (JSON_parse : string -> option JSValue) (host : Host) (w : World)
    (sid : JSValue) (p : string) :
  session_of (readStdin JSON_parse host) = Return sid ->
  JS.or_else (field (readStdin JSON_parse host) "prompt") (JString "") = JString p ->
  calls (startTimer JSON_parse host w).2 = calls w ++ capture_calls host.
Proof.
  unfold session_of. intros Hs Hp.
  unfold startTimer.
  destruct (JS.get (readStdin JSON_parse host) "session_id") as [v|e] eqn:Hg; [|discriminate].
  injection Hs as <-.
  rewrite (get_coercible _ _ _ "prompt" Hg).
  unfold lift.
  do 2 (erewrite bind_run by reflexivity). cbv zeta. rewrite Hp.
  simpl JS.ToBoolean. simpl JS.slice0.
  destruct (truthy p); destruct (captured_window host) as [id|] eqn:Hc;
    try destruct (truthy id) eqn:Hid;
    (erewrite (f_equal snd); [|
       do 5 (erewrite bind_run by solve_run);
       erewrite bind_run by apply getTerminalWindowId_run;
       rewrite Hc; cbv beta iota; rewrite ?Hid; solve_run]);
    cbn [snd]; norm; reflexivity.
Qed.

(** X7. The prompt hook of a session whose identifier is a file name records
    the window in front: on a platform with a capture command whose output
    is not blank, the window file holds that output trimmed, and the command
    was the only child process; when the command fails, and on a platform
    with no capture command, the window file is left alone. The hook never
    notifies. *)
Theorem startTimer_records_window
    (JSON_parse : string -> option JSValue) (host : Host) (w : World)
    (id : string) (prompt : option string) :
  session_of (readStdin JSON_parse host) = Return (JString id) ->
  file_name id ->
  field (readStdin JSON_parse host) "prompt" = text_or_absent prompt ->
  let result := startTimer JSON_parse host w in
  let window := session_file host (JString id) "window" in
  notifications result.2 = notifications w /\
  (forall command out,
     capture_command (os_platform host) = Some command ->
     exec_stdout host command = Some out ->
     trim out <> "" ->
     files result.2 !! window = Some (utf8 (trim out)) /\
     calls result.2 = calls w ++ [ExecSync command exec_options]) /\
  (forall command,
     capture_command (os_platform host) = Some command ->
     exec_stdout host command = None ->
     files result.2 !! window = files w !! window /\
     calls result.2 = calls w ++ [ExecSync command exec_options]) /\
  (capture_command (os_platform host) = None ->
     files result.2 !! window = files w !! window /\ calls result.2 = calls w).
Proof.
  intros Hs Hid Hprompt result window.
  assert (Hp : JS.or_else (field (readStdin JSON_parse host) "prompt") (JString "")
               = JString (JSString.or_else prompt "")).
  { rewrite Hprompt. unfold JS.or_else. destruct prompt as [[|c r]|]; reflexivity. }
  pose proof (startTimer_calls JSON_parse host w _ _ Hs Hp) as Hcalls.
  destruct (startTimer_run JSON_parse host w _ _ Hs Hp) as (w' & Hrun & Hfiles & Hn).
  destruct (capture_on_platform host) as [Hwin Hcs].
  subst result window. rewrite Hrun in *. cbn [snd] in *.
  rewrite Hfiles, (stored_by_start_window host id _ _ Hid).
  split; [exact Hn|]. split; [|split].
  - intros command out Hcmd Hout Hne.
    rewrite Hcmd in Hwin, Hcs. cbn [mbind option_bind] in Hwin.
    rewrite Hout in Hwin. cbn [fmap option_fmap option_map] in Hwin.
    split; [|rewrite Hcalls, Hcs; reflexivity].
    rewrite Hwin. destruct (trim out) as [|c rest]; [congruence|reflexivity].
  - intros command Hcmd Hout.
    rewrite Hcmd in Hwin, Hcs. cbn [mbind option_bind] in Hwin.
    rewrite Hout in Hwin. cbn [fmap option_fmap option_map] in Hwin.
    split; [|rewrite Hcalls, Hcs; reflexivity].
    rewrite Hwin. reflexivity.
  - intros Hnone. rewrite Hnone in Hwin, Hcs. cbn [mbind option_bind] in Hwin.
    split; [|rewrite Hcalls, Hcs; apply app_nil_r].
    rewrite Hwin. reflexivity.
Qed.

Lemma startTimer_records_window_witness :
  let host := Sample.darwin "{}" 1700000000000 in
  let result := startTimer Example.parse host empty_world in
  files result.2 !! "/var/tmp/claude-code-notifier/window-default" = Some "com.apple.Terminal" /\
  List.length (calls result.2) = 1%nat.
Proof.
  intros host result.
  destruct (startTimer_records_window Example.parse host empty_world "default" None)
    as (_ & Hcaptured & _); [reflexivity | reflexivity | reflexivity |].
  destruct (Hcaptured ("osascript -e '" +:+ frontmost_script +:+ "'")
              ("com.apple.Terminal" +:+ lf))
    as (Hfile & Hcalls); [reflexivity | reflexivity | vm_compute; discriminate |].
  split; [exact Hfile|]. subst result. rewrite Hcalls. reflexivity.
Defined.

(** X8. The click callback of a notification starts a process only when the
    backend reports a click ([activate], [clicked] or [contentsClicked]) and
    the notification holds a window that is not empty; it then starts the one
    activation process of the platform for that window. It never throws,
    even when the process cannot be started, and touches neither files nor
    notifications. *)
Theorem click_focuses_window
    (host : Host) (w : World) (options : NotifyOptions)
    (response activationType : option string) :
  notify_callback host options response activationType w =
    (Return tt,
     add_calls
       (match windowId options with
        | Some id => if clicked response activationType && truthy id
                     then activation (os_platform host) id else []
        | None => []
        end) w).
Proof.
  unfold notify_callback, clicked.
  destruct (bool_decide (response = Some "activate") || bool_decide (response = Some "clicked")
            || bool_decide (activationType = Some "contentsClicked")); cbn [andb].
  2: { destruct (windowId options); rewrite add_calls_nil; reflexivity. }
  destruct (windowId options) as [id|]; [|rewrite add_calls_nil; reflexivity].
  destruct (truthy id) eqn:Hid; [|rewrite add_calls_nil; reflexivity].
  unfold focusTerminal, activation. rewrite Hid. simpl negb. cbv iota.
  unfold try_catch, spawn, record_call, throw, mbind, mret, M_bind, M_ret; simpl.
  destruct (decide (os_platform host = "linux"));
    [|destruct (decide (os_platform host = "darwin"));
      [|destruct (decide (os_platform host = "win32"))]]; simpl.
  4: rewrite add_calls_nil; reflexivity.
  all: destruct (spawn_throws host _); reflexivity.
Qed.

(** ** From the prompt to the notice *)

(** What a stop hook announces when the start record holds the time
    [start]: the message of the language of the host, with the prompt record
    on a second line, and the window record as the window to focus. *)
Lemma checkDuration_notice
    (JSON_parse : string -> option JSValue) (host : Host) (w : World)
    (id : string) (start : Z) (excerpt window : option string) :
  session_of (readStdin JSON_parse host) = Return (JString id) ->
  files w !! session_file host (JString id) "start" = Some (toString start) ->
  files w !! session_file host (JString id) "prompt" = excerpt ->
  files w !! session_file host (JString id) "window" = window ->
  0 <= start ->
  60 <= (date_now host - start) `div` 1000 ->
  let line :=
    Labels.completed (resolved_language host) +:+ " (" +:+
    toString ((date_now host - start) `div` 1000) +:+
    Labels.seconds (resolved_language host) +:+ ")" in
  exists notice,
    notifications (checkDuration JSON_parse host w).2 = notifications w ++ [notice] /\
    message notice = match excerpt with
                     | Some text => line +:+ lf +:+ text +:+ "..."
                     | None => line
                     end /\
    click_window notice = window.
Proof.
  intros Hs Hf Hp Hw Hstart Hd line.
  destruct (checkDuration_run JSON_parse host w _ _ Hs Hf) as (w' & Hrun & _ & Hn).
  rewrite Hrun. cbn [snd]. rewrite Hn.
  unfold announcement, duration_of. rewrite (parseInt_toString _ Hstart).
  apply Z.leb_le in Hd. rewrite Hd.
  eexists. split; [reflexivity|].
  unfold completion_notice, completion_message. cbn [message click_window].
  destruct (localized_label host "completed" ltac:(in_list)) as [_ ->].
  destruct (localized_label host "seconds" ltac:(in_list)) as [_ ->].
  rewrite Hp, Hw. split; reflexivity.
Qed.

(** X9. What the stop hook announces 60 seconds or more after a prompt hook
    of the same session, whose identifier is a file name: the second line of
    the message is the first 50 UTF-16 code units of the prompt that was
    submitted, as the prompt file holds them, and a click goes to the window
    that was captured when the prompt was submitted. *)
Theorem start_then_stop_notice
    (JSON_parse : string -> option JSValue) (host1 host2 : Host) (w : World)
    (id prompt window : string) :
  same_machine host1 host2 ->
  session_of (readStdin JSON_parse host1) = Return (JString id) ->
  session_of (readStdin JSON_parse host2) = Return (JString id) ->
  file_name id ->
  field (readStdin JSON_parse host1) "prompt" = JString prompt ->
  prompt <> "" ->
  captured_window host1 = Some window ->
  window <> "" ->
  time_value (date_now host1) ->
  time_value (date_now host2) ->
  let duration := (date_now host2 - date_now host1) `div` 1000 in
  60 <= duration ->
  let w1 := (startTimer JSON_parse host1 w).2 in
  exists notice,
    notifications (checkDuration JSON_parse host2 w1).2 = notifications w ++ [notice] /\
    message notice =
      (Labels.completed (resolved_language host2) +:+ " (" +:+ toString duration +:+
       Labels.seconds (resolved_language host2) +:+ ")") +:+ lf +:+
      utf8 (slice prompt 0 50) +:+ "..." /\
    units (utf8 (slice prompt 0 50)) = scrub (take 50 (units prompt)) /\
    click_window notice = Some (utf8 window).
Proof.
  intros Hsame Hs1 Hs2 Hid Hprompt Hne Hwin Hwne [Hnow _] _ duration Hd w1.
  assert (Hp : JS.or_else (field (readStdin JSON_parse host1) "prompt") (JString "")
               = JString prompt).
  { rewrite Hprompt. unfold JS.or_else. destruct prompt; [congruence|reflexivity]. }
  destruct (startTimer_run JSON_parse host1 w _ _ Hs1 Hp) as (w1' & Hrun & Hf & Hn).
  assert (w1 = w1') as -> by (subst w1; rewrite Hrun; reflexivity).
  destruct (checkDuration_notice JSON_parse host2 w1' id (date_now host1)
              (Some (utf8 (slice prompt 0 50))) (Some (utf8 window)))
    as (notice & Hnotes & Hmessage & Hclick); try assumption.
  - rewrite Hf, (session_file_same host1 host2 _ _ Hsame).
    apply stored_by_start_start, Hid.
  - rewrite Hf, (session_file_same host1 host2 _ _ Hsame).
    rewrite stored_by_start_prompt by exact Hid.
    destruct prompt; [congruence|reflexivity].
  - rewrite Hf, (session_file_same host1 host2 _ _ Hsame).
    rewrite stored_by_start_window by exact Hid. rewrite Hwin.
    destruct window; [congruence|reflexivity].
  - exists notice. rewrite Hnotes, Hn.
    split; [reflexivity|]. split; [exact Hmessage|].
    split; [rewrite units_utf8, units_slice; reflexivity|exact Hclick].
Qed.

Lemma start_then_stop_notice_witness :
  let host1 := Example.linux (Sample.prompt_text "s1" Sample.long_korean_prompt)
                 1700000000000 in
  let host2 := Example.linux Example.payload_s1 1700000061000 in
  let w1 := (startTimer Sample.parse host1 empty_world).2 in
  map message (notifications (checkDuration Sample.parse host2 w1).2) =
    ["완료 (61초)" +:+ lf +:+
     "알림 훅이 세션 파일을 지우기 전에 창 식별자를 읽도록 고치고, 영어가 아닌 언어에서도 메..."] /\
  map click_window (notifications (checkDuration Sample.parse host2 w1).2) =
    [Some "58720263"].
Proof.
  intros host1 host2 w1.
  destruct (start_then_stop_notice Sample.parse host1 host2 empty_world "s1"
              Sample.long_korean_prompt "58720263")
    as (notice & Hn & Hm & _ & Hc);
    [repeat split | reflexivity | reflexivity | reflexivity | reflexivity | discriminate
    | reflexivity | discriminate | split; discriminate | split; discriminate
    | vm_compute; discriminate |].
  subst w1. rewrite Hn. cbn [map app notifications empty_world]. rewrite Hm, Hc.
  split; [vm_compute; reflexivity|reflexivity].
Defined.

(** X10. A permission request between the prompt and the stop of a session
    whose identifier is a file name: its notification goes, on a click, to
    the window the prompt hook captured, and the start record is still there
    for the stop hook. *)
Theorem permission_after_start
    (JSON_parse : string -> option JSValue) (host1 host2 : Host) (w : World)
    (id : string) (prompt : option string) (window detail : string) :
  same_machine host1 host2 ->
  session_of (readStdin JSON_parse host1) = Return (JString id) ->
  file_name id ->
  field (readStdin JSON_parse host1) "prompt" = text_or_absent prompt ->
  captured_window host1 = Some window ->
  window <> "" ->
  let input := readStdin JSON_parse host2 in
  let toolInput := JS.or_else (field input "tool_input") (JObject []) in
  session_of input = Return (JString id) ->
  JS.or_else (JS.or_else (field toolInput "file_path") (field toolInput "command"))
    (JString "") = JString detail ->
  let w1 := (startTimer JSON_parse host1 w).2 in
  let result := permissionRequest JSON_parse host2 w1 in
  result.1 = Return tt /\
  map click_window (notifications result.2) =
    map click_window (notifications w) ++ [Some (utf8 window)] /\
  files result.2 !! session_file host2 (JString id) "start"
    = Some (toString (date_now host1)).
Proof.
  intros Hsame Hs1 Hid Hprompt Hwin Hwne input toolInput Hs2 Hd w1 result.
  assert (Hp : JS.or_else (field (readStdin JSON_parse host1) "prompt") (JString "")
               = JString (JSString.or_else prompt "")).
  { rewrite Hprompt. unfold JS.or_else. destruct prompt as [[|c r]|]; reflexivity. }
  destruct (startTimer_run JSON_parse host1 w _ _ Hs1 Hp) as (w1' & Hrun & Hf & Hn).
  assert (w1 = w1') as -> by (subst w1; rewrite Hrun; reflexivity).
  subst result. rewrite (permissionRequest_run JSON_parse host2 w1' _ detail Hs2 Hd).
  cbn [fst snd]. split; [reflexivity|].
  autorewrite with world. split.
  - rewrite map_app, Hn. f_equal. cbn [map permission_notice click_window].
    rewrite (session_file_same host1 host2 _ _ Hsame), Hf.
    rewrite stored_by_start_window by exact Hid. rewrite Hwin.
    destruct window; [congruence|reflexivity].
  - rewrite (session_file_same host1 host2 _ _ Hsame), Hf.
    apply stored_by_start_start, Hid.
Qed.

Lemma permission_after_start_witness :
  let host1 := Example.linux Example.payload_s1 1700000000000 in
  let host2 := Example.linux Example.payload_edit 1700000005000 in
  let w1 := (startTimer Example.parse host1 empty_world).2 in
  map click_window (notifications (permissionRequest Example.parse host2 w1).2) =
    [Some "58720263"] /\
  files (permissionRequest Example.parse host2 w1).2 !! "/tmp/claude-code-notifier/start-s1" =
    Some "1700000000000".
Proof.
  intros host1 host2 w1.
  destruct (permission_after_start Example.parse host1 host2 empty_world "s1"
              (Some "fix the bug in parser.ts and rerun tests please") "58720263"
              "src/parser.ts")
    as (_ & Hc & Hstart);
    [repeat split | reflexivity | reflexivity | reflexivity | reflexivity | discriminate
    | reflexivity | reflexivity |].
  split; [exact Hc|exact Hstart].
Defined.

(** ** More on the locale *)

Lemma label_not_empty (lang key : string) : Labels.text lang key <> "".
Proof.
  unfold Labels.text, Labels.completed, Labels.seconds, Labels.permissionRequest,
    Labels.clickToFocus.
  repeat case_decide; discriminate.
Qed.

(** X11. On every host the text of each of the four message keys is a text
    that is not empty, and it is what [t] returns. *)
Theorem localized_text_is_never_empty (host : Host) (w : World) (key : string) :
  In key message_keys ->
  localized host key <> "" /\
  (t host key w).1 = Return (Text (localized host key)).
Proof.
  intros Hkey. split; [|rewrite t_run by exact Hkey; reflexivity].
  destruct (localized_label host key Hkey) as [_ ->]. apply label_not_empty.
Qed.

Lemma localized_text_is_never_empty_witness :
  localized (Example.windows "{}" 0) "permissionRequest" <> "".
Proof.
  apply (localized_text_is_never_empty (Example.windows "{}" 0) empty_world).
  simpl. auto.
Defined.

(** X12. Away from Windows the language comes from the environment alone,
    with no child process: the first of [LANG], [LANGUAGE] and [LC_ALL] that
    is set and not empty gives the code (the text before [_] and [.], in
    lower case), kept if [MESSAGES] answers to it and replaced by [en]
    otherwise; with none of them it is [en]. [MESSAGES] answers to the seven
    supported codes and to the names objects inherit, [constructor] among
    them, and to nothing else. *)
Theorem getSystemLanguage_reads_environment (host : Host) (w : World) :
  os_platform host <> "win32" ->
  let unset (v : option string) := JSString.or_else v "" = "" in
  (exists lang, getSystemLanguage host w = (Return lang, w)) /\
  (forall l, env_LANG host = Some l -> l <> "" ->
     resolved_language host = known_or_en (code_of l)) /\
  (forall l, unset (env_LANG host) -> env_LANGUAGE host = Some l -> l <> "" ->
     resolved_language host = known_or_en (code_of l)) /\
  (forall l, unset (env_LANG host) -> unset (env_LANGUAGE host) ->
     env_LC_ALL host = Some l -> l <> "" ->
     resolved_language host = known_or_en (code_of l)) /\
  (unset (env_LANG host) -> unset (env_LANGUAGE host) -> unset (env_LC_ALL host) ->
     resolved_language host = "en") /\
  (forall code, In code supported -> known_or_en code = code) /\
  (forall code, In code answered -> known_or_en code = code) /\
  (forall code, ~ In code answered -> known_or_en code = "en") /\
  known_or_en "constructor" = "constructor".
Proof.
  intros Hos unset.
  assert (Hres : resolved_language host =
            known_or_en (code_of (JSString.or_else (env_LANG host)
              (JSString.or_else (env_LANGUAGE host)
                 (JSString.or_else (env_LC_ALL host) ""))))).
  { unfold resolved_language, getSystemLanguage, try_catch, mbind, mret, M_bind, M_ret.
    destruct (decide (os_platform host = "win32")) as [|_]; [contradiction|].
    reflexivity. }
  assert (Hset : forall l d, l <> "" -> JSString.or_else (Some l) d = l)
    by (intros [|c r] d Hl; [congruence|reflexivity]).
  assert (Hunset : forall v d, unset v -> JSString.or_else v d = d).
  { subst unset. intros [[|c r]|] d Hv; cbn in *; try reflexivity. discriminate Hv. }
  assert (Hkept : forall code, In code answered -> known_or_en code = code).
  { intros code Hcode. unfold known_or_en.
    rewrite bool_decide_true by (apply MESSAGES_get_answered, Hcode). reflexivity. }
  split.
  { rewrite getSystemLanguage_run. exists (resolved_language host).
    unfold language_calls, getSystemLanguage, try_catch, mbind, mret, M_bind, M_ret.
    destruct (decide (os_platform host = "win32")) as [|_]; [contradiction|].
    cbn [snd calls empty_world]. rewrite add_calls_nil. reflexivity. }
  rewrite Hres. repeat split.
  - intros l -> Hl. rewrite Hset by exact Hl. reflexivity.
  - intros l H1 -> Hl. rewrite (Hunset _ _ H1), Hset by exact Hl. reflexivity.
  - intros l H1 H2 -> Hl. rewrite (Hunset _ _ H1), (Hunset _ _ H2), Hset by exact Hl.
    reflexivity.
  - intros H1 H2 H3. rewrite (Hunset _ _ H1), (Hunset _ _ H2), (Hunset _ _ H3). reflexivity.
  - intros code Hcode. apply Hkept. unfold answered. apply in_or_app. left. exact Hcode.
  - exact Hkept.
  - intros code Hcode. unfold known_or_en.
    rewrite bool_decide_false by (intros H; apply Hcode, MESSAGES_get_answered, H).
    reflexivity.
Qed.

Lemma getSystemLanguage_reads_environment_witness :
  resolved_language (Sample.darwin "{}" 0) = "fr" /\
  resolved_language (Sample.odd_locale "{}" 0) = "constructor" /\
  resolved_language (Sample.headless "{}" 0) = "en".
Proof.
  destruct (getSystemLanguage_reads_environment (Sample.darwin "{}" 0) empty_world)
    as (_ & _ & Hlanguage & _); [discriminate|].
  destruct (getSystemLanguage_reads_environment (Sample.odd_locale "{}" 0) empty_world)
    as (_ & Hodd & _); [discriminate|].
  destruct (getSystemLanguage_reads_environment (Sample.headless "{}" 0) empty_world)
    as (_ & Hc & _); [discriminate|].
  split; [apply (Hlanguage "fr_FR.UTF-8"); [reflexivity | reflexivity | discriminate]|].
  split; [apply (Hodd "constructor"); [reflexivity|discriminate]|].
  apply (Hc "C.UTF-8"); [reflexivity|discriminate].
Defined.

(** X13. On Windows the language is asked of PowerShell, in one call with a
    timeout of 3000 ms: its output, trimmed and in lower case, is the code;
    when the call fails the code is the language of the [Intl] locale, and
    [en] when that fails too. A code with no bundle is replaced by [en]. *)
Theorem getSystemLanguage_on_windows (host : Host) (w : World) :
  os_platform host = "win32" ->
  getSystemLanguage host w =
    (Return (resolved_language host),
     add_calls [ExecSync culture_command exec_options] w) /\
  (forall out, exec_stdout host culture_command = Some out ->
     resolved_language host = known_or_en (toLowerCase (trim out))) /\
  (forall locale, exec_stdout host culture_command = None ->
     intl_locale host = Some locale ->
     resolved_language host = known_or_en (toLowerCase (split0 "-" locale))) /\
  (exec_stdout host culture_command = None -> intl_locale host = None ->
     resolved_language host = "en").
Proof.
  intros Hos.
  split.
  { rewrite getSystemLanguage_run. f_equal. f_equal.
    unfold language_calls, getSystemLanguage, try_catch, execSync, record_call, throw,
      mbind, mret, M_bind, M_ret.
    destruct (decide (os_platform host = "win32")) as [_|]; [|contradiction].
    destruct (exec_stdout host culture_command); [reflexivity|].
    destruct (intl_locale host); reflexivity. }
  unfold resolved_language, getSystemLanguage, try_catch, execSync, record_call, throw,
    mbind, mret, M_bind, M_ret.
  destruct (decide (os_platform host = "win32")) as [_|]; [|contradiction].
  repeat split.
  - intros out ->. reflexivity.
  - intros locale -> ->. reflexivity.
  - intros -> ->. reflexivity.
Qed.

Lemma getSystemLanguage_on_windows_witness :
  resolved_language (Example.windows "{}" 0) = "de".
Proof.
  destruct (getSystemLanguage_on_windows (Example.windows "{}" 0) empty_world)
    as (_ & _ & Hintl & _); [reflexivity|].
  apply (Hintl "de-DE"); reflexivity.
Defined.

(** ** More on the input *)

(** X14. Input that is not JSON is read as the empty object, and the hooks
    run on the defaults: the prompt hook writes the start time of session
    "default" and no prompt, the stop hook returns, and the permission hook
    announces the tool "unknown" with no detail. *)
Theorem non_json_input_runs_with_defaults
    (JSON_parse : string -> option JSValue) (host : Host) (w : World) :
  JSON_parse (stdin_text host) = None ->
  readStdin JSON_parse host = JObject [] /\
  (startTimer JSON_parse host w).1 = Return tt /\
  files (startTimer JSON_parse host w).2 !! session_file host (JString "default") "start"
    = Some (toString (date_now host)) /\
  files (startTimer JSON_parse host w).2 !! session_file host (JString "default") "prompt"
    = files w !! session_file host (JString "default") "prompt" /\
  (checkDuration JSON_parse host w).1 = Return tt /\
  (permissionRequest JSON_parse host w).1 = Return tt /\
  map message (notifications (permissionRequest JSON_parse host w).2) =
    map message (notifications w) ++ [localized host "permissionRequest" +:+ ": unknown"].
Proof.
  intros Hparse.
  assert (Hin : readStdin JSON_parse host = JObject [])
    by (unfold readStdin; rewrite Hparse; reflexivity).
  assert (Hs : session_of (readStdin JSON_parse host) = Return (JString "default"))
    by (rewrite Hin; reflexivity).
  split; [exact Hin|].
  destruct (startTimer_run JSON_parse host w (JString "default") "" Hs) as (w' & Hrun & Hf & _).
  { rewrite Hin. reflexivity. }
  rewrite Hrun. cbn [fst snd].
  split; [reflexivity|]. split; [rewrite Hf; apply stored_by_start_start; reflexivity|].
  split; [rewrite Hf, stored_by_start_prompt by reflexivity; reflexivity|].
  split.
  { destruct (files w !! session_file host (JString "default") "start") as [text|] eqn:Hstart.
    - destruct (checkDuration_run JSON_parse host w _ text Hs Hstart) as (w2 & Hrun2 & _).
      rewrite Hrun2. reflexivity.
    - rewrite (checkDuration_absent JSON_parse host w _ Hs Hstart). reflexivity. }
  rewrite (permissionRequest_run JSON_parse host w (JString "default") "" Hs).
  2: { rewrite Hin. reflexivity. }
  cbn [fst snd]. split; [reflexivity|].
  autorewrite with world. rewrite map_app, Hin. reflexivity.
Qed.

Lemma non_json_input_runs_with_defaults_witness :
  let host := Example.linux "not json" 1700000000000 in
  files (startTimer Example.parse host empty_world).2
    !! "/tmp/claude-code-notifier/start-default" = Some "1700000000000" /\
  map message (notifications (permissionRequest Example.parse host empty_world).2) =
    ["권한 요청: unknown"].
Proof.
  intros host.
  destruct (non_json_input_runs_with_defaults Example.parse host empty_world)
    as (_ & _ & Hstart & _ & _ & _ & Hm); [reflexivity|].
  split; [exact Hstart|]. etransitivity; [exact Hm|vm_compute; reflexivity].
Defined.

(** X15. A JSON text that is a number, a boolean, a string or an array is
    read like the empty object: the session is "default", no prompt is
    stored, the tool is "unknown", and the three hooks return without an
    error. Only [null] makes them throw. *)
Theorem input_without_properties_defaults
    (JSON_parse : string -> option JSValue) (host : Host) (w : World) :
  match readStdin JSON_parse host with
  | JBool _ | JNumber _ | JString _ | JArray _ => True
  | _ => False
  end ->
  session_of (readStdin JSON_parse host) = Return (JString "default") /\
  (startTimer JSON_parse host w).1 = Return tt /\
  files (startTimer JSON_parse host w).2 !! session_file host (JString "default") "prompt"
    = files w !! session_file host (JString "default") "prompt" /\
  (checkDuration JSON_parse host w).1 = Return tt /\
  (permissionRequest JSON_parse host w).1 = Return tt /\
  map message (notifications (permissionRequest JSON_parse host w).2) =
    map message (notifications w) ++ [localized host "permissionRequest" +:+ ": unknown"].
Proof.
  intros Hshape.
  assert (Hfield : forall key, field (readStdin JSON_parse host) key = JUndefined)
    by (intros key; unfold field; destruct (readStdin JSON_parse host);
        try contradiction; reflexivity).
  assert (Hs : session_of (readStdin JSON_parse host) = Return (JString "default"))
    by (unfold session_of; destruct (readStdin JSON_parse host);
        try contradiction; reflexivity).
  split; [exact Hs|].
  destruct (startTimer_run JSON_parse host w (JString "default") "" Hs) as (w' & Hrun & Hf & _).
  { rewrite Hfield. reflexivity. }
  rewrite Hrun. cbn [fst snd].
  split; [reflexivity|]. split.
  { rewrite Hf, stored_by_start_prompt by reflexivity. reflexivity. }
  split.
  { destruct (files w !! session_file host (JString "default") "start") as [text|] eqn:Hstart.
    - destruct (checkDuration_run JSON_parse host w _ text Hs Hstart) as (w2 & Hrun2 & _).
      rewrite Hrun2. reflexivity.
    - rewrite (checkDuration_absent JSON_parse host w _ Hs Hstart). reflexivity. }
  rewrite (permissionRequest_run JSON_parse host w (JString "default") "" Hs).
  2: { rewrite Hfield. reflexivity. }
  cbn [fst snd]. split; [reflexivity|].
  autorewrite with world. rewrite map_app, Hfield. reflexivity.
Qed.

Lemma input_without_properties_defaults_witness :
  let host := Example.linux "42" 1700000000000 in
  (startTimer Sample.parse host empty_world).1 = Return tt /\
  map message (notifications (permissionRequest Sample.parse host empty_world).2) =
    ["권한 요청: unknown"].
Proof.
  intros host.
  destruct (input_without_properties_defaults Sample.parse host empty_world)
    as (_ & Hs & _ & _ & _ & Hm); [exact I|].
  split; [exact Hs|]. etransitivity; [exact Hm|vm_compute; reflexivity].
Defined.

(** X16. A [session_id] that is there but not truthy ([null], [false], [0],
    the empty text) is the session "default" like a missing one: the prompt
    hook writes the start time to the file [start-default]. *)
Theorem falsy_session_id_defaults
    (JSON_parse : string -> option JSValue) (host : Host) (w : World)
    (props : list (string * JSValue)) (prompt : string) :
  readStdin JSON_parse host = JObject props ->
  JS.ToBoolean (JS.own props "session_id") = false ->
  JS.or_else (JS.own props "prompt") (JString "") = JString prompt ->
  session_of (readStdin JSON_parse host) = Return (JString "default") /\
  files (startTimer JSON_parse host w).2
    !! join host [join host [os_tmpdir host; "claude-code-notifier"]; "start-default"]
    = Some (toString (date_now host)).
Proof.
  intros Hin Hfalsy Hp.
  assert (Hs : session_of (readStdin JSON_parse host) = Return (JString "default")).
  { rewrite Hin. unfold session_of, JS.get, JS.or_else. rewrite Hfalsy. reflexivity. }
  split; [exact Hs|].
  destruct (startTimer_run JSON_parse host w (JString "default") prompt Hs) as (w' & Hrun & Hf & _).
  { rewrite Hin. exact Hp. }
  rewrite Hrun. cbn [snd]. rewrite Hf.
  apply (stored_by_start_start host "default"). reflexivity.
Qed.

Lemma falsy_session_id_defaults_witness :
  let host := Example.linux ("{" +:+ quoted "session_id" +:+ ":0}") 1700000000000 in
  files (startTimer Sample.parse host empty_world).2 !! "/tmp/claude-code-notifier/start-default"
    = Some "1700000000000".
Proof.
  intros host.
  apply (falsy_session_id_defaults Sample.parse host empty_world
           [("session_id", JNumber "0")] ""); reflexivity.
Defined.



(** X18. A detail that has no [slice] method (a [file_path] or [command]
    that is a number, [true] or an object) makes the permission hook throw a
    [TypeError] before it does anything: no notification, and the world is
    as it was. *)
Theorem permissionRequest_rejects_detail_without_slice
    (JSON_parse : string -> option JSValue) (host : Host) (w : World) (sid : JSValue) :
  let input := readStdin JSON_parse host in
  let toolInput := JS.or_else (field input "tool_input") (JObject []) in
  session_of input = Return sid ->
  has_no_slice
    (JS.or_else (JS.or_else (field toolInput "file_path") (field toolInput "command"))
       (JString "")) ->
  permissionRequest JSON_parse host w = (Throw TypeError, w).
Proof.
  cbv zeta. unfold session_of. intros Hs Hshape.
  unfold permissionRequest.
  destruct (JS.get (readStdin JSON_parse host) "session_id") as [v|e] eqn:Hg; [|discriminate].
  rewrite (get_coercible _ _ _ "tool_name" Hg), (get_coercible _ _ _ "tool_input" Hg).
  unfold lift.
  do 3 (erewrite bind_run by reflexivity). cbv zeta.
  rewrite !(get_truthy _ (JObject [])) by reflexivity.
  do 2 (erewrite bind_run by reflexivity).
  destruct (JS.or_else (JS.or_else _ _) (JString "")); try contradiction; reflexivity.
Qed.

Lemma permissionRequest_rejects_detail_without_slice_witness :
  let host := Example.linux ("{" +:+ quoted "tool_input" +:+ ":{" +:+ quoted "file_path" +:+
                             ":7}}") 1700000000000 in
  permissionRequest Sample.parse host empty_world = (Throw TypeError, empty_world).
Proof.
  intros host.
  apply (permissionRequest_rejects_detail_without_slice Sample.parse host empty_world
           (JString "default")); [reflexivity | exact I].
Defined.



(** ** The command line and the installers *)

(** X20. The script runs the prompt hook for [start-timer], the stop hook
    for [check-duration] and the permission hook for [permission-request];
    for any other argument, and for none, it prints the usage line on the
    error output and exits with status 1, having read no input and touched
    nothing. On input that is not JSON the three subcommands are told apart
    by what they leave: [start-timer] the start file of the session
    "default" and no notification, [permission-request] one notification
    and the files as they were, [check-duration] no file that was not
    there. *)
Theorem main_runs_hook_or_prints_usage
    (JSON_parse : string -> option JSValue) (host : Host) (w : World)
    (command : option string) :
  let hooks := [Some "start-timer"; Some "check-duration"; Some "permission-request"] in
  let run (name : string) := main JSON_parse host (Some name) w in
  run "start-timer" =
    (Settled (startTimer JSON_parse host w).1, (startTimer JSON_parse host w).2) /\
  run "check-duration" =
    (Settled (checkDuration JSON_parse host w).1, (checkDuration JSON_parse host w).2) /\
  run "permission-request" =
    (Settled (permissionRequest JSON_parse host w).1,
     (permissionRequest JSON_parse host w).2) /\
  (~ In command hooks -> main JSON_parse host command w = (Exited 1 usage, w)) /\
  (JSON_parse (stdin_text host) = None ->
   (run "start-timer").1 = Settled (Return tt) /\
   files (run "start-timer").2 !! session_file host (JString "default") "start"
     = Some (toString (date_now host)) /\
   notifications (run "start-timer").2 = notifications w /\
   (run "permission-request").1 = Settled (Return tt) /\
   files (run "permission-request").2 = files w /\
   List.length (notifications (run "permission-request").2)
     = S (List.length (notifications w)) /\
   (run "check-duration").1 = Settled (Return tt) /\
   files (run "check-duration").2 ⊆ files w).
Proof.
  intros hooks run. subst hooks run. cbv beta.
  assert (Hstart : main JSON_parse host (Some "start-timer") w =
            (Settled (startTimer JSON_parse host w).1, (startTimer JSON_parse host w).2)).
  { unfold main. rewrite decide_True by reflexivity.
    destruct (startTimer JSON_parse host w). reflexivity. }
  assert (Hstop : main JSON_parse host (Some "check-duration") w =
            (Settled (checkDuration JSON_parse host w).1, (checkDuration JSON_parse host w).2)).
  { unfold main. rewrite decide_False by discriminate. rewrite decide_True by reflexivity.
    destruct (checkDuration JSON_parse host w). reflexivity. }
  assert (Hperm : main JSON_parse host (Some "permission-request") w =
            (Settled (permissionRequest JSON_parse host w).1,
             (permissionRequest JSON_parse host w).2)).
  { unfold main. do 2 rewrite decide_False by discriminate.
    rewrite decide_True by reflexivity.
    destruct (permissionRequest JSON_parse host w). reflexivity. }
  rewrite Hstart, Hstop, Hperm.
  split; [reflexivity|]. split; [reflexivity|]. split; [reflexivity|].
  split.
  { intros Hnot. unfold main. destruct command as [c|]; [|reflexivity].
    destruct (decide (c = "start-timer")) as [->|_];
      [exfalso; apply Hnot; left; reflexivity|].
    destruct (decide (c = "check-duration")) as [->|_];
      [exfalso; apply Hnot; right; left; reflexivity|].
    destruct (decide (c = "permission-request")) as [->|_];
      [exfalso; apply Hnot; right; right; left; reflexivity|].
    reflexivity. }
  intros Hparse. cbn [fst snd].
  assert (Hin : readStdin JSON_parse host = JObject [])
    by (unfold readStdin; rewrite Hparse; reflexivity).
  assert (Hs : session_of (readStdin JSON_parse host) = Return (JString "default"))
    by (rewrite Hin; reflexivity).
  destruct (startTimer_run JSON_parse host w (JString "default") "" Hs)
    as (w1 & Hrun1 & Hf1 & Hn1); [rewrite Hin; reflexivity|].
  rewrite Hrun1. cbn [fst snd].
  split; [reflexivity|].
  split; [rewrite Hf1; apply stored_by_start_start; reflexivity|].
  split; [exact Hn1|].
  rewrite (permissionRequest_run JSON_parse host w (JString "default") "" Hs)
    by (rewrite Hin; reflexivity).
  cbn [fst snd]. split; [reflexivity|]. split; [reflexivity|].
  split; [autorewrite with world; rewrite length_app; simpl; lia|].
  destruct (files w !! session_file host (JString "default") "start") as [text|] eqn:Hf.
  - destruct (checkDuration_run JSON_parse host w _ text Hs Hf) as (w2 & Hrun2 & Hf2 & _).
    rewrite Hrun2. cbn [fst snd]. split; [reflexivity|]. rewrite Hf2.
    etransitivity; [apply delete_subseteq|].
    etransitivity; [apply delete_subseteq|]. apply delete_subseteq.
  - rewrite (checkDuration_absent JSON_parse host w _ Hs Hf). split; reflexivity.
Qed.

Lemma main_runs_hook_or_prints_usage_witness :
  main Example.parse (Example.linux "{}" 0) (Some "Start-Timer") empty_world =
    (Exited 1 usage, empty_world) /\
  List.length
    (notifications
       (main Example.parse (Example.linux "not json" 0) (Some "permission-request")
          empty_world).2) = 1%nat.
Proof.
  destruct (main_runs_hook_or_prints_usage Example.parse (Example.linux "{}" 0) empty_world
              (Some "Start-Timer")) as (_ & _ & _ & Husage & _).
  destruct (main_runs_hook_or_prints_usage Example.parse (Example.linux "not json" 0)
              empty_world None) as (_ & _ & _ & _ & Hnon).
  destruct (Hnon eq_refl) as (_ & _ & _ & _ & _ & Hone & _).
  split; [|exact Hone].
  apply Husage. intros [H|[H|[H|[]]]]; discriminate H.
Defined.

(** X21. The global installer. When [npm list -g] finds the package it runs
    nothing else and ends with status 0. When the package is missing it runs
    [npm install -g] once: on success it ends with status 0, on failure it
    prints the error of the install and the command to try by hand on the
    error output and exits with status 1, without the success line. *)
Theorem install_global_outcomes (npm : string -> option string) :
  let tr := (Install.global npm Install.start).2 in
  (npm "npm list -g node-notifier" = None ->
   Install.ran tr = [Install.list_global] /\ Install.status tr = 0 /\
   Install.err tr = [] /\ last (Install.out tr) = Some Install.success) /\
  (forall missing,
     npm "npm list -g node-notifier" = Some missing ->
     npm "npm install -g node-notifier" = None ->
     Install.ran tr = [Install.list_global; Install.install_global] /\
     Install.status tr = 0 /\ Install.err tr = [] /\
     last (Install.out tr) = Some Install.success) /\
  (forall missing message,
     npm "npm list -g node-notifier" = Some missing ->
     npm "npm install -g node-notifier" = Some message ->
     Install.ran tr = [Install.list_global; Install.install_global] /\
     Install.status tr = 1 /\
     Install.err tr = [lf +:+ "Failed to install dependencies: " +:+ message;
                       "Try running: npm install -g node-notifier"] /\
     ~ In Install.success (Install.out tr)).
Proof.
  intros tr. subst tr.
  unfold Install.global, Install.and_then, Install.try_, Install.execSync,
    Install.console_log, Install.console_error, Install.process_exit, Install.status.
  cbn [Install.line Install.list_global Install.install_global].
  split; [|split].
  - intros Hlist. rewrite Hlist. cbn. repeat split.
  - intros missing Hlist Hinstall. rewrite Hlist. cbn. rewrite Hinstall. cbn. repeat split.
  - intros missing message Hlist Hinstall. rewrite Hlist. cbn. rewrite Hinstall. cbn.
    repeat split. intros [H|[H|[]]]; discriminate H.
Qed.

Lemma install_global_outcomes_witness :
  Install.status (Install.global Sample.npm_broken Install.start).2 = 1 /\
  Install.status (Install.global Sample.npm_missing Install.start).2 = 0 /\
  length (Install.ran (Install.global Sample.npm_missing Install.start).2) = 2%nat.
Proof.
  destruct (install_global_outcomes Sample.npm_broken) as (_ & _ & Hbroken).
  destruct (install_global_outcomes Sample.npm_missing) as (_ & Hmissing & _).
  destruct (Hbroken _ _ eq_refl eq_refl) as (_ & Hstatus & _).
  destruct (Hmissing _ eq_refl eq_refl) as (Hran & Hok & _).
  split; [exact Hstatus|]. split; [exact Hok|]. rewrite Hran. reflexivity.
Defined.

(** X22. The local installer runs [npm install --production] once, in the
    directory of the script: it ends with status 0 and the success line when
    the command succeeds, and with status 1 and the error of the command on
    the error output when it fails. *)
Theorem install_production_outcomes (npm : string -> option string) (dirname : string) :
  let tr := (Install.production npm dirname Install.start).2 in
  Install.ran tr = [Install.install_production dirname] /\
  (npm "npm install --production" = None ->
   Install.status tr = 0 /\ Install.err tr = [] /\
   last (Install.out tr) = Some Install.success) /\
  (forall message,
     npm "npm install --production" = Some message ->
     Install.status tr = 1 /\
     Install.err tr = [lf +:+ "Failed to install dependencies: " +:+ message] /\
     ~ In Install.success (Install.out tr)).
Proof.
  intros tr. subst tr.
  unfold Install.production, Install.and_then, Install.try_, Install.execSync,
    Install.console_log, Install.console_error, Install.process_exit, Install.status.
  cbn [Install.line Install.install_production].
  split; [destruct (npm "npm install --production"); reflexivity|].
  split.
  - intros Hnpm. rewrite Hnpm. cbn. repeat split.
  - intros message Hnpm. rewrite Hnpm. cbn. repeat split.
    intros [H|[]]. discriminate H.
Qed.

Lemma install_production_outcomes_witness :
  Install.status (Install.production Sample.npm_broken "/opt/hooks" Install.start).2 = 1 /\
  Install.status (Install.production Sample.npm_missing "/opt/hooks" Install.start).2 = 0.
Proof.
  destruct (install_production_outcomes Sample.npm_broken "/opt/hooks") as (_ & _ & Hbroken).
  destruct (install_production_outcomes Sample.npm_missing "/opt/hooks") as (_ & Hok & _).
  split; [apply (Hbroken _ eq_refl)|apply (Hok eq_refl)].
Defined.

(** ** Child processes of the hooks *)

Lemma language_calls_platform (host : Host) :
  language_calls host =
    if decide (os_platform host = "win32")
    then [ExecSync culture_command exec_options] else [].
Proof.
  unfold language_calls, getSystemLanguage, try_catch, execSync, record_call, throw,
    mbind, mret, M_bind, M_ret.
  destruct (decide (os_platform host = "win32")); [|reflexivity].
  destruct (exec_stdout host culture_command); [reflexivity|].
  destruct (intl_locale host); reflexivity.
Qed.

Lemma checkDuration_calls
    (JSON_parse : string -> option JSValue) (host : Host) (w : World)
    (sid : JSValue) (text : string) :
  session_of (readStdin JSON_parse host) = Return sid ->
  files w !! session_file host sid "start" = Some text ->
  calls (checkDuration JSON_parse host w).2 =
    calls w ++
    match announcement host w sid text, files w !! session_file host sid "prompt" with
    | [], _ => []
    | _ :: _, None => language_calls host ++ language_calls host
    | _ :: _, Some _ =>
        language_calls host ++ language_calls host ++
        language_calls host ++ language_calls host
    end.
Proof.
  unfold session_of. intros Hs Hf.
  unfold checkDuration.
  destruct (JS.get (readStdin JSON_parse host) "session_id") as [v|e] eqn:Hg; [|discriminate].
  injection Hs as <-.
  unfold lift at 1.
  erewrite bind_run by reflexivity.
  do 3 erewrite bind_run by apply getTempFile_run.
  erewrite bind_run by apply existsSync_run.
  set (sid := JS.or_else v (JString "default")) in *.
  autorewrite with world. rewrite Hf. autorewrite with world.
  change (negb true) with false. cbv iota.
  unfold announcement, duration_of, CONFIG.durationThreshold.
  destruct (files w !! session_file host sid "prompt") as [p|] eqn:Hp;
  destruct (files w !! session_file host sid "window") as [wi|] eqn:Hw;
  (destruct (parseInt text) as [start|] eqn:Hparse;
   [destruct (60 <=? (date_now host - start) `div` 1000) eqn:Hd|]);
  (erewrite (f_equal snd);
   [| apply try_catch_return;
      erewrite bind_run by (apply readFileSync_run; norm; reflexivity);
      rewrite Hparse; simpl fmap; cbv beta iota; rewrite ?Hd;
      solve_run ]);
  cbn [snd]; norm; rewrite ?app_nil_r, <- ?app_assoc; reflexivity.
Qed.

(** X23. The stop hook and the permission hook start no child process but
    the language probe of [t]: none at all away from Windows; on Windows the
    permission hook runs the probe once, and the stop hook runs it twice for
    a notification without a prompt and four times for one with a prompt
    (the message is built a second time), and not at all when it does not
    notify. *)
Theorem hooks_run_only_the_language_probe
    (JSON_parse : string -> option JSValue) (host : Host) (w : World)
    (sid : JSValue) (text detail : string) :
  let input := readStdin JSON_parse host in
  let toolInput := JS.or_else (field input "tool_input") (JObject []) in
  let probe := ExecSync culture_command exec_options in
  session_of input = Return sid ->
  files w !! session_file host sid "start" = Some text ->
  JS.or_else (JS.or_else (field toolInput "file_path") (field toolInput "command"))
    (JString "") = JString detail ->
  (os_platform host <> "win32" ->
   calls (checkDuration JSON_parse host w).2 = calls w /\
   calls (permissionRequest JSON_parse host w).2 = calls w) /\
  (os_platform host = "win32" ->
   calls (permissionRequest JSON_parse host w).2 = calls w ++ [probe] /\
   calls (checkDuration JSON_parse host w).2 =
     calls w ++
     match announcement host w sid text, files w !! session_file host sid "prompt" with
     | [], _ => []
     | _ :: _, None => [probe; probe]
     | _ :: _, Some _ => [probe; probe; probe; probe]
     end).
Proof.
  intros input toolInput probe Hs Hf Hd.
  pose proof (checkDuration_calls JSON_parse host w sid text Hs Hf) as Hstop.
  pose proof (permissionRequest_run JSON_parse host w sid detail Hs Hd) as Hperm.
  cbv zeta in Hperm. rewrite Hperm, Hstop. cbn [snd]. autorewrite with world.
  rewrite language_calls_platform.
  split; intros Hos.
  - destruct (decide (os_platform host = "win32")) as [|_]; [contradiction|].
    split; [|apply app_nil_r].
    destruct (announcement host w sid text);
      destruct (files w !! session_file host sid "prompt"); apply app_nil_r.
  - destruct (decide (os_platform host = "win32")) as [_|]; [|contradiction].
    split; [reflexivity|].
    destruct (announcement host w sid text);
      destruct (files w !! session_file host sid "prompt"); reflexivity.
Qed.

Lemma hooks_run_only_the_language_probe_witness :
  let host := Example.windows "{}" 1700000065000 in
  let w := set_files (list_to_map [
             ("C:\Temp\claude-code-notifier\start-default", "1700000000000");
             ("C:\Temp\claude-code-notifier\prompt-default", "an earlier prompt")])
             empty_world in
  length (calls (checkDuration Example.parse host w).2) = 4%nat /\
  length (calls (permissionRequest Example.parse host w).2) = 1%nat.
Proof.
  intros host w.
  destruct (hooks_run_only_the_language_probe Example.parse host w (JString "default")
              "1700000000000" "")
    as (_ & Hwin); [reflexivity | vm_compute; reflexivity | reflexivity |].
  destruct (Hwin eq_refl) as (Hperm & Hstop).
  split; [rewrite Hstop|rewrite Hperm]; vm_compute; reflexivity.
Defined.

(** X24. A prompt hook with an empty prompt after one with a prompt, for a
    session whose identifier is a file name, leaves the earlier excerpt in
    place, and the stop hook that follows 60 seconds or more later announces
    the earlier prompt under the duration since the second start. *)
Theorem restart_without_prompt_keeps_excerpt
    (JSON_parse : string -> option JSValue) (host1 host2 host3 : Host) (w : World)
    (id prompt : string) (again : option string) :
  same_machine host1 host2 ->
  same_machine host2 host3 ->
  session_of (readStdin JSON_parse host1) = Return (JString id) ->
  session_of (readStdin JSON_parse host2) = Return (JString id) ->
  session_of (readStdin JSON_parse host3) = Return (JString id) ->
  file_name id ->
  field (readStdin JSON_parse host1) "prompt" = JString prompt ->
  prompt <> "" ->
  field (readStdin JSON_parse host2) "prompt" = text_or_absent again ->
  JSString.or_else again "" = "" ->
  time_value (date_now host2) ->
  time_value (date_now host3) ->
  let duration := (date_now host3 - date_now host2) `div` 1000 in
  60 <= duration ->
  let w1 := (startTimer JSON_parse host1 w).2 in
  let w2 := (startTimer JSON_parse host2 w1).2 in
  files w2 !! session_file host3 (JString id) "start" = Some (toString (date_now host2)) /\
  files w2 !! session_file host3 (JString id) "prompt" = Some (utf8 (slice prompt 0 50)) /\
  exists notice,
    notifications (checkDuration JSON_parse host3 w2).2 = notifications w ++ [notice] /\
    message notice =
      (Labels.completed (resolved_language host3) +:+ " (" +:+ toString duration +:+
       Labels.seconds (resolved_language host3) +:+ ")") +:+ lf +:+
      utf8 (slice prompt 0 50) +:+ "...".
Proof.
  intros H12 H23 Hs1 Hs2 Hs3 Hid Hprompt Hne Hagain Hempty [Hnow _] _ duration Hd w1 w2.
  assert (Hp1 : JS.or_else (field (readStdin JSON_parse host1) "prompt") (JString "")
                = JString prompt).
  { rewrite Hprompt. unfold JS.or_else. destruct prompt; [congruence|reflexivity]. }
  assert (Hp2 : JS.or_else (field (readStdin JSON_parse host2) "prompt") (JString "")
                = JString "").
  { rewrite Hagain. unfold JS.or_else. destruct again as [[|c r]|]; try reflexivity.
    discriminate Hempty. }
  destruct (startTimer_run JSON_parse host1 w _ _ Hs1 Hp1) as (w1' & Hrun1 & Hf1 & Hn1).
  assert (w1 = w1') as -> by (subst w1; rewrite Hrun1; reflexivity).
  destruct (startTimer_run JSON_parse host2 w1' _ _ Hs2 Hp2) as (w2' & Hrun2 & Hf2 & Hn2).
  assert (w2 = w2') as -> by (subst w2; rewrite Hrun2; reflexivity).
  assert (Hstart : files w2' !! session_file host3 (JString id) "start"
                   = Some (toString (date_now host2))).
  { rewrite (session_file_same host2 host3 _ _ H23), Hf2.
    apply stored_by_start_start, Hid. }
  assert (Hexcerpt : files w2' !! session_file host3 (JString id) "prompt"
                     = Some (utf8 (slice prompt 0 50))).
  { rewrite (session_file_same host2 host3 _ _ H23), Hf2.
    rewrite stored_by_start_prompt by exact Hid. cbn [truthy].
    rewrite (session_file_same host1 host2 _ _ H12), Hf1.
    rewrite stored_by_start_prompt by exact Hid.
    destruct prompt; [congruence|reflexivity]. }
  split; [exact Hstart|]. split; [exact Hexcerpt|].
  destruct (checkDuration_notice JSON_parse host3 w2' id (date_now host2)
              (Some (utf8 (slice prompt 0 50)))
              (files w2' !! session_file host3 (JString id) "window"))
    as (notice & Hnotes & Hmessage & _); try assumption; try reflexivity.
  exists notice. rewrite Hnotes, Hn2, Hn1. split; [reflexivity|exact Hmessage].
Qed.

Lemma restart_without_prompt_keeps_excerpt_witness :
  let host1 := Example.linux Example.payload_s1 1700000000000 in
  let host2 := Example.linux ("{" +:+ quoted "session_id" +:+ ":" +:+ quoted "s1" +:+ "}")
                 1700000100000 in
  let host3 := Example.linux Example.payload_s1 1700000161000 in
  let w2 := (startTimer Sample.parse host2
               (startTimer Sample.parse host1 empty_world).2).2 in
  files w2 !! "/tmp/claude-code-notifier/start-s1" = Some "1700000100000" /\
  map message (notifications (checkDuration Sample.parse host3 w2).2) =
    ["완료 (61초)" +:+ lf +:+ "fix the bug in parser.ts and rerun tests please..."].
Proof.
  intros host1 host2 host3 w2.
  destruct (restart_without_prompt_keeps_excerpt Sample.parse host1 host2 host3 empty_world
              "s1" "fix the bug in parser.ts and rerun tests please" None)
    as (Hstart & _ & notice & Hn & Hm);
    [repeat split | repeat split | reflexivity | reflexivity | reflexivity | reflexivity
    | reflexivity | discriminate | reflexivity | reflexivity | split; discriminate
    | split; discriminate | vm_compute; discriminate |].
  split; [exact Hstart|].
  subst w2. rewrite Hn. cbn [map app notifications empty_world]. rewrite Hm.
  vm_compute. reflexivity.
Defined.
